(** * A shallow embedding of Olive's optimization engine

    Source: [src/olive/engine/engine.py] (class [Engine]).

    The engine is a Python object that drives passes over a model, with an
    on-disk cache ([models/], [runs/], [evaluations/]) and a number of
    collaborators (passes, systems, the search strategy, the evaluator).
    The embedding keeps the shape of the source:

    - Python integers are [Z]; [str(n)] and [int(s)] are the decimal
      rendering and parsing of the Standard Library;
    - Python floats are IEEE binary64 primitive floats;
    - exceptions are values of [exn]; code that may raise returns a [result];
    - methods that read or write [self] or the disk are computations in a
      state-and-exception monad over [engine_state];
    - the cache directories are finite maps from entry names to entries;
    - the collaborators the engine only calls are fields of the class
      [OliveEnv] or of the records [Pass] and [OliveSystem]; every call to
      a host, a target or [save_model] is recorded in the state's trace. *)

From Stdlib Require Import ZArith String Ascii List Bool Lia.
From Stdlib Require Import Decimal DecimalString DecimalZ DecimalFacts.
From Stdlib Require Import Floats.
From Stdlib Require Import Sorted.
From stdpp Require Import gmap strings list fin_maps.

Local Open Scope string_scope.
Local Open Scope Z_scope.
Set Warnings "-clear-no-such-hyp,-inexact-float".

(* ================================================================== *)
(** * Part I. Definitions                                              *)
(* ================================================================== *)

(** ** Python strings *)

Module PyStr.

(** [str(n)] for a Python [int]. *)
Definition str_of_int (n : Z) : string := NilZero.string_of_int (Z.to_int n).

(** ASCII white space, as stripped by [int(s)]. *)
Definition is_ws (c : ascii) : bool :=
  let n := nat_of_ascii c in
  ((9 <=? n)%nat && (n <=? 13)%nat) || (n =? 32)%nat || ((28 <=? n)%nat && (n <=? 31)%nat).

Fixpoint lstrip (s : string) : string :=
  match s with
  | String c s' => if is_ws c then lstrip s' else s
  | EmptyString => EmptyString
  end.

Fixpoint rstrip (s : string) : string :=
  match s with
  | String c s' =>
    match rstrip s' with
    | EmptyString => if is_ws c then EmptyString else String c EmptyString
    | r => String c r
    end
  | EmptyString => EmptyString
  end.

(** [int(s)] on ASCII input: optional surrounding white space, an optional
  sign, then decimal digits; [None] stands for [ValueError].  (Python
  also accepts non-ASCII decimal digits; entry names here are ASCII.) *)
Definition int_of_str (s : string) : option Z :=
  match rstrip (lstrip s) with
  | String "+" s' =>
    match s' with
    | String "-" _ => None
    | _ => option_map Z.of_uint (NilZero.uint_of_string s')
    end
  | t => option_map Z.of_int (NilZero.int_of_string t)
  end.

(** [s.startswith(p)]. *)
Fixpoint startswith (p s : string) : bool :=
  match p, s with
  | EmptyString, _ => true
  | String a p', String b s' => Ascii.eqb a b && startswith p' s'
  | String _ _, EmptyString => false
  end.

(** [c in s] for a one-character [c]. *)
Fixpoint contains (c : ascii) (s : string) : bool :=
  match s with
  | EmptyString => false
  | String a s' => Ascii.eqb a c || contains c s'
  end.

(** [s.split(sep)[0]] for a one-character separator. *)
Fixpoint split_head (sep : ascii) (s : string) : string :=
  match s with
  | EmptyString => EmptyString
  | String c s' => if Ascii.eqb c sep then EmptyString else String c (split_head sep s')
  end.

(** [s.rfind(c)], [None] for [-1]. *)
Fixpoint rfind (c : ascii) (s : string) : option nat :=
  match s with
  | EmptyString => None
  | String a s' =>
    match rfind c s' with
    | Some i => Some (S i)
    | None => if Ascii.eqb a c then Some 0%nat else None
    end
  end.

(** [pathlib.PurePath.stem] of a path's final component: the name without
  its last suffix; a leading or a trailing dot starts no suffix. *)
Definition path_stem (name : string) : string :=
  match rfind "." name with
  | Some i =>
    if (0 <? i)%nat && (i <? String.length name - 1)%nat
    then substring 0 i name else name
  | None => name
  end.

(** ASCII [str.lower]. *)
Definition lower_ascii (c : ascii) : ascii :=
  let n := nat_of_ascii c in
  if (65 <=? n)%nat && (n <=? 90)%nat then ascii_of_nat (n + 32) else c.

Fixpoint lower (s : string) : string :=
  match s with
  | EmptyString => EmptyString
  | String c s' => String (lower_ascii c) (lower s')
  end.

(** [sep.join(parts)]. *)
Fixpoint join (sep : string) (parts : list string) : string :=
  match parts with
  | [] => EmptyString
  | [p] => p
  | p :: ps => p +:+ sep +:+ join sep ps
  end.

(** Every character of [s] satisfies [P]. *)
Fixpoint all_chars (P : ascii -> bool) (s : string) : bool :=
  match s with
  | EmptyString => true
  | String c s' => P c && all_chars P s'
  end.

Definition is_digit (c : ascii) : bool :=
  let n := nat_of_ascii c in ((48 <=? n)%nat && (n <=? 57)%nat).

Definition is_digit_or_minus (c : ascii) : bool :=
  is_digit c || Ascii.eqb c "-".

End PyStr.

(** ** Exceptions and results *)

(** The exception classes the engine distinguishes.  [OtherException] is
    any other subclass of [Exception] (outside the hierarchies of the
    named ones): [KeyError], [OSError], [RuntimeError], ...  Exceptions
    that derive from [BaseException] only ([KeyboardInterrupt],
    [SystemExit]) are not modelled. *)
Inductive exn : Type :=
| AttributeError
| ImportError
| TypeError
| ValueError
| AssertionError
| OlivePassException
| OtherException (cls : string).

#[global] Instance exn_eq_dec : EqDecision exn.
Proof. solve_decision. Defined.

(** [EXCEPTIONS_TO_RAISE = (AttributeError, ImportError, TypeError, ValueError)]:
    [isinstance(e, EXCEPTIONS_TO_RAISE)]. *)
Definition EXCEPTIONS_TO_RAISE (e : exn) : bool :=
  match e with
  | AttributeError | ImportError | TypeError | ValueError => true
  | _ => false
  end.

Inductive result (A : Type) : Type :=
| Ok (a : A)
| Raise (e : exn).
Arguments Ok {A} a.
Arguments Raise {A} e.

(** ** JSON values *)

#[local] Unset Elimination Schemes.
Inductive json : Type :=
| JNull
| JBool (b : bool)
| JInt (z : Z)
| JStr (s : string)
| JArr (l : list json)
| JObj (fields : list (string * json)).
#[local] Set Elimination Schemes.

(** [j == {}]. *)
Definition is_empty_obj (j : json) : bool :=
  match j with
  | JObj [] => true
  | _ => false
  end.

(** Python truthiness of a JSON value. *)
Definition json_truthy (j : json) : bool :=
  match j with
  | JNull => false
  | JBool b => b
  | JInt z => negb (z =? 0)%Z
  | JStr s => negb (String.eqb s "")
  | JArr l => match l with [] => false | _ => true end
  | JObj l => match l with [] => false | _ => true end
  end.

(** ** Insertion-ordered dictionaries

    A Python [dict] (or [OrderedDict]): assignment to an existing key keeps
    its position, a new key goes last; iteration follows insertion order. *)

Module PyDict.
Section Dict.
Context {K V : Type} `{EqDecision K}.

Fixpoint get (k : K) (d : list (K * V)) : option V :=
  match d with
  | [] => None
  | (k', v) :: d' => if decide (k' = k) then Some v else get k d'
  end.

Fixpoint set (k : K) (v : V) (d : list (K * V)) : list (K * V) :=
  match d with
  | [] => [(k, v)]
  | (k', v') :: d' =>
      if decide (k' = k) then (k', v) :: d' else (k', v') :: set k v d'
  end.

Definition mem (k : K) (d : list (K * V)) : bool :=
  match get k d with Some _ => true | None => false end.

Definition keys (d : list (K * V)) : list K := map fst d.
Definition values (d : list (K * V)) : list V := map snd d.
End Dict.
End PyDict.

(** ** Hardware, metrics and goals *)

(** [olive.hardware.AcceleratorSpec]; the device is held by its enum value
    (the lower-case device string). *)
Record AcceleratorSpec : Type := mkAcceleratorSpec {
  accelerator_type : string;
  execution_provider : string;
}.

#[global] Instance AcceleratorSpec_eq_dec : EqDecision AcceleratorSpec.
Proof. solve_decision. Defined.

(** [olive.systems.common.SystemType]. *)
Inductive SystemType : Type := Local | AzureML | Docker | PythonEnvironment.

#[global] Instance SystemType_eq_dec : EqDecision SystemType.
Proof. solve_decision. Defined.

(** The goal kinds a metric goal is validated against. *)
Inductive goal_type : Type :=
| threshold
| max_degradation
| min_improvement
| percent_max_degradation
| percent_min_improvement.

#[global] Instance goal_type_eq_dec : EqDecision goal_type.
Proof. solve_decision. Defined.

Record MetricGoal : Type := mkMetricGoal {
  goal_kind : goal_type;      (* goal.type *)
  goal_value : float;         (* goal.value *)
}.

Record SubMetric : Type := mkSubMetric {
  sub_name : string;
  sub_priority : Z;
  sub_higher_is_better : bool;
  sub_goal : option MetricGoal;
}.

Record Metric : Type := mkMetric {
  metric_name : string;
  sub_types : list SubMetric;
}.

Record SubMetricResult : Type := mkSubMetricResult {
  res_value : float;
  res_priority : Z;
  res_higher_is_better : bool;
}.

(** Modelled from the spec: [MetricResult] (olive.evaluator.metric, not part
    of the engine module) is a mapping from the joint metric key to the
    sub-metric result; it is falsy when empty, and [get_value] indexes it
    with the joint key. *)
Definition MetricResult : Type := list (string * SubMetricResult).

Record OliveEvaluatorConfig : Type := mkEvaluatorConfig {
  metrics : list Metric;
}.

(** One entry of an objective dictionary. *)
Record Objective : Type := mkObjective {
  obj_higher_is_better : bool;
  obj_goal : option float;
  obj_priority : option Z;     (* absent in the dummy objective *)
}.

(** ** Models, passes and systems *)

(** [OliveModel] values and the state of everything outside the engine's
    cache directory (hosts, targets, the strategy, the output directory) are
    abstract. *)
Class OliveTypes : Type := {
  OliveModel : Type;
  World : Type;
}.

Section DataModel.
Context `{OliveTypes}.

(** What a variable holding "a model" may contain besides [None]:
    a model or the sentinel [PRUNED_CONFIG]. *)
Inductive model_value : Type :=
| Model (m : OliveModel)
| PRUNED_CONFIG.

(** An instance [p] of a pass class, by the members the engine calls. *)
Record Pass : Type := mkPass {
  pass_class_name : string;                      (* p.__class__.__name__ *)
  search_space : list (string * json);           (* p.search_space() *)
  config_at_search_point : json -> json;
  serialize_config : json -> json;
  is_accelerator_agnostic : AcceleratorSpec -> bool;
  validate_search_point : json -> bool;
}.

(** [olive.systems.olive_system.OliveSystem].  A call of [run_pass] or
    [evaluate_model] reads and changes the outside world and returns or
    raises; the input of [run_pass] is whatever the engine holds as the
    input model. *)
Record OliveSystem : Type := mkSystem {
  system_type : SystemType;
  accelerators : option (list string);
  get_supported_execution_providers : list string;
  run_pass : Pass -> option model_value -> string -> json -> World -> result OliveModel * World;
}.

(** A pass class: [__name__], the static [generate_search_space] and the
    constructor. *)
Record PassType : Type := mkPassType {
  type_name : string;
  generate_search_space : AcceleratorSpec -> json -> bool -> json;
  new_pass : AcceleratorSpec -> json -> bool -> Pass;
}.

(** An entry of [self.pass_config], as written by [register]. *)
Record PassDescriptor : Type := mkPassDescriptor {
  pd_type : PassType;
  pd_config : json;
  pd_disable_search : bool;
  pd_host : option OliveSystem;
  pd_evaluator : option OliveEvaluatorConfig;
  pd_clean_run_cache : bool;
  pd_output_name : option string;
}.

(** An entry of [self.passes], as written by [register_pass]: the keys are
    "pass", "host", "evaluator" and "output_name". *)
Record PassItem : Type := mkPassItem {
  pi_pass : Pass;
  pi_host : option OliveSystem;
  pi_evaluator : option OliveEvaluatorConfig;
  pi_output_name : option string;
}.

(** A step proposed by the search strategy. *)
Record Step : Type := mkStep {
  step_model_id : string;
  step_search_point : json;
  step_passes : list (string * json);
}.

(** ** The cache directories *)

Inductive file : Type :=
| JsonText (j : json)        (* a file that parses as JSON *)
| Garbage.                   (* any other content *)

Inductive dirent : Type :=
| EFile (f : file)
| EDir.

(** A record of [Footprint.record(...)]. *)
Record FootprintRecord : Type := mkFootprintRecord {
  fp_model_id : string;
  fp_model_config : option json;
  fp_parent_model_id : option string;
  fp_from_pass : option string;
  fp_pass_run_config : option json;
  fp_metrics : option MetricResult;
}.

(** Calls the engine makes on its collaborators, in order. *)
Inductive event : Type :=
| EvRunPass (pass_name : string) (output_model_path : string)   (* host.run_pass *)
| EvEvaluate (model_id : string)                                (* self._evaluate_model *)
| EvSaveModel (model_id output_name : string)                   (* cache_utils.save_model *)
| EvWriteMetrics (file_name : string)                           (* json.dump of a signal *)
| EvPackage                                                     (* generate_output_artifacts *)
| EvLogError (msg : string)
| EvLogWarning (msg : string).

(** The mutable part of the engine and of its cache directory. *)
Record engine_state : Type := mkState {
  models_dir : gmap string dirent;                 (* <cache_dir>/models *)
  runs_dir : gmap string dirent;                   (* <cache_dir>/runs *)
  new_model_number : Z;                            (* self._new_model_number *)
  initialized : bool;                              (* self._initialized *)
  passes : list (string * PassItem);               (* self.passes *)
  pass_search_spaces : list (string * list (string * json));
  footprints : list (AcceleratorSpec * FootprintRecord);
  world : World;
  trace : list event;
}.

(** What [__init__] fixes for the lifetime of the engine. *)
Record Engine : Type := mkEngine {
  no_search : bool;
  host : OliveSystem;
  target : OliveSystem;
  evaluator_config : option OliveEvaluatorConfig;
  accelerator_specs : list AcceleratorSpec;
  pass_config : list (string * PassDescriptor);
  cfg_clean_cache : bool;                          (* self._config.clean_cache *)
  cfg_clean_evaluation_cache : bool;
}.

End DataModel.

(** What [Engine.run] stores in [outputs] for one accelerator. *)
Inductive run_output : Type :=
| OutMetrics (results : MetricResult)                          (* evaluation only *)
| OutModel (model : json) (metrics : option MetricResult)      (* no search *)
| OutFootprint (nodes : list string).                          (* search: the frontier *)

(** ** The collaborators the engine calls

    Functions of other modules of the repository and of the objects handed
    to the engine.  Those that touch the outside world thread [World]. *)
Class OliveEnv `{OliveTypes} : Type := {
  (* OliveModel.to_json(check_object) *)
  model_to_json : bool -> OliveModel -> json;
  (* ModelConfig.from_json(j).create_model() *)
  model_from_json : json -> result OliveModel;
  (* olive.common.utils.hash_dict *)
  hash_dict : json -> string;
  (* str(accelerator_spec) *)
  accel_str : AcceleratorSpec -> string;
  (* membership of a lower-cased string in the Device enum *)
  is_device : string -> bool;
  (* AcceleratorLookup.get_execution_providers_for_device *)
  get_execution_providers_for_device : string -> list string;
  (* olive.evaluator.metric.joint_metric_key *)
  joint_metric_key : string -> string -> string;
  (* model.model_resource_path is None, local or a string name *)
  resource_is_local : OliveModel -> bool;
  (* cache_utils.download_resource followed by model.set_local_model_path *)
  download_resource : OliveModel -> World -> result OliveModel * World;
  (* the evaluation cache and target.evaluate_model behind _evaluate_model *)
  evaluation_outcome :
    option (model_value) -> string -> option OliveEvaluatorConfig -> AcceleratorSpec ->
    World -> result MetricResult * World;
  (* cache_utils.save_model(model_number, output_dir, output_name, ...) *)
  save_model : gmap string dirent -> string -> string -> World -> result json * World;
  (* cache_utils.clean_pass_run_cache(pass_type_name, cache_dir) on (models, runs) *)
  clean_pass_run_cache :
    string -> gmap string dirent * gmap string dirent -> gmap string dirent * gmap string dirent;
  (* search_strategy.initialize(...) followed by the first next_step() *)
  strategy_first_step :
    list (string * list (string * json)) -> string -> list (string * Objective) ->
    World -> option Step * World;
}.

(** ** State and exceptions *)

Section Monad.
Context `{OliveTypes}.

(** A method of the engine: from a state to a value or an exception, and
    the state it leaves (effects made before a [raise] stay). *)
Definition M (A : Type) : Type := engine_state -> result A * engine_state.

Definition ret {A} (a : A) : M A := fun st => (Ok a, st).

Definition raise {A} (e : exn) : M A := fun st => (Raise e, st).

Definition bind {A B} (c : M A) (k : A -> M B) : M B :=
  fun st =>
    match c st with
    | (Ok a, st') => k a st'
    | (Raise e, st') => (Raise e, st')
    end.

(** [try: c  except <any Exception> as e: h e]. *)
Definition try_except {A} (c : M A) (h : exn -> M A) : M A :=
  fun st =>
    match c st with
    | (Ok a, st') => (Ok a, st')
    | (Raise e, st') => h e st'
    end.

Definition get_state : M engine_state := fun st => (Ok st, st).

Definition modify (f : engine_state -> engine_state) : M unit := fun st => (Ok tt, f st).

(** A pure computation that may raise. *)
Definition lift_result {A} (r : result A) : M A :=
  match r with
  | Ok a => ret a
  | Raise e => raise e
  end.

(** [assert cond]. *)
Definition assert (cond : bool) : M unit :=
  if cond then ret tt else raise AssertionError.

(** Field updates of the state. *)
Definition with_models_dir (d : gmap string dirent) (st : engine_state) : engine_state :=
  mkState d (runs_dir st) (new_model_number st) (initialized st)
          (passes st) (pass_search_spaces st) (footprints st) (world st) (trace st).

Definition with_runs_dir (d : gmap string dirent) (st : engine_state) : engine_state :=
  mkState (models_dir st) d (new_model_number st) (initialized st)
          (passes st) (pass_search_spaces st) (footprints st) (world st) (trace st).

Definition with_new_model_number (n : Z) (st : engine_state) : engine_state :=
  mkState (models_dir st) (runs_dir st) n (initialized st)
          (passes st) (pass_search_spaces st) (footprints st) (world st) (trace st).

Definition with_initialized (b : bool) (st : engine_state) : engine_state :=
  mkState (models_dir st) (runs_dir st) (new_model_number st) b
          (passes st) (pass_search_spaces st) (footprints st) (world st) (trace st).

Definition with_passes (p : list (string * PassItem)) (st : engine_state) : engine_state :=
  mkState (models_dir st) (runs_dir st) (new_model_number st) (initialized st)
          p (pass_search_spaces st) (footprints st) (world st) (trace st).

Definition with_pass_search_spaces (s : list (string * list (string * json)))
    (st : engine_state) : engine_state :=
  mkState (models_dir st) (runs_dir st) (new_model_number st) (initialized st)
          (passes st) s (footprints st) (world st) (trace st).

Definition with_footprints (f : list (AcceleratorSpec * FootprintRecord))
    (st : engine_state) : engine_state :=
  mkState (models_dir st) (runs_dir st) (new_model_number st) (initialized st)
          (passes st) (pass_search_spaces st) f (world st) (trace st).

Definition with_world (w : World) (st : engine_state) : engine_state :=
  mkState (models_dir st) (runs_dir st) (new_model_number st) (initialized st)
          (passes st) (pass_search_spaces st) (footprints st) w (trace st).

Definition with_trace (t : list event) (st : engine_state) : engine_state :=
  mkState (models_dir st) (runs_dir st) (new_model_number st) (initialized st)
          (passes st) (pass_search_spaces st) (footprints st) (world st) t.

(** A call on a collaborator that touches the outside world. *)
Definition call_world {A} (f : World -> result A * World) : M A :=
  fun st => let '(r, w) := f (world st) in (r, with_world w st).

(** A call or a log line, appended to the trace. *)
Definition emit (ev : event) : M unit :=
  modify (fun st => with_trace (trace st ++ [ev]) st).

Definition set_models_dir (d : gmap string dirent) : M unit := modify (with_models_dir d).

Definition set_runs_dir (d : gmap string dirent) : M unit := modify (with_runs_dir d).

Definition set_new_model_number (n : Z) : M unit := modify (with_new_model_number n).

Definition set_initialized (b : bool) : M unit := modify (with_initialized b).

Definition set_passes (p : list (string * PassItem)) : M unit := modify (with_passes p).

Definition set_pass_search_spaces (s : list (string * list (string * json))) : M unit :=
  modify (with_pass_search_spaces s).

(** [self.footprints[accelerator_spec].record(...)]. *)
Definition footprint_record (spec : AcceleratorSpec) (r : FootprintRecord) : M unit :=
  modify (fun st => with_footprints (footprints st ++ [(spec, r)]) st).

(** [for x in xs: body x]. *)
Fixpoint for_each {A} (xs : list A) (body : A -> M unit) : M unit :=
  match xs with
  | [] => ret tt
  | x :: xs' => bind (body x) (fun _ => for_each xs' body)
  end.

End Monad.

Notation "x <- c ;; k" := (bind c (fun x => k))
  (at level 20, c at level 99, k at level 200, format "'[v' x  <-  c  ;; '/' k ']'").
Notation "' pat <- c ;; k" := (bind c (fun pat => k))
  (at level 20, pat pattern, c at level 99, k at level 200, only parsing).
Notation "c ;; k" := (bind c (fun _ => k))
  (at level 100, k at level 200, right associativity).

(** ** The engine *)

Section Engine.
Context `{OliveEnv}.

(** *** [Engine.__init__]: the accelerator specs (lines 83-128) *)

(** The three accumulators of the loop over devices and providers. *)
Record resolver_state : Type := mkResolver {
  not_supported_ep : gset string;
  processed_ep : gset string;
  specs_acc : list AcceleratorSpec;
}.

(** The body of [for ep in eps] for one device. *)
Definition resolve_ep (device : string) (supported_eps : list string) (is_cpu_available : bool)
    (rs : resolver_state) (ep : string) : resolver_state :=
  if negb (bool_decide (ep ∈ supported_eps)) then
    mkResolver ({[ep]} ∪ not_supported_ep rs) ({[ep]} ∪ processed_ep rs) (specs_acc rs)
  else if bool_decide (ep = "CPUExecutionProvider")
          && negb (bool_decide (device = "cpu")) && is_cpu_available then
    rs
  else
    mkResolver (not_supported_ep rs) ({[ep]} ∪ processed_ep rs)
               (specs_acc rs ++ [mkAcceleratorSpec device ep]).

(** [for accelerator in accelerators]; [Device(...)] raises [ValueError] on
    a string that is no device. *)
Fixpoint resolve_devices (execution_providers : list string) (is_cpu_available : bool)
    (accelerators : list string) (rs : resolver_state) : result resolver_state :=
  match accelerators with
  | [] => Ok rs
  | accelerator :: rest =>
      let device := PyStr.lower accelerator in
      if is_device device then
        let supported_eps := get_execution_providers_for_device device in
        let eps := List.filter (fun e => negb (bool_decide (e ∈ processed_ep rs)))
                               execution_providers in
        resolve_devices execution_providers is_cpu_available rest
          (fold_left (resolve_ep device supported_eps is_cpu_available) eps rs)
      else Raise ValueError
  end.

(** What the loop over devices maintains. *)
Definition resolver_inv (is_cpu_available : bool) (rs : resolver_state) : Prop :=
  (forall s, s ∈ specs_acc rs -> execution_provider s ∈ processed_ep rs) /\
  (forall s1 s2, s1 ∈ specs_acc rs -> s2 ∈ specs_acc rs ->
                 execution_provider s1 = execution_provider s2 -> s1 = s2) /\
  (is_cpu_available = true ->
   forall s, s ∈ specs_acc rs -> execution_provider s = "CPUExecutionProvider" ->
             accelerator_type s = "cpu") /\
  not_supported_ep rs ⊆ processed_ep rs.

(** How a state [rs'] reached while looping over the providers of [device]
    extends the state [rs] the device started from. *)
Definition extends_for (device : string) (rs rs' : resolver_state) : Prop :=
  processed_ep rs ⊆ processed_ep rs' /\
  not_supported_ep rs ⊆ not_supported_ep rs' /\
  (forall s, s ∈ specs_acc rs -> s ∈ specs_acc rs') /\
  (forall s, s ∈ specs_acc rs' ->
             s ∈ specs_acc rs \/
             (accelerator_type s = device /\ execution_provider s ∉ processed_ep rs)).

(** The execution providers [__init__] settles on. *)
Definition init_execution_providers (target : OliveSystem) (execution_providers : option (list string))
    : result (list string) :=
  match execution_providers with
  | Some eps => Ok eps
  | None =>
      match system_type target with
      | AzureML => Raise ValueError
      | Local | PythonEnvironment => Ok (get_supported_execution_providers target)
      | Docker => Ok ["CPUExecutionProvider"]
      end
  end.

(** [self.accelerator_specs] as [__init__] leaves it, or the exception it
    raises ([assert self.accelerator_specs]).  The log lines are left out. *)
Definition init_accelerator_specs (target : OliveSystem) (execution_providers : option (list string))
    : result (list AcceleratorSpec) :=
  match init_execution_providers target execution_providers with
  | Raise e => Raise e
  | Ok eps =>
      let accels := match accelerators target with
                    | None => ["CPU"]
                    | Some a => a
                    end in
      let is_cpu_available := bool_decide ("cpu" ∈ map PyStr.lower accels) in
      match resolve_devices eps is_cpu_available accels (mkResolver ∅ ∅ []) with
      | Raise e => Raise e
      | Ok rs =>
          match specs_acc rs with
          | [] => Raise AssertionError
          | specs => Ok specs
          end
      end
  end.

(** *** [initialize] *)

(** [dir.glob(pattern)], the pattern given by the names it matches. *)
Definition glob (matches : string -> bool) (dir : gmap string dirent) : list string :=
  List.filter matches (map fst (map_to_list dir)).

(** The pattern ["*_*"]. *)
Definition pat_any_underscore (name : string) : bool := PyStr.contains "_" name.

(** The pattern [f"{n}_*"]. *)
Definition pat_number (n : Z) (name : string) : bool :=
  PyStr.startswith (PyStr.str_of_int n +:+ "_") name.

(** [int(model_file.stem.split("_")[0])]. *)
Definition model_file_number (name : string) : option Z :=
  PyStr.int_of_str (PyStr.split_head "_" (PyStr.path_stem name)).

(** [[int(...) for model_file in model_files]]; [None] when one raises. *)
Fixpoint model_file_numbers (names : list string) : option (list Z) :=
  match names with
  | [] => Some []
  | name :: rest =>
      match model_file_number name, model_file_numbers rest with
      | Some n, Some ns => Some (n :: ns)
      | _, _ => None
      end
  end.

(** [max(l)] of a list; [0] stands in for the empty list, which the
    engine never passes. *)
Definition py_max (l : list Z) : Z :=
  match l with
  | [] => 0
  | x :: l' => fold_left Z.max l' x
  end.

(** The counter [initialize] computes from the listing of [models/]
    (lines 172-174); a name whose token is no integer raises [ValueError]. *)
Definition initial_model_number (dir : gmap string dirent) : result Z :=
  let model_files := glob pat_any_underscore dir in
  if (0 <? length model_files)%nat then
    match model_file_numbers model_files with
    | Some ns => Ok (py_max ns + 1)
    | None => Raise ValueError
    end
  else Ok 0.

(** The loop that cleans the run cache of the passes that ask for it. *)
Definition clean_run_caches (eng : Engine) : M unit :=
  for_each (PyDict.values (pass_config eng)) (fun pass_config =>
    if pd_clean_run_cache pass_config then
      st <- get_state ;;
      let '(m, r) := clean_pass_run_cache (type_name (pd_type pass_config))
                       (models_dir st, runs_dir st) in
      set_models_dir m ;; set_runs_dir r
    else ret tt).

(** [clean_cache] empties the cache directory; the evaluation cache is not
    part of the state. *)
Definition initialize (eng : Engine) : M unit :=
  (if cfg_clean_cache eng then set_models_dir ∅ ;; set_runs_dir ∅ else ret tt) ;;
  set_new_model_number 0 ;;
  st <- get_state ;;
  n <- lift_result (initial_model_number (models_dir st)) ;;
  set_new_model_number n ;;
  clean_run_caches eng ;;
  set_initialized true.

(** *** [register_pass] and [setup_passes] *)

(** The candidate name of the loop's iteration that starts with [id]. *)
Definition auto_name (cls : string) (id : Z) : string :=
  if 0 <? id then cls +:+ "_" +:+ PyStr.str_of_int id else cls.

(** [while True: ... if name not in self.passes: break], by the iterations
    left; [None] when they run out. *)
Fixpoint fresh_name_loop (fuel : nat) (cls : string) (id : Z) (registry : list (string * PassItem))
    : option string :=
  let name := auto_name cls id in
  if negb (PyDict.mem name registry) then Some name
  else match fuel with
       | O => None
       | S fuel' => fresh_name_loop fuel' cls (id + 1) registry
       end.

(** The loop started at [id = 0]; one more iteration than there are
    registered passes always suffices (lemma [fresh_name_total]). *)
Definition fresh_name (cls : string) (registry : list (string * PassItem)) : M string :=
  match fresh_name_loop (length registry) cls 0 registry with
  | Some name => ret name
  | None => raise (OtherException "fuel")
  end.

Definition register_pass (eng : Engine) (p : Pass) (name : option string)
    (host : option OliveSystem) (evaluator_config : option OliveEvaluatorConfig)
    (output_name : option string) : M unit :=
  st <- get_state ;;
  name <- match name with
          | Some name => assert (negb (PyDict.mem name (passes st))) ;; ret name
          | None => fresh_name (pass_class_name p) (passes st)
          end ;;
  if no_search eng && (0 <? length (search_space p))%nat then
    raise ValueError
  else
    st <- get_state ;;
    set_passes (PyDict.set name (mkPassItem p host evaluator_config output_name) (passes st)).

Definition setup_passes (eng : Engine) (accelerator_spec : AcceleratorSpec) : M unit :=
  set_passes [] ;;
  for_each (PyDict.values (pass_config eng)) (fun config =>
    let pass_cls := pd_type config in
    let pass_cfg := pd_config config in
    let pass_cfg := generate_search_space pass_cls accelerator_spec pass_cfg (pd_disable_search config) in
    let p := new_pass pass_cls accelerator_spec pass_cfg (pd_disable_search config) in
    register_pass eng p None (pd_host config) (pd_evaluator config) (pd_output_name config)) ;;
  st <- get_state ;;
  set_pass_search_spaces
    (map (fun pass_name =>
            (pass_name,
             match PyDict.get pass_name (passes st) with
             | Some item => search_space (pi_pass item)
             | None => []
             end))
         (PyDict.keys (passes st))).

(** The body of the loop of [setup_passes]. *)
Definition register_descriptor (eng : Engine) (accel : AcceleratorSpec)
    (config : PassDescriptor) : M unit :=
  let pass_cls := pd_type config in
  let pass_cfg := pd_config config in
  let pass_cfg := generate_search_space pass_cls accel pass_cfg (pd_disable_search config) in
  let p := new_pass pass_cls accel pass_cfg (pd_disable_search config) in
  register_pass eng p None (pd_host config) (pd_evaluator config) (pd_output_name config).

(** The pass instance [setup_passes] builds from a descriptor. *)
Definition instance_of (accel : AcceleratorSpec) (config : PassDescriptor) : Pass :=
  new_pass (pd_type config) accel
    (generate_search_space (pd_type config) accel (pd_config config) (pd_disable_search config))
    (pd_disable_search config).

(** *** [resolve_goals] and [resolve_objectives] *)

(** Modelled from the spec: [Metric.get_sub_type_info(info_name, callback)]
    (olive.evaluator.metric) maps the name of every sub-metric whose
    priority is positive ("only resolve sub metrics whose priority > 0") to
    [callback(getattr(sub_type, info_name))]. *)
Definition get_sub_type_info {A} (metric : Metric) (info : SubMetric -> A) : list (string * A) :=
  fold_left
    (fun d sub_type =>
       if sub_priority sub_type <=? 0 then d
       else PyDict.set (sub_name sub_type) (info sub_type) d)
    (sub_types metric) [].

(** The sub-metrics [get_sub_type_info] keeps. *)
Definition prioritized (metric : Metric) : list SubMetric :=
  List.filter (fun sub_type => negb (sub_priority sub_type <=? 0)) (sub_types metric).

(** [lambda x: 1 if x else -1]; the integer is held as the float the
    arithmetic below promotes it to. *)
Definition multiplier_of (higher_is_better : bool) : float :=
  if higher_is_better then 1%float else (-1)%float.

(** The inner loop of the baseline search over one metric's goals: [true]
    when it reaches a sub-goal that is not a threshold before it meets a
    missing one ([if not sub_goal: break]). *)
Fixpoint sub_goals_need_baseline (sub_goals : list (option MetricGoal)) : bool :=
  match sub_goals with
  | [] => false
  | None :: _ => false
  | Some sub_goal :: rest =>
      if negb (bool_decide (goal_kind sub_goal = threshold)) then true
      else sub_goals_need_baseline rest
  end.

(** The outer loop: stops at the first metric whose inner loop evaluated. *)
Fixpoint goals_need_baseline (goals : list (list (string * option MetricGoal))) : bool :=
  match goals with
  | [] => false
  | goal :: rest =>
      if sub_goals_need_baseline (PyDict.values goal) then true
      else goals_need_baseline rest
  end.

(** The if/elif chain on [goal.type]. *)
Definition resolve_goal_value (goal : MetricGoal) (baseline_sub_type multiplier : float)
    : option float :=
  match goal_kind goal with
  | threshold => Some (goal_value goal)
  | max_degradation => Some (baseline_sub_type - multiplier * goal_value goal)%float
  | min_improvement => Some (baseline_sub_type + multiplier * goal_value goal)%float
  | percent_max_degradation =>
      Some (baseline_sub_type * (1 - multiplier * goal_value goal / 100))%float
  | percent_min_improvement =>
      Some (baseline_sub_type * (1 + multiplier * goal_value goal / 100))%float
  end.



(** [for sub_type_name, goal in sub_type_goals.items()]. *)
Fixpoint resolve_sub_type_goals (baseline : MetricResult)
    (multipliers : list (string * list (string * float))) (metric_name : string)
    (sub_type_goals : list (string * option MetricGoal))
    (resolved_goals : list (string * option float)) : result (list (string * option float)) :=
  match sub_type_goals with
  | [] => Ok resolved_goals
  | (sub_type_name, goal) :: rest =>
      match PyDict.get (joint_metric_key metric_name sub_type_name) baseline with
      | None => Raise (OtherException "KeyError")
      | Some baseline_sub_type =>
          match PyDict.get metric_name multipliers with
          | None => Raise (OtherException "KeyError")
          | Some of_metric =>
              match PyDict.get sub_type_name of_metric with
              | None => Raise (OtherException "KeyError")
              | Some multiplier =>
                  match goal with
                  | None => Raise AttributeError           (* goal.type on None *)
                  | Some goal =>
                      resolve_sub_type_goals baseline multipliers metric_name rest
                        (PyDict.set (joint_metric_key metric_name sub_type_name)
                           (resolve_goal_value goal (res_value baseline_sub_type) multiplier)
                           resolved_goals)
                  end
              end
          end
      end
  end.

(** [for metric_name, sub_type_goals in goals.items()]. *)
Fixpoint resolve_metric_goals (baseline : MetricResult)
    (multipliers : list (string * list (string * float)))
    (goals : list (string * list (string * option MetricGoal)))
    (resolved_goals : list (string * option float)) : result (list (string * option float)) :=
  match goals with
  | [] => Ok resolved_goals
  | (metric_name, sub_type_goals) :: rest =>
      match resolve_sub_type_goals baseline multipliers metric_name sub_type_goals resolved_goals with
      | Raise e => Raise e
      | Ok resolved_goals => resolve_metric_goals baseline multipliers rest resolved_goals
      end
  end.

(** [_evaluate_model]: the call is recorded; its outcome (from the
    evaluation cache or from the target) is the environment's. *)
Definition _evaluate_model (model : option model_value) (model_id : string)
    (evaluator_config : option OliveEvaluatorConfig) (accelerator_spec : AcceleratorSpec)
    : M MetricResult :=
  emit (EvEvaluate model_id) ;;
  signal <- call_world (evaluation_outcome model model_id evaluator_config accelerator_spec) ;;
  footprint_record accelerator_spec
    (mkFootprintRecord model_id None None None None (Some signal)) ;;
  ret signal.

Definition goals_of (metrics : list Metric) : list (string * list (string * option MetricGoal)) :=
  fold_left (fun goals metric =>
               PyDict.set (metric_name metric) (get_sub_type_info metric sub_goal) goals)
            metrics [].

Definition multipliers_of (metrics : list Metric) : list (string * list (string * float)) :=
  fold_left (fun multipliers metric =>
               PyDict.set (metric_name metric)
                 (get_sub_type_info metric (fun s => multiplier_of (sub_higher_is_better s)))
                 multipliers)
            metrics [].

Definition resolve_goals (eng : Engine) (input_model : OliveModel) (input_model_id : string)
    (metrics : list Metric) (accelerator_spec : AcceleratorSpec)
    : M (list (string * option float)) :=
  let goals := goals_of metrics in
  let multipliers := multipliers_of metrics in
  baseline <-
    (if goals_need_baseline (PyDict.values goals) then
       assert (bool_decide (evaluator_config eng <> None)) ;;
       baseline <- _evaluate_model (Some (Model input_model)) input_model_id
                     (evaluator_config eng) accelerator_spec ;;
       ret (Some baseline)
     else ret None) ;;
  match baseline with
  | None | Some [] => ret []                       (* if not baseline: return {} *)
  | Some baseline =>
      match resolve_metric_goals baseline multipliers goals [] with
      | Ok resolved_goals => ret resolved_goals
      | Raise e => raise e
      end
  end.

(** A stable sort of the objectives by priority ([sorted(..., key=...)]). *)
Fixpoint insert_by_priority (x : string * Objective) (l : list (string * Objective))
    : list (string * Objective) :=
  match l with
  | [] => [x]
  | y :: l' =>
      if default 0 (obj_priority (snd x)) <=? default 0 (obj_priority (snd y))
      then x :: y :: l'
      else y :: insert_by_priority x l'
  end.

Definition sort_by_priority (l : list (string * Objective)) : list (string * Objective) :=
  fold_right insert_by_priority [] l.

(** [goals.get(metric_key)]. *)
Definition goal_for (goals : list (string * option float)) (metric_key : string) : option float :=
  match PyDict.get metric_key goals with
  | Some g => g
  | None => None
  end.

Definition resolve_objectives (eng : Engine) (input_model : OliveModel) (input_model_id : string)
    (metrics : list Metric) (accelerator_spec : AcceleratorSpec)
    : M (list (string * Objective)) :=
  goals <- resolve_goals eng input_model input_model_id metrics accelerator_spec ;;
  let objective_dict :=
    fold_left (fun d metric =>
      fold_left (fun d sub_type =>
        if sub_priority sub_type <=? 0 then d
        else
          let metric_key := joint_metric_key (metric_name metric) (sub_name sub_type) in
          PyDict.set metric_key
            (mkObjective (sub_higher_is_better sub_type) (goal_for goals metric_key)
                         (Some (sub_priority sub_type))) d)
        (sub_types metric) d)
      metrics [] in
  ret (sort_by_priority objective_dict).

(** *** [host_for_pass], [evaluator_for_pass] *)

(** [self.passes[pass_id]]. *)
Definition pass_item (pass_id : string) : M PassItem :=
  st <- get_state ;;
  match PyDict.get pass_id (passes st) with
  | Some item => ret item
  | None => raise (OtherException "KeyError")
  end.

Definition host_for_pass (eng : Engine) (pass_id : string) : M OliveSystem :=
  item <- pass_item pass_id ;;
  match pi_host item with
  | None => ret (host eng)
  | Some host => ret host
  end.

Definition evaluator_for_pass (eng : Engine) (pass_id : string) : M (option OliveEvaluatorConfig) :=
  item <- pass_item pass_id ;;
  match pi_evaluator item with
  | None => ret (evaluator_config eng)
  | Some e => ret (Some e)
  end.

(** *** The model-number allocator *)

(** The [while True] loop of [_get_new_model_number] on a directory listing
    and a counter, by the iterations left after the first: the number
    returned and the counter left, [None] when the iterations run out. *)
Fixpoint new_model_number_loop (fuel : nat) (dir : gmap string dirent) (counter : Z)
    : option (Z * Z) :=
  let new_model_number := counter in
  let counter := counter + 1 in
  match glob (pat_number new_model_number) dir with
  | [] => Some (new_model_number, counter)
  | _ :: _ =>
      match fuel with
      | O => None
      | S fuel' => new_model_number_loop fuel' dir counter
      end
  end.

(** One more iteration than the directory has entries always suffices
    (lemma [new_model_number_loop_total]). *)
Definition _get_new_model_number : M Z :=
  st <- get_state ;;
  match new_model_number_loop (size (models_dir st)) (models_dir st) (new_model_number st) with
  | Some (new_model_number, counter) =>
      set_new_model_number counter ;; ret new_model_number
  | None => raise (OtherException "fuel")
  end.

(** *** Reading and writing the cache *)

(** [open(path, "w")] and [json.dump]: fails on a directory. *)
Definition write_json (dir : gmap string dirent) (name : string) (j : json)
    : result (gmap string dirent) :=
  match dir !! name with
  | Some EDir => Raise (OtherException "IsADirectoryError")
  | _ => Ok (<[name := EFile (JsonText j)]> dir)
  end.

(** [open(path, "r")] and [json.load]; [json.JSONDecodeError] derives from
    [ValueError]. *)
Definition read_json (dir : gmap string dirent) (name : string) : result json :=
  match dir !! name with
  | Some (EFile (JsonText j)) => Ok j
  | Some (EFile Garbage) => Raise ValueError
  | Some EDir => Raise (OtherException "IsADirectoryError")
  | None => Raise (OtherException "FileNotFoundError")
  end.

(** The name of the sidecar in [models/]. *)
Definition get_model_json_path (model_id : string) : string := model_id +:+ ".json".

Definition _cache_model (model : model_value) (model_id : string) (check_object : bool) : M unit :=
  let model_json := match model with
                    | PRUNED_CONFIG => JObj []
                    | Model m => model_to_json check_object m
                    end in
  let model_json_path := get_model_json_path model_id in
  try_except
    (st <- get_state ;;
     d <- lift_result (write_json (models_dir st) model_json_path model_json) ;;
     set_models_dir d)
    (fun e => emit (EvLogError "Failed to cache model")).

(** [None] is Python's [None]. *)
Definition _load_model (model_id : string) : M (option model_value) :=
  let model_json_path := get_model_json_path model_id in
  loaded <- try_except
              (st <- get_state ;;
               model_json <- lift_result (read_json (models_dir st) model_json_path) ;;
               ret (Some model_json))
              (fun e => emit (EvLogError "Failed to load model") ;; ret None) ;;
  match loaded with
  | None => ret None
  | Some model_json =>
      if is_empty_obj model_json then ret (Some PRUNED_CONFIG)
      else m <- lift_result (model_from_json model_json) ;; ret (Some (Model m))
  end.

Definition _prepare_non_local_model (model : option model_value) : M (option model_value) :=
  match model with
  | Some (Model m) =>
      if resource_is_local m then ret model
      else m' <- call_world (download_resource m) ;; ret (Some (Model m'))
  | Some PRUNED_CONFIG | None => raise AttributeError     (* no model_resource_path *)
  end.

Definition _init_input_model (input_model : OliveModel) : M string :=
  let model_hash := hash_dict (model_to_json false input_model) in
  _cache_model (Model input_model) model_hash false ;;
  ret model_hash.

(** The name of the run file in [runs/]. *)
Definition get_run_json_path (pass_name input_model_number : string) (pass_config : json)
    (accelerator_spec : option AcceleratorSpec) : string :=
  let pass_config_hash := hash_dict pass_config in
  match accelerator_spec with
  | None => pass_name +:+ "-" +:+ input_model_number +:+ "-" +:+ pass_config_hash +:+ ".json"
  | Some spec =>
      pass_name +:+ "-" +:+ input_model_number +:+ "-" +:+ pass_config_hash +:+ "-"
        +:+ accel_str spec +:+ ".json"
  end.

Definition _cache_run (pass_name : string) (pass_config : json) (input_model_id output_model_id : string)
    (accelerator_spec : option AcceleratorSpec) : M unit :=
  let run_json := JObj [("pass_name", JStr pass_name);
                        ("pass_config", pass_config);
                        ("input_model_id", JStr input_model_id);
                        ("output_model_id", JStr output_model_id)] in
  let input_model_number := PyStr.split_head "_" input_model_id in
  let run_json_path := get_run_json_path pass_name input_model_number pass_config accelerator_spec in
  try_except
    (st <- get_state ;;
     d <- lift_result (write_json (runs_dir st) run_json_path run_json) ;;
     set_runs_dir d)
    (fun e => emit (EvLogError "Failed to cache run")).

(** [run_json["output_model_id"]]: the engine writes a string there; [null]
    reads as [None], and so does, here, any other value that is no string. *)
Definition run_output_model_id (run_json : json) : result (option string) :=
  match run_json with
  | JObj fields =>
      match PyDict.get "output_model_id" fields with
      | Some (JStr s) => Ok (Some s)
      | Some _ => Ok None
      | None => Raise (OtherException "KeyError")
      end
  | _ => Raise TypeError
  end.

Definition _load_run (input_model_id pass_name : string) (pass_config : json)
    (accelerator_spec : option AcceleratorSpec) : M (option string) :=
  let input_model_number := PyStr.split_head "_" input_model_id in
  let run_json_path := get_run_json_path pass_name input_model_number pass_config accelerator_spec in
  st <- get_state ;;
  match runs_dir st !! run_json_path with
  | Some _ =>
      try_except
        (run_json <- lift_result (read_json (runs_dir st) run_json_path) ;;
         lift_result (run_output_model_id run_json))
        (fun e => emit (EvLogError "Failed to load run") ;; ret None)
  | None => ret None
  end.

(** The run is in the cache: the run file names [output_model_id] and its
    sidecar loads. *)
Definition run_cached (st : engine_state) (run_path output_model_id : string) : Prop :=
  exists run_json model_json,
    runs_dir st !! run_path = Some (EFile (JsonText run_json)) /\
    run_output_model_id run_json = Ok (Some output_model_id) /\
    models_dir st !! get_model_json_path output_model_id = Some (EFile (JsonText model_json)) /\
    (is_empty_obj model_json = true \/ exists m, model_from_json model_json = Ok m).

(** *** [_run_pass] and [_run_passes] *)

(** [output_model.to_json() if output_model != PRUNED_CONFIG else {"is_pruned": True}]. *)
Definition footprint_model_config (output_model : model_value) : json :=
  match output_model with
  | Model m => model_to_json false m
  | PRUNED_CONFIG => JObj [("is_pruned", JBool true)]
  end.

(** [path.mkdir(parents=True, exist_ok=True)] for a directory of [models/]. *)
Definition mkdir_models (name : string) : M unit :=
  st <- get_state ;;
  match models_dir st !! name with
  | Some (EFile _) => raise (OtherException "FileExistsError")
  | _ => set_models_dir (<[name := EDir]> (models_dir st))
  end.

(** [host.run_pass(p, input_model, output_model_path, pass_search_point)]. *)
Definition host_run_pass (host : OliveSystem) (p : Pass) (input_model : option model_value)
    (output_model_path : string) (pass_search_point : json) : M OliveModel :=
  emit (EvRunPass (pass_class_name p) output_model_path) ;;
  call_world (run_pass host p input_model output_model_path pass_search_point).

(** The host a pass runs on. *)
Definition host_of (eng : Engine) (item : PassItem) : OliveSystem :=
  match pi_host item with
  | None => host eng
  | Some host => host
  end.

(** The input model needs no preparation on that host. *)
Definition input_ready (h : OliveSystem) (input_model : option model_value) : Prop :=
  system_type h = AzureML \/
  exists m, input_model = Some (Model m) /\ resource_is_local m = true.


(** [_run_pass], lines 883-906: the output of the pass, from the host or
    pruned. *)
Definition _run_pass_output (eng : Engine) (pass_id : string) (p : Pass) (pass_search_point : json)
    (input_model : option model_value) (output_model_path : string) : M model_value :=
  if negb (validate_search_point p pass_search_point) && negb (no_search eng) then
    ret PRUNED_CONFIG
  else
    host <- host_for_pass eng pass_id ;;
    input_model <- (if negb (bool_decide (system_type host = AzureML))
                    then _prepare_non_local_model input_model
                    else ret input_model) ;;
    try_except
      (m <- host_run_pass host p input_model output_model_path pass_search_point ;;
       ret (Model m))
      (fun e =>
         match e with
         | OlivePassException =>
             emit (EvLogError "Pass run_pass failed") ;; ret PRUNED_CONFIG
         | _ =>
             if EXCEPTIONS_TO_RAISE e then raise e
             else
               emit (EvLogError "Pass run failed.") ;;
               if no_search eng then raise e else ret PRUNED_CONFIG
         end).

(** [output_model_id]: the parts joined by "-". *)
Definition new_output_model_id (p : Pass) (new_number : Z) (input_model_id : string)
    (pass_config : json) (accelerator_spec : AcceleratorSpec) : string :=
  let input_model_number := PyStr.split_head "_" input_model_id in
  let output_model_id_parts :=
    [PyStr.str_of_int new_number +:+ "_" +:+ pass_class_name p; input_model_number;
     hash_dict pass_config] in
  let output_model_id_parts :=
    if negb (is_accelerator_agnostic p accelerator_spec)
    then (output_model_id_parts ++ [accel_str accelerator_spec])%list
    else output_model_id_parts in
  PyStr.join "-" output_model_id_parts.

(** [_run_pass] from the comment "new model id" on: the path taken when the
    cache has no usable run. *)
Definition _run_pass_miss (eng : Engine) (pass_id : string) (p : Pass) (pass_search_point : json)
    (pass_config : json) (run_accel : option AcceleratorSpec)
    (input_model : option model_value) (input_model_id : string)
    (accelerator_spec : AcceleratorSpec) : M (model_value * string) :=
  let pass_name := pass_class_name p in
  new_number <- _get_new_model_number ;;
  let output_model_id :=
    new_output_model_id p new_number input_model_id pass_config accelerator_spec in
  let output_model_path := "models/" +:+ output_model_id +:+ "/output_model" in
  mkdir_models output_model_id ;;
  output_model <- _run_pass_output eng pass_id p pass_search_point input_model
                    output_model_path ;;
  _cache_model output_model output_model_id true ;;
  _cache_run pass_name pass_config input_model_id output_model_id run_accel ;;
  footprint_record accelerator_spec
    (mkFootprintRecord output_model_id (Some (footprint_model_config output_model))
       (Some input_model_id) (Some pass_name) (Some pass_config) None) ;;
  ret (output_model, output_model_id).

Definition _run_pass (eng : Engine) (pass_id : string) (pass_search_point : json)
    (input_model : option model_value) (input_model_id : string)
    (accelerator_spec : AcceleratorSpec) : M (model_value * string) :=
  item <- pass_item pass_id ;;
  let p := pi_pass item in
  let pass_name := pass_class_name p in
  let pass_config := config_at_search_point p pass_search_point in
  let pass_config := serialize_config p pass_config in
  let run_accel := if is_accelerator_agnostic p accelerator_spec then None
                   else Some accelerator_spec in
  output_model_id <- _load_run input_model_id pass_name pass_config run_accel ;;
  cached <- match output_model_id with
            | Some output_model_id =>
                output_model <- _load_model output_model_id ;;
                ret (option_map (fun m => (m, output_model_id)) output_model)
            | None => ret None
            end ;;
  match cached with
  | Some (output_model, output_model_id) =>
      footprint_record accelerator_spec
        (mkFootprintRecord output_model_id (Some (footprint_model_config output_model))
           (Some input_model_id) (Some pass_name) (Some pass_config) None) ;;
      ret (output_model, output_model_id)
  | None =>
      _run_pass_miss eng pass_id p pass_search_point pass_config run_accel
        input_model input_model_id accelerator_spec
  end.

(** The [for] loop of [_run_passes]: [should_prune], the last [model] and
    [model_id], and [model_ids]. *)
Fixpoint _run_passes_loop (eng : Engine) (step : list (string * json))
    (model : option model_value) (model_id : string) (accelerator_spec : AcceleratorSpec)
    (model_ids : list string) : M (bool * option model_value * string * list string) :=
  match step with
  | [] => ret (false, model, model_id, model_ids)
  | (pass_id, pass_search_point) :: rest =>
      '(model, model_id) <- _run_pass eng pass_id pass_search_point model model_id accelerator_spec ;;
      match model with
      | PRUNED_CONFIG => ret (true, Some model, model_id, model_ids)
      | Model _ =>
          _run_passes_loop eng rest (Some model) model_id accelerator_spec (model_ids ++ [model_id])%list
      end
  end.

Definition _run_passes (eng : Engine) (step : list (string * json))
    (model : option model_value) (model_id : string) (accelerator_spec : AcceleratorSpec)
    : M (bool * option MetricResult * list string) :=
  '(should_prune, model, model_id, model_ids) <-
    _run_passes_loop eng step model model_id accelerator_spec [] ;;
  if negb should_prune then
    match last (map fst step) with
    | None => raise (OtherException "UnboundLocalError")      (* pass_id was never bound *)
    | Some pass_id =>
        evaluator_config <- evaluator_for_pass eng pass_id ;;
        if no_search eng && negb (bool_decide (evaluator_config <> None)) then
          ret (should_prune, None, model_ids)
        else
          signal <- _evaluate_model model model_id evaluator_config accelerator_spec ;;
          ret (should_prune, Some signal, model_ids)
    end
  else
    emit (EvLogWarning "Skipping evaluation as model was pruned") ;;
    ret (should_prune, None, model_ids).

(** *** [run_no_search] *)

(** The guard at the head of [run_no_search]: [pass_item["name"]] is read
    from an entry of [self.passes], which has no such key. *)
Definition no_search_guard (registry : list (string * PassItem)) : M unit :=
  for_each (PyDict.values registry) (fun pass_item =>
    if (0 <? length (search_space (pi_pass pass_item)))%nat then
      raise (OtherException "KeyError")
    else ret tt).

(** Truthiness of an optional string: [None] and [""] are falsy. *)
Definition str_truthy (s : option string) : bool :=
  match s with
  | Some s => negb (String.eqb s "")
  | None => false
  end.

(** [f"{name}_{accelerator_spec}" if name else None]. *)
Definition pass_output_name (accelerator_spec : AcceleratorSpec) (name : option string)
    : option string :=
  if str_truthy name then Some (default "" name +:+ "_" +:+ accel_str accelerator_spec)
  else None.

(** The final output name (lines 409-416). *)
Definition final_output_name (accelerator_spec : AcceleratorSpec) (output_name : option string)
    (final_output_name : option string) : string :=
  if str_truthy output_name then
    default "" output_name +:+ "_" +:+ accel_str accelerator_spec
  else if negb (str_truthy final_output_name) then
    accel_str accelerator_spec
  else default "" final_output_name.

(** [pass_output_names[-1] = final_output_name]. *)
Definition set_last {A} (l : list A) (x : A) : list A :=
  match l with
  | [] => []
  | _ => removelast l ++ [x]
  end%list.

(** The loop over [zip(pass_output_names, model_ids)]: the value of
    [output_model_json] when it ends. *)
Fixpoint save_outputs (named : list (option string * string)) (output_model_json : option json)
    : M (option json) :=
  match named with
  | [] => ret output_model_json
  | (pass_output_name, pass_output_model_id) :: rest =>
      if negb (str_truthy pass_output_name) then save_outputs rest output_model_json
      else
        let output_name := default "" pass_output_name +:+ "_model" in
        st <- get_state ;;
        emit (EvSaveModel pass_output_model_id output_name) ;;
        j <- call_world (save_model (models_dir st) pass_output_model_id output_name) ;;
        save_outputs rest (Some j)
  end.

(** The [save_model] calls the loop over the named outputs makes. *)
Fixpoint saves_of (named : list (option string * string)) : list event :=
  match named with
  | [] => []
  | (pass_output_name, pass_output_model_id) :: rest =>
      if str_truthy pass_output_name
      then EvSaveModel pass_output_model_id (default "" pass_output_name +:+ "_model")
             :: saves_of rest
      else saves_of rest
  end.

Definition is_save_model (ev : event) : bool :=
  match ev with
  | EvSaveModel _ _ => true
  | _ => false
  end.

(** [self.passes[pass_name]["output_name"] for pass_name, _ in passes]. *)
Fixpoint registered_output_names (registry : list (string * PassItem)) (step : list (string * json))
    : result (list (option string)) :=
  match step with
  | [] => Ok []
  | (pass_name, _) :: rest =>
      match PyDict.get pass_name registry with
      | None => Raise (OtherException "KeyError")
      | Some item =>
          match registered_output_names registry rest with
          | Ok names => Ok (pi_output_name item :: names)
          | Raise e => Raise e
          end
      end
  end.

(** [run_no_search] from the comment "names of the output models" on. *)
Definition run_no_search_outputs (accelerator_spec : AcceleratorSpec) (output_name : option string)
    (step : list (string * json)) (signal : option MetricResult) (model_ids : list string)
    : M (option run_output) :=
  st <- get_state ;;
  pass_output_names <- lift_result (registered_output_names (passes st) step) ;;
  let pass_output_names := map (pass_output_name accelerator_spec) pass_output_names in
  match last pass_output_names with
  | None => raise (OtherException "IndexError")
  | Some last_name =>
      let final_output_name := final_output_name accelerator_spec output_name last_name in
      let pass_output_names := set_last pass_output_names (Some final_output_name) in
      output_model_json <- save_outputs (zip pass_output_names model_ids) None ;;
      match signal with
      | Some _ => emit (EvWriteMetrics (final_output_name +:+ "_metrics.json"))
      | None => ret tt
      end ;;
      match output_model_json with
      | Some j => if json_truthy j then ret (Some (OutModel j signal)) else ret None
      | None => ret None
      end
  end.

(** The dummy objective used when no evaluator is configured. *)
Definition dummy_objective : list (string * Objective) :=
  [("dummy", mkObjective true (Some 0%float) None)].

(** [run_no_search] up to and including [_run_passes]: the passes of the
    step, the signal and the model ids. *)
Definition run_no_search_step (eng : Engine) (input_model : OliveModel) (input_model_id : string)
    (accelerator_spec : AcceleratorSpec)
    : M (list (string * json) * bool * option MetricResult * list string) :=
  st <- get_state ;;
  no_search_guard (passes st) ;;
  match last (PyDict.keys (passes st)) with
  | None => raise (OtherException "IndexError")
  | Some last_pass =>
      evaluator_config <- evaluator_for_pass eng last_pass ;;
      objective_dict <-
        match evaluator_config with
        | None => ret dummy_objective
        | Some evaluator_config =>
            resolve_objectives eng input_model input_model_id (metrics evaluator_config)
              accelerator_spec
        end ;;
      st <- get_state ;;
      next_step <- call_world (fun w =>
                     let '(s, w') := strategy_first_step (pass_search_spaces st) input_model_id
                                       objective_dict w in (Ok s, w')) ;;
      match next_step with
      | None => raise AssertionError
      | Some next_step =>
          let model_id := step_model_id next_step in
          model <- (if String.eqb model_id input_model_id then ret (Some (Model input_model))
                    else _load_model model_id) ;;
          '(should_prune, signal, model_ids) <-
            _run_passes eng (step_passes next_step) model model_id accelerator_spec ;;
          ret (step_passes next_step, should_prune, signal, model_ids)
      end
  end.

Definition run_no_search (eng : Engine) (input_model : OliveModel) (input_model_id : string)
    (accelerator_spec : AcceleratorSpec) (output_name : option string) : M (option run_output) :=
  '(step, _, signal, model_ids) <-
    run_no_search_step eng input_model input_model_id accelerator_spec ;;
  run_no_search_outputs accelerator_spec output_name step signal model_ids.

(** *** [run] *)

Section Run.

(** [run_search], the search loop, is not unfolded: any computation over
    the engine's state that returns the frontier's model ids or raises. *)
Variable run_search :
  Engine -> OliveModel -> string -> AcceleratorSpec -> option string -> M (list string).

(** The body of the [try] statement for one accelerator: the [outputs] it
    leaves. *)
Definition run_accelerator_body (eng : Engine) (input_model : OliveModel) (input_model_id : string)
    (output_name : option string) (evaluation_only : bool) (accelerator_spec : AcceleratorSpec)
    (outputs : list (AcceleratorSpec * run_output)) : M (list (AcceleratorSpec * run_output)) :=
  if evaluation_only then
    let prefix_output_name :=
      match output_name with
      | Some name => name +:+ "_" +:+ accel_str accelerator_spec +:+ "_"
      | None => accel_str accelerator_spec +:+ "_"
      end in
    assert (bool_decide (evaluator_config eng <> None)) ;;
    results <- _evaluate_model (Some (Model input_model)) input_model_id (evaluator_config eng)
                 accelerator_spec ;;
    emit (EvWriteMetrics (prefix_output_name +:+ "metrics.json")) ;;
    ret (PyDict.set accelerator_spec (OutMetrics results) outputs)
  else if no_search eng then
    output <- run_no_search eng input_model input_model_id accelerator_spec output_name ;;
    match output with
    | Some output => ret (PyDict.set accelerator_spec output outputs)
    | None => ret outputs
    end
  else
    footprint <- run_search eng input_model input_model_id accelerator_spec output_name ;;
    ret (PyDict.set accelerator_spec (OutFootprint footprint) outputs).

(** [run_accelerator] up to the [try] statement: the id of the input
    model. *)
Definition run_accelerator_prefix (eng : Engine) (input_model : OliveModel)
    (accel : AcceleratorSpec) : M string :=
  setup_passes eng accel ;;
  input_model_id <- _init_input_model input_model ;;
  footprint_record accel (mkFootprintRecord input_model_id None None None None None) ;;
  ret input_model_id.

(** The [except] clauses of [run]. *)
Definition run_accelerator_handler (outputs : list (AcceleratorSpec * run_output)) (e : exn)
    : M (list (AcceleratorSpec * run_output)) :=
  if EXCEPTIONS_TO_RAISE e then raise e
  else emit (EvLogWarning "Failed to run Olive") ;; ret outputs.

(** One iteration of [for accelerator_spec in self.accelerator_specs]. *)
Definition run_accelerator (eng : Engine) (input_model : OliveModel)
    (output_name : option string) (evaluation_only : bool) (accelerator_spec : AcceleratorSpec)
    (outputs : list (AcceleratorSpec * run_output)) : M (list (AcceleratorSpec * run_output)) :=
  setup_passes eng accelerator_spec ;;
  input_model_id <- _init_input_model input_model ;;
  footprint_record accelerator_spec
    (mkFootprintRecord input_model_id None None None None None) ;;
  try_except
    (run_accelerator_body eng input_model input_model_id output_name evaluation_only
       accelerator_spec outputs)
    (fun e =>
       if EXCEPTIONS_TO_RAISE e then raise e
       else emit (EvLogWarning "Failed to run Olive") ;; ret outputs).

Fixpoint run_accelerators (eng : Engine) (input_model : OliveModel)
    (output_name : option string) (evaluation_only : bool) (specs : list AcceleratorSpec)
    (outputs : list (AcceleratorSpec * run_output)) : M (list (AcceleratorSpec * run_output)) :=
  match specs with
  | [] => ret outputs
  | accelerator_spec :: rest =>
      outputs <- run_accelerator eng input_model output_name evaluation_only accelerator_spec
                   outputs ;;
      run_accelerators eng input_model output_name evaluation_only rest outputs
  end.

(** [run]; [packaging] tells whether a packaging config was given. *)
Definition run (eng : Engine) (input_model : OliveModel) (packaging : bool)
    (output_name : option string) (evaluation_only : bool)
    : M (list (AcceleratorSpec * run_output)) :=
  st <- get_state ;;
  (if negb (initialized st) then initialize eng else ret tt) ;;
  outputs <- run_accelerators eng input_model output_name evaluation_only
               (accelerator_specs eng) [] ;;
  (if packaging then emit EvPackage else ret tt) ;;
  ret outputs.

End Run.
End Engine.

(** ** Observations on computations and states *)

Section Observations.
Context `{OliveTypes}.

(** [c] relates every state to the state it leaves. *)
Definition preserves {A} (R : relation engine_state) (c : M A) : Prop :=
  forall st, R st (snd (c st)).

(** The relation "the field [proj] is unchanged". *)
Definition same_on {T} (proj : engine_state -> T) : relation engine_state :=
  fun st st' => proj st' = proj st.

(** The allocator's counter never goes down. *)
Definition counter_mono : relation engine_state :=
  fun st st' => new_model_number st <= new_model_number st'.

Definition is_run_pass (ev : event) : bool :=
  match ev with
  | EvRunPass _ _ => true
  | _ => false
  end.

(** How many times a host ran a pass. *)
Definition host_calls (st : engine_state) : nat :=
  length (List.filter is_run_pass (trace st)).

Definition is_evaluate (ev : event) : bool :=
  match ev with
  | EvEvaluate _ => true
  | _ => false
  end.

(** How many times [_evaluate_model] was called. *)
Definition evaluations (st : engine_state) : nat :=
  length (List.filter is_evaluate (trace st)).

End Observations.


(** ** More of the engine *)

Section EngineMore.
Context `{OliveEnv}.

(** Every spec pairs a listed device with a requested provider that the
    device supports. *)
Definition sound_specs (eps : list string) (accels : list string) (rs : resolver_state) : Prop :=
  forall s, s ∈ specs_acc rs ->
    execution_provider s ∈ eps /\
    accelerator_type s ∈ map PyStr.lower accels /\
    execution_provider s ∈ get_execution_providers_for_device (accelerator_type s).

(** *** [register] (lines 185-217) *)

(** The naming loop of [register]: as in [register_pass], but the name
    is looked up in [self.pass_config]. *)
Fixpoint fresh_config_name_loop (fuel : nat) (cls : string) (id : Z)
    (pass_config : list (string * PassDescriptor)) : option string :=
  let name := auto_name cls id in
  if negb (PyDict.mem name pass_config) then Some name
  else match fuel with
       | O => None
       | S fuel' => fresh_config_name_loop fuel' cls (id + 1) pass_config
       end.

(** [config or {}]. *)
Definition config_or_empty (config : option json) : json :=
  match config with
  | Some config => if json_truthy config then config else JObj []
  | None => JObj []
  end.

(** [register] on [self.pass_config]: the dictionary it leaves.  A name
    given by the caller is looked up in [self.passes]. *)
Definition register (pass_type : PassType) (config : option json) (disable_search : bool)
    (name : option string) (host : option OliveSystem)
    (evaluator_config : option OliveEvaluatorConfig) (clean_run_cache : bool)
    (output_name : option string) (pass_config : list (string * PassDescriptor))
    : M (list (string * PassDescriptor)) :=
  st <- get_state ;;
  name <- match name with
          | Some name => assert (negb (PyDict.mem name (passes st))) ;; ret name
          | None =>
              match fresh_config_name_loop (length pass_config) (type_name pass_type) 0
                      pass_config with
              | Some name => ret name
              | None => raise (OtherException "fuel")
              end
          end ;;
  ret (PyDict.set name
         (mkPassDescriptor pass_type (config_or_empty config) disable_search host
            evaluator_config clean_run_cache output_name)
         pass_config).

(** The entry [setup_passes] registers for a descriptor. *)
Definition item_of (accel : AcceleratorSpec) (config : PassDescriptor) : PassItem :=
  mkPassItem (instance_of accel config) (pd_host config) (pd_evaluator config)
             (pd_output_name config).

(** The names the loop of [setup_passes] gives to a list of descriptors. *)
Definition named_after (accel : AcceleratorSpec) (name : string) (config : PassDescriptor)
    : Prop :=
  exists k, 0 <= k /\ name = auto_name (pass_class_name (instance_of accel config)) k.

(** [setup_passes] has nothing to refuse for this accelerator. *)
Definition setup_ok (eng : Engine) (accel : AcceleratorSpec) : Prop :=
  no_search eng = true ->
  forall config, config ∈ PyDict.values (pass_config eng) ->
                 search_space (instance_of accel config) = [].

Definition is_run_warning (ev : event) : bool :=
  match ev with
  | EvLogWarning msg => String.eqb msg "Failed to run Olive"
  | _ => false
  end.

(** How many accelerators [run] gave up on. *)
Definition run_warnings (st : engine_state) : nat :=
  length (List.filter is_run_warning (trace st)).


(** *** The ranking of the objectives *)

(** The entry [resolve_objectives] builds for a sub-metric. *)
Definition objective_of (goals : list (string * option float)) (m : Metric) (s : SubMetric)
    : Objective :=
  mkObjective (sub_higher_is_better s)
    (goal_for goals (joint_metric_key (metric_name m) (sub_name s)))
    (Some (sub_priority s)).

(** The order [sorted(..., key=lambda x: x[1]["priority"])] leaves. *)
Definition ranked_before (a b : string * Objective) : Prop :=
  default 0 (obj_priority (snd a)) <= default 0 (obj_priority (snd b)).

(** *** [run_search]: up to the search loop (lines 467-477) *)

(** The objectives [run_search] hands to the search strategy. *)
Definition run_search_objectives (eng : Engine) (input_model : OliveModel)
    (input_model_id : string) (accelerator_spec : AcceleratorSpec)
    : M (list (string * Objective)) :=
  st <- get_state ;;
  match last (PyDict.keys (passes st)) with
  | None => raise (OtherException "IndexError")
  | Some last_pass =>
      evaluator_config <- evaluator_for_pass eng last_pass ;;
      match evaluator_config with
      | None => raise ValueError
      | Some evaluator_config =>
          resolve_objectives eng input_model input_model_id (metrics evaluator_config)
            accelerator_spec
      end
  end.

(** [run_search]; [search_loop] is the rest of the method, from the
    initialization of the search strategy on. *)
Definition run_search
    (search_loop : Engine -> OliveModel -> string -> AcceleratorSpec -> option string ->
                   list (string * Objective) -> M (list string))
    (eng : Engine) (input_model : OliveModel) (input_model_id : string)
    (accelerator_spec : AcceleratorSpec) (output_name : option string) : M (list string) :=
  objective_dict <- run_search_objectives eng input_model input_model_id accelerator_spec ;;
  search_loop eng input_model input_model_id accelerator_spec output_name objective_dict.

End EngineMore.

(** ** The evaluation cache (lines 924-1013)

    [_evaluate_model] with its cache unfolded.  The directory
    [<cache_dir>/evaluations] is threaded through the calls; the methods of
    [MetricResult] and of the target that the engine calls are the
    section's variables. *)

(** [s.endswith(suffix)]. *)
Definition endswith (suffix s : string) : bool :=
  (String.length suffix <=? String.length s)%nat &&
  String.eqb (substring (String.length s - String.length suffix) (String.length suffix) s)
             suffix.

(** The name of an evaluation file in [evaluations/]. *)
Definition get_evaluation_json_path (model_id : string) : string := model_id +:+ ".json".

(** [evaluation_json["signal"]]. *)
Definition evaluation_signal (evaluation_json : json) : result json :=
  match evaluation_json with
  | JObj fields =>
      match PyDict.get "signal" fields with
      | Some signal => Ok signal
      | None => Raise (OtherException "KeyError")
      end
  | _ => Raise TypeError
  end.

Section EvaluationCache.
Context `{OliveEnv}.

(** [signal.dict()] and the constructor of [MetricResult] on such a dictionary. *)
Variable signal_dict : MetricResult -> json.
Variable signal_of_dict : json -> result MetricResult.

(** [target.evaluate_model(model, metrics, accelerator_spec)]. *)
Variable evaluate_model :
  OliveSystem -> option model_value -> list Metric -> AcceleratorSpec -> World ->
  result MetricResult * World.

(** The directory [_cache_evaluation] leaves. *)
Definition _cache_evaluation (evaluations : gmap string dirent) (model_id : string)
    (signal : MetricResult) : M (gmap string dirent) :=
  let evaluation_json := JObj [("model_id", JStr model_id); ("signal", signal_dict signal)] in
  let evaluation_json_path := get_evaluation_json_path model_id in
  try_except
    (lift_result (write_json evaluations evaluation_json_path evaluation_json))
    (fun e => emit (EvLogError "Failed to cache evaluation") ;; ret evaluations).

Definition _load_evaluation (evaluations : gmap string dirent) (model_id : string)
    : M (option MetricResult) :=
  let evaluation_json_path := get_evaluation_json_path model_id in
  match evaluations !! evaluation_json_path with
  | Some _ =>
      try_except
        (evaluation_json <- lift_result (read_json evaluations evaluation_json_path) ;;
         signal <- lift_result (evaluation_signal evaluation_json) ;;
         signal <- lift_result (signal_of_dict signal) ;;
         ret (Some signal))
        (fun e => emit (EvLogError "Failed to load evaluation") ;; ret None)
  | None => ret None
  end.

(** The key of a model in the evaluation cache; an accelerator spec is an
    object, hence truthy. *)
Definition model_id_with_accelerator (model_id : string) (accelerator_spec : AcceleratorSpec)
    : string :=
  let accelerator_suffix := "-" +:+ accel_str accelerator_spec in
  if negb (endswith accelerator_suffix model_id) then model_id +:+ accelerator_suffix
  else model_id.

(** [_evaluate_model]: the signal and the evaluation directory it leaves. *)
Definition _evaluate_model_cached (eng : Engine) (evaluations : gmap string dirent)
    (model : option model_value) (model_id : string)
    (evaluator_config : option OliveEvaluatorConfig) (accelerator_spec : AcceleratorSpec)
    : M (MetricResult * gmap string dirent) :=
  let model_id_with_accelerator := model_id_with_accelerator model_id accelerator_spec in
  signal <- _load_evaluation evaluations model_id_with_accelerator ;;
  match signal with
  | Some signal =>
      footprint_record accelerator_spec
        (mkFootprintRecord model_id None None None None (Some signal)) ;;
      ret (signal, evaluations)
  | None =>
      let metrics := match evaluator_config with
                     | Some evaluator_config => metrics evaluator_config
                     | None => []
                     end in
      model <- (if negb (bool_decide (system_type (target eng) = AzureML))
                then _prepare_non_local_model model
                else ret model) ;;
      signal <- call_world (evaluate_model (target eng) model metrics accelerator_spec) ;;
      evaluations <- _cache_evaluation evaluations model_id_with_accelerator signal ;;
      footprint_record accelerator_spec
        (mkFootprintRecord model_id None None None None (Some signal)) ;;
      ret (signal, evaluations)
  end.

End EvaluationCache.

(** ** A small environment

    Concrete collaborators on which the model runs: models are names, the
    outside world is the journal of the output paths handed to hosts. *)

Module Ex.

#[export] Instance types : OliveTypes := {| OliveModel := string; World := list string |}.

Definition from_json (j : json) : result string :=
  match j with
  | JObj (("name", JStr m) :: _) => Ok m
  | _ => Raise ValueError
  end.

Definition hash (j : json) : string :=
  match j with
  | JObj l => "h" +:+ PyStr.str_of_int (Z.of_nat (length l))
  | _ => "hx"
  end.

Definition baseline : MetricResult :=
  [("accuracy-accuracy_score", mkSubMetricResult 0.80%float 1 true);
   ("latency-avg", mkSubMetricResult 20%float 2 false)].

Definition providers_for (device : string) : list string :=
  if String.eqb device "cpu" then ["CPUExecutionProvider"; "OpenVINOExecutionProvider"]
  else if String.eqb device "gpu" then ["CUDAExecutionProvider"; "CPUExecutionProvider"]
  else ["QNNExecutionProvider"].

#[export] Instance env : OliveEnv := {|
  model_to_json := fun _ m => JObj [("name", JStr m)];
  model_from_json := from_json;
  hash_dict := hash;
  accel_str := fun s => accelerator_type s +:+ "-" +:+ execution_provider s;
  is_device := fun d => bool_decide (d ∈ ["cpu"; "gpu"; "npu"]);
  get_execution_providers_for_device := providers_for;
  joint_metric_key := fun m s => m +:+ "-" +:+ s;
  resource_is_local := fun _ => true;
  download_resource := fun m w => (Ok m, w);
  evaluation_outcome := fun _ _ _ _ w => (Ok baseline, w);
  save_model := fun _ id name w => (Ok (JObj [("saved", JStr name)]), w);
  clean_pass_run_cache := fun _ x => x;
  strategy_first_step := fun spaces input_id _ w =>
    (Some (mkStep input_id (JObj []) (map (fun x => (fst x, JObj [])) spaces)), w);
|}.

(** A local host whose every pass succeeds, and one whose every pass
    fails with the given exception. *)
Definition good_host : OliveSystem :=
  mkSystem Local (Some ["cpu"]) ["CPUExecutionProvider"]
    (fun p _ path _ w => (Ok ("out:" +:+ pass_class_name p), (path :: w)%list)).

Definition failing_host (e : exn) : OliveSystem :=
  mkSystem Local (Some ["cpu"]) ["CPUExecutionProvider"]
    (fun _ _ path _ w => (Raise e, (path :: w)%list)).

Definition target_of (accels : list string) : OliveSystem :=
  mkSystem Local (Some accels) ["CPUExecutionProvider"]
    (fun _ _ _ _ w => (Raise (OtherException "NotImplementedError"), w)).

Definition a_pass (cls : string) (space : list (string * json)) : Pass :=
  mkPass cls space (fun point => point) (fun config => config) (fun _ => false) (fun _ => true).

Definition a_pass_type (cls : string) (space : list (string * json)) : PassType :=
  mkPassType cls (fun _ config _ => config) (fun _ _ _ => a_pass cls space).

Definition descriptor (cls : string) (space : list (string * json)) (output_name : option string)
    : PassDescriptor :=
  mkPassDescriptor (a_pass_type cls space) (JObj []) false None None false output_name.

Definition cpu_spec : AcceleratorSpec := mkAcceleratorSpec "cpu" "CPUExecutionProvider".

Definition engine (no_search : bool) (host : OliveSystem)
    (pass_config : list (string * PassDescriptor)) : Engine :=
  mkEngine no_search host host None [cpu_spec] pass_config false false.

Definition empty_state : engine_state := mkState ∅ ∅ 0 false [] [] [] [] [].

(** The metric of the max-degradation scenario, and an engine whose default
    evaluator measures it. *)
Definition accuracy_metric (goal : MetricGoal) : Metric :=
  mkMetric "accuracy" [mkSubMetric "accuracy_score" 1 true (Some goal)].

Definition latency_metric (goal : MetricGoal) : Metric :=
  mkMetric "latency" [mkSubMetric "avg" 2 false (Some goal)].

Definition evaluating_engine (metrics : list Metric) : Engine :=
  mkEngine false good_host good_host (Some (mkEvaluatorConfig metrics))
           [cpu_spec] [] false false.

(** A cache directory left by an earlier, crashed run: a sidecar, and an
    output directory without one. *)
Definition leftover_state : engine_state :=
  mkState {[ "1_ConvPass-h1-h0.json" := EFile (JsonText (JObj []));
             "3_Quant-1-h0" := EDir ]} ∅ 0 false [] [] [] [] [].

(** An engine with one pass, registered by [setup_passes] as "ConvPass". *)
Definition conv_engine (no_search : bool) (host : OliveSystem) : Engine :=
  engine no_search host [("conv", descriptor "ConvPass" [] None)].

Definition conv_item : PassItem := mkPassItem (a_pass "ConvPass" []) None None None.

Definition conv_state : engine_state :=
  mkState ∅ ∅ 0 false [("ConvPass", conv_item)] [("ConvPass", [])] [] [] [].

(** An engine whose only pass has a search space. *)
Definition searching_engine (no_search : bool) : Engine :=
  engine no_search good_host
    [("conv", descriptor "ConvPass" [("opt", JArr [JStr "x"; JStr "y"])] None)].


(** No search loop. *)
Definition no_run_search
    : Engine -> OliveModel -> string -> AcceleratorSpec -> option string -> M (list string) :=
  fun _ _ _ _ _ => ret [].

(** A state of an initialized engine with an empty cache. *)
Definition ready_state : engine_state := mkState ∅ ∅ 0 true [] [] [] [] [].


(** The run file and the id of the output that [conv_engine] caches for
    the input "m0id". *)
Definition conv_run_path : string := "ConvPass-m0id-h0-cpu-CPUExecutionProvider.json".

Definition conv_output_id (n : Z) : string :=
  PyStr.str_of_int n +:+ "_ConvPass-m0id-h0-cpu-CPUExecutionProvider".

(** A cache whose run file names a sidecar the model factory refuses. *)
Definition refused_state : engine_state :=
  mkState {[ conv_output_id 7 +:+ ".json" := EFile (JsonText (JObj [("format", JStr "?")])) ]}
          {[ conv_run_path :=
               EFile (JsonText (JObj [("output_model_id", JStr (conv_output_id 7))])) ]}
          8 true [("ConvPass", conv_item)] [("ConvPass", [])] [] [] [].

(** A pass that validates no search point, and a state where it is
    registered. *)
Definition picky_pass : Pass :=
  mkPass "Picky" [("opt", JArr [JStr "x"; JStr "y"])] (fun point => point)
         (fun config => config) (fun _ => false) (fun _ => false).

Definition picky_item : PassItem := mkPassItem picky_pass None None None.

Definition picky_state : engine_state :=
  mkState ∅ ∅ 0 true [("Picky", picky_item)] [("Picky", search_space picky_pass)] [] [] [].

(** Two passes of one class, registered under names of the user's. *)
Definition twin_engine : Engine :=
  engine false good_host
    [("first", descriptor "ConvPass" [] None); ("second", descriptor "ConvPass" [] (Some "out"))].

(** The evaluation cache: a [MetricResult] is written as the object of its
    keys and read back from the baseline. *)
Definition signal_dict (signal : MetricResult) : json :=
  JObj (map (fun kv => (fst kv, JInt (res_priority (snd kv)))) signal).

Definition signal_of_dict (j : json) : result MetricResult :=
  match j with
  | JObj fields => Ok (List.filter (fun kv => PyDict.mem (fst kv) fields) baseline)
  | _ => Raise TypeError
  end.

Definition evaluate_model (target : OliveSystem) (model : option model_value)
    (metrics : list Metric) (accel : AcceleratorSpec) (w : World)
    : result MetricResult * World :=
  (Ok baseline, ("evaluate" :: w)%list).

(** A search loop that proposes nothing. *)
Definition no_search_loop
    : Engine -> OliveModel -> string -> AcceleratorSpec -> option string ->
      list (string * Objective) -> M (list string) :=
  fun _ _ _ _ _ _ => ret [].

End Ex.

(* ================================================================== *)
(** * Part II. Properties                                              *)
(* ================================================================== *)

(** ** Strings and numbers *)

Module PyStrFacts.
Import PyStr.

#[local] Arguments String.append !_ _ / : simpl nomatch.

Lemma all_chars_app P s t :
  all_chars P (s +:+ t) = all_chars P s && all_chars P t.
Proof.
  induction s as [|c s IH]; simpl; [reflexivity|].
  rewrite IH. apply andb_assoc.
Qed.

Lemma all_chars_weaken (P Q : ascii -> bool) s :
  (forall c, P c = true -> Q c = true) -> all_chars P s = true -> all_chars Q s = true.
Proof.
  intros HPQ. induction s as [|c s IH]; simpl; [reflexivity|].
  intros [Hc Hs]%andb_true_iff. rewrite (HPQ _ Hc), (IH Hs). reflexivity.
Qed.

Lemma digits_of_uint d : all_chars is_digit (NilEmpty.string_of_uint d) = true.
Proof. induction d; simpl; auto. Qed.

Lemma digits_of_uint_nz d : all_chars is_digit (NilZero.string_of_uint d) = true.
Proof. destruct d; try reflexivity; apply (digits_of_uint (_ _)). Qed.

Lemma str_of_int_chars n : all_chars is_digit_or_minus (str_of_int n) = true.
Proof.
  unfold str_of_int.
  assert (Hd : forall d, all_chars is_digit_or_minus (NilZero.string_of_uint d) = true).
  { intros d. apply (all_chars_weaken is_digit); [|apply digits_of_uint_nz].
    intros c Hc. unfold is_digit_or_minus. rewrite Hc. reflexivity. }
  destruct n; simpl; auto.
Qed.

Lemma all_chars_contains P c s :
  P c = false -> all_chars P s = true -> contains c s = false.
Proof.
  intros Hc. induction s as [|a s IH]; simpl; [reflexivity|].
  intros [Ha Hs]%andb_true_iff. rewrite (IH Hs), orb_false_r.
  destruct (Ascii.eqb_spec a c); [congruence|reflexivity].
Qed.

Lemma str_of_int_no_underscore n : contains "_" (str_of_int n) = false.
Proof. apply (all_chars_contains is_digit_or_minus); [reflexivity|apply str_of_int_chars]. Qed.

Lemma str_of_int_no_dot n : contains "." (str_of_int n) = false.
Proof. apply (all_chars_contains is_digit_or_minus); [reflexivity|apply str_of_int_chars]. Qed.

Lemma lstrip_id s : all_chars (fun c => negb (is_ws c)) s = true -> lstrip s = s.
Proof.
  destruct s as [|c s]; simpl; [reflexivity|].
  intros [Hc _]%andb_true_iff. apply negb_true_iff in Hc. rewrite Hc. reflexivity.
Qed.

Lemma rstrip_id s : all_chars (fun c => negb (is_ws c)) s = true -> rstrip s = s.
Proof.
  induction s as [|c s IH]; simpl; [reflexivity|].
  intros [Hc Hs]%andb_true_iff. apply negb_true_iff in Hc.
  rewrite (IH Hs). destruct s; [rewrite Hc|]; reflexivity.
Qed.

Lemma digit_or_minus_not_ws c : is_digit_or_minus c = true -> negb (is_ws c) = true.
Proof.
  destruct c as [[|] [|] [|] [|] [|] [|] [|] [|]]; vm_compute; congruence.
Qed.

Lemma to_int_not_nil n : Z.to_int n <> Pos Nil /\ Z.to_int n <> Neg Nil.
Proof.
  destruct n as [|p|p]; simpl; split; try discriminate;
    intros [= Hp]; exact (DecimalPos.Unsigned.to_uint_nonnil p Hp).
Qed.

(** [int(str(n)) == n]. *)
Lemma int_of_str_of_int n : int_of_str (str_of_int n) = Some n.
Proof.
  unfold int_of_str.
  pose proof (str_of_int_chars n) as Hc.
  assert (Hws : all_chars (fun c => negb (is_ws c)) (str_of_int n) = true).
  { eapply all_chars_weaken; [apply digit_or_minus_not_ws|exact Hc]. }
  rewrite (lstrip_id _ Hws), (rstrip_id _ Hws).
  assert (Hparse : option_map Z.of_int (NilZero.int_of_string (str_of_int n)) = Some n).
  { unfold str_of_int. destruct (to_int_not_nil n) as [H1 H2].
    rewrite (NilZero.isi _ H1 H2). simpl. f_equal. apply DecimalZ.of_to. }
  destruct (str_of_int n) as [|a s] eqn:Hs; [exact Hparse|].
  simpl in Hc. apply andb_true_iff in Hc as [Ha _].
  destruct a as [[|] [|] [|] [|] [|] [|] [|] [|]]; try exact Hparse; discriminate Ha.
Qed.

Lemma str_of_int_inj n m : str_of_int n = str_of_int m -> n = m.
Proof.
  intros Heq. pose proof (int_of_str_of_int n) as Hn.
  rewrite Heq, int_of_str_of_int in Hn. congruence.
Qed.

Lemma split_head_app c t r :
  contains c t = false -> split_head c (t +:+ String c r) = t.
Proof.
  induction t as [|a t IH]; simpl.
  - intros _. rewrite Ascii.eqb_refl. reflexivity.
  - intros [Ha Ht]%orb_false_iff. rewrite Ha, (IH Ht). reflexivity.
Qed.

Lemma startswith_app p r : startswith p (p +:+ r) = true.
Proof. induction p as [|a p IH]; simpl; [reflexivity|]. rewrite Ascii.eqb_refl, IH. reflexivity. Qed.

Lemma startswith_inv p s : startswith p s = true -> exists r, s = p +:+ r.
Proof.
  revert s. induction p as [|a p IH]; intros s; simpl.
  - intros _. exists s. reflexivity.
  - destruct s as [|b s]; [discriminate|].
    intros [Hab Hp]%andb_true_iff. apply Ascii.eqb_eq in Hab as ->.
    destruct (IH _ Hp) as [r ->]. exists r. reflexivity.
Qed.

Lemma app_assoc_str (s t u : string) : (s +:+ t) +:+ u = s +:+ (t +:+ u).
Proof.
  induction s as [|a s IH]; [reflexivity|].
  change (String a ((s +:+ t) +:+ u) = String a (s +:+ (t +:+ u))). f_equal. exact IH.
Qed.

(** A name matched by the pattern [f"{n}_*"] has [str(n)] as its token. *)
Lemma numbered_name_token n name :
  startswith (str_of_int n +:+ "_") name = true -> split_head "_" name = str_of_int n.
Proof.
  intros [r ->]%startswith_inv. rewrite app_assoc_str. simpl.
  apply split_head_app, str_of_int_no_underscore.
Qed.

Lemma contains_app c s t : contains c (s +:+ t) = contains c s || contains c t.
Proof.
  induction s as [|a s IH]; simpl; [reflexivity|]. rewrite IH. apply orb_assoc.
Qed.

Lemma rfind_none c s : rfind c s = None <-> contains c s = false.
Proof.
  induction s as [|a s IH]; simpl; [tauto|].
  destruct (rfind c s) as [i|].
  - split; [discriminate|]. intros [_ Hs]%orb_false_iff.
    apply IH in Hs. discriminate.
  - destruct (Ascii.eqb a c); simpl; split; try discriminate; tauto.
Qed.

Lemma rfind_app c t r :
  contains c t = false ->
  rfind c (t +:+ r) = option_map (fun i => (String.length t + i)%nat) (rfind c r).
Proof.
  induction t as [|a t IH]; cbn.
  - intros _. destruct (rfind c r); reflexivity.
  - intros [Ha Ht]%orb_false_iff. rewrite (IH Ht).
    destruct (rfind c r); cbn; [reflexivity|]. rewrite Ha. reflexivity.
Qed.

Lemma substring_app_prefix t r i :
  substring 0 (String.length t + i) (t +:+ r) = t +:+ substring 0 i r.
Proof.
  induction t as [|a t IH]; cbn; [reflexivity|]. rewrite IH. reflexivity.
Qed.

(** The stem of a name that starts with a dot-free prefix keeps the prefix. *)
Lemma path_stem_prefix t r :
  contains "." t = false -> exists r', path_stem (t +:+ r) = t +:+ r'.
Proof.
  intros Ht. unfold path_stem. rewrite (rfind_app _ _ _ Ht).
  destruct (rfind "." r) as [i|]; simpl; [|eauto].
  destruct (_ && _); [|eauto].
  rewrite substring_app_prefix. eauto.
Qed.

(** The number [initialize] reads off an entry named [<n>_<rest>]. *)
Lemma model_file_number_numbered n rest :
  model_file_number (str_of_int n +:+ "_" +:+ rest) = Some n.
Proof.
  unfold model_file_number.
  destruct (path_stem_prefix (str_of_int n +:+ "_") rest) as [r' Hr'].
  { rewrite contains_app, str_of_int_no_dot. reflexivity. }
  rewrite <- app_assoc_str, Hr', app_assoc_str. simpl.
  rewrite split_head_app by apply str_of_int_no_underscore.
  apply int_of_str_of_int.
Qed.

End PyStrFacts.

(** ** Finding a free number *)

Import PyStrFacts.

Section Pigeonhole.
Context {X : Type} `{EqDecision X}.

Lemma free_exists (f : Z -> X) (xs : list X) (c : Z) :
  (forall i j, c <= i -> c <= j -> f i = f j -> i = j) ->
  exists k, c <= k <= c + Z.of_nat (length xs) /\ f k ∉ xs.
Proof.
  intros Hinj.
  set (ks := seqZ c (Z.of_nat (S (length xs)))).
  destruct (decide (Exists (fun k => f k ∉ xs) ks)) as [Hex|Hnex].
  - apply Exists_exists in Hex as (k & Hk & Hfree).
    apply elem_of_seqZ in Hk. exists k. split; [lia|exact Hfree].
  - exfalso. apply not_Exists_Forall in Hnex; [|intros k; apply _].
    rewrite Forall_forall in Hnex.
    assert (Hnd : NoDup (f <$> ks)).
    { apply NoDup_fmap_2_strong; [|apply NoDup_seqZ].
      intros i j Hi%elem_of_seqZ Hj%elem_of_seqZ. apply Hinj; lia. }
    assert (Hsub : (f <$> ks) ⊆+ xs).
    { apply NoDup_submseteq; [exact Hnd|].
      intros x (k & -> & Hk)%list_elem_of_fmap.
      specialize (Hnex k Hk). simpl in Hnex.
      destruct (decide (f k ∈ xs)); [assumption|contradiction]. }
    apply submseteq_length in Hsub.
    rewrite length_fmap in Hsub. unfold ks in Hsub.
    rewrite length_seqZ in Hsub. lia.
Qed.
End Pigeonhole.

Lemma glob_nil_iff (matches : string -> bool) (dir : gmap string dirent) :
  glob matches dir = [] <-> forall name, is_Some (dir !! name) -> matches name = false.
Proof.
  unfold glob. split.
  - intros Hnil name [e He].
    destruct (matches name) eqn:Hm; [|reflexivity].
    assert (Hin : In name (List.filter matches (map fst (map_to_list dir)))).
    { apply filter_In. split; [|exact Hm].
      apply in_map_iff. exists (name, e). split; [reflexivity|].
      apply list_elem_of_In, elem_of_map_to_list. exact He. }
    rewrite Hnil in Hin. destruct Hin.
  - intros Hall.
    destruct (List.filter matches (map fst (map_to_list dir))) as [|x l] eqn:Hf; [reflexivity|].
    assert (Hin : In x (List.filter matches (map fst (map_to_list dir)))) by (rewrite Hf; left; reflexivity).
    apply filter_In in Hin as [Hin Hm].
    apply in_map_iff in Hin as ([name e] & <- & Hin).
    apply list_elem_of_In, elem_of_map_to_list in Hin.
    rewrite Hall in Hm; [discriminate|]. eexists; exact Hin.
Qed.

Lemma new_model_number_loop_first fuel dir c :
  (exists k, c <= k <= c + Z.of_nat fuel /\ glob (pat_number k) dir = []) ->
  exists n, new_model_number_loop fuel dir c = Some (n, n + 1) /\ c <= n /\
            glob (pat_number n) dir = [] /\
            forall j, c <= j < n -> glob (pat_number j) dir <> [].
Proof.
  revert c. induction fuel as [|fuel IH]; intros c (k & Hk & Hfree).
  - assert (k = c) as -> by lia. exists c. simpl. rewrite Hfree.
    repeat split; try (intros; lia).
  - simpl. destruct (glob (pat_number c) dir) as [|x l] eqn:Hc.
    + exists c. repeat split; try (intros; lia); auto.
    + destruct (IH (c + 1)) as (n & Hn & Hle & Hnil & Hbusy).
      { exists k. split; [|exact Hfree].
        assert (k <> c) by (intros ->; rewrite Hfree in Hc; discriminate). lia. }
      exists n. split; [exact Hn|]. split; [lia|]. split; [exact Hnil|].
      intros j Hj. destruct (decide (j = c)) as [->|]; [rewrite Hc; discriminate|].
      apply Hbusy. lia.
Qed.

Lemma new_model_number_loop_total dir c :
  exists n, new_model_number_loop (size dir) dir c = Some (n, n + 1) /\ c <= n /\
            glob (pat_number n) dir = [] /\
            forall j, c <= j < n -> glob (pat_number j) dir <> [].
Proof.
  apply new_model_number_loop_first.
  set (tokens := PyStr.split_head "_" <$> (map fst (map_to_list dir))).
  destruct (free_exists PyStr.str_of_int tokens c) as (k & Hk & Hfree).
  { intros i j _ _. apply str_of_int_inj. }
  exists k. split.
  - unfold tokens in Hk. rewrite length_fmap, length_map, length_map_to_list in Hk. lia.
  - apply glob_nil_iff. intros name [e He].
    destruct (pat_number k name) eqn:Hm; [|reflexivity]. exfalso. apply Hfree.
    unfold pat_number in Hm. apply numbered_name_token in Hm. rewrite <- Hm.
    unfold tokens. apply list_elem_of_fmap_2.
    apply list_elem_of_In, in_map_iff. exists (name, e). split; [reflexivity|].
    apply list_elem_of_In, elem_of_map_to_list. exact He.
Qed.

(** ** Reasoning about computations *)

Section MonadFacts.
Context `{OliveTypes}.

Context (R : relation engine_state) `{!PreOrder R}.

Lemma preserves_ret {A} (a : A) : preserves R (ret a).
Proof. intros st. reflexivity. Qed.

Lemma preserves_raise {A} (e : exn) : preserves R (@raise _ A e).
Proof. intros st. reflexivity. Qed.

Lemma preserves_get_state : preserves R get_state.
Proof. intros st. reflexivity. Qed.

Lemma preserves_bind {A B} (c : M A) (k : A -> M B) :
  preserves R c -> (forall a, preserves R (k a)) -> preserves R (bind c k).
Proof.
  intros Hc Hk st. unfold bind. specialize (Hc st).
  destruct (c st) as [[a|e] st']; simpl in *; [|exact Hc].
  etransitivity; [exact Hc|apply Hk].
Qed.

Lemma preserves_try_except {A} (c : M A) (h : exn -> M A) :
  preserves R c -> (forall e, preserves R (h e)) -> preserves R (try_except c h).
Proof.
  intros Hc Hh st. unfold try_except. specialize (Hc st).
  destruct (c st) as [[a|e] st']; simpl in *; [exact Hc|].
  etransitivity; [exact Hc|apply Hh].
Qed.

Lemma preserves_for_each {A} (xs : list A) (body : A -> M unit) :
  (forall x, preserves R (body x)) -> preserves R (for_each xs body).
Proof.
  intros Hb. induction xs as [|x xs IH]; simpl.
  - apply preserves_ret.
  - apply preserves_bind; [apply Hb|intros _; exact IH].
Qed.

Lemma preserves_modify (f : engine_state -> engine_state) :
  (forall st, R st (f st)) -> preserves R (modify f).
Proof. intros Hf st. apply Hf. Qed.

Lemma preserves_call_world {A} (f : World -> result A * World) :
  (forall st w, R st (with_world w st)) -> preserves R (call_world f).
Proof.
  intros Hw st. unfold call_world. destruct (f (world st)) as [r w]. apply Hw.
Qed.

Lemma preserves_assert (b : bool) : preserves R (assert b).
Proof. destruct b; [apply preserves_ret|apply preserves_raise]. Qed.

Lemma preserves_lift_result {A} (r : result A) : preserves R (lift_result r).
Proof. destruct r; [apply preserves_ret|apply preserves_raise]. Qed.

End MonadFacts.

#[global] Instance same_on_preorder `{OliveTypes} {T} (proj : engine_state -> T) :
  PreOrder (same_on proj).
Proof.
  split; [intros st; reflexivity|].
  intros a b c Hab Hbc. unfold same_on in *. congruence.
Qed.

#[global] Instance counter_mono_preorder `{OliveTypes} : PreOrder counter_mono.
Proof.
  split; [intros st; unfold counter_mono; lia|].
  intros a b c. unfold counter_mono. lia.
Qed.

Create HintDb preserves discriminated.

Ltac preserves_step :=
  lazymatch goal with
  | |- preserves ?R (ret _) => apply (preserves_ret R)
  | |- preserves ?R (raise _) => apply (preserves_raise R)
  | |- preserves ?R get_state => apply (preserves_get_state R)
  | |- preserves ?R (assert _) => apply (preserves_assert R)
  | |- preserves ?R (lift_result _) => apply (preserves_lift_result R)
  | |- preserves ?R (bind _ _) => apply (preserves_bind R); [|intros ?]
  | |- preserves ?R (try_except _ _) => apply (preserves_try_except R); [|intros ?]
  | |- preserves ?R (for_each _ _) => apply (preserves_for_each R); intros ?
  | |- preserves ?R (modify _) => apply (preserves_modify R); intros ?
  | |- preserves ?R (call_world _) => apply (preserves_call_world R); intros ? ?
  | |- preserves ?R (match ?x with _ => _ end) => destruct x
  | |- preserves ?R _ => solve [eauto with preserves]
  end.

Ltac preserves_tac := repeat preserves_step.

Section RunFacts.
Context `{OliveTypes}.

Lemma bind_ok {A B} (c : M A) (k : A -> M B) st a st' :
  c st = (Ok a, st') -> bind c k st = k a st'.
Proof. intros Hc. unfold bind. rewrite Hc. reflexivity. Qed.

Lemma bind_raise {A B} (c : M A) (k : A -> M B) st e st' :
  c st = (Raise e, st') -> bind c k st = (Raise e, st').
Proof. intros Hc. unfold bind. rewrite Hc. reflexivity. Qed.

Lemma bind_inv_ok {A B} (c : M A) (k : A -> M B) st b st2 :
  bind c k st = (Ok b, st2) ->
  exists a st1, c st = (Ok a, st1) /\ k a st1 = (Ok b, st2).
Proof.
  unfold bind. destruct (c st) as [[a|e] st1]; [eauto|discriminate].
Qed.

Lemma bind_inv {A B} (c : M A) (k : A -> M B) st r st2 :
  bind c k st = (r, st2) ->
  (exists a st1, c st = (Ok a, st1) /\ k a st1 = (r, st2)) \/
  (exists e, c st = (Raise e, st2) /\ r = Raise e).
Proof.
  unfold bind. destruct (c st) as [[a|e] st1]; [eauto|].
  intros [= <- <-]. eauto.
Qed.

Lemma preserved {A} (R : relation engine_state) (c : M A) st r st' :
  preserves R c -> c st = (r, st') -> R st st'.
Proof. intros Hc Heq. specialize (Hc st). rewrite Heq in Hc. exact Hc. Qed.

End RunFacts.

Section AllocatorFacts.
Context `{OliveTypes}.

Lemma get_new_model_number_spec (st : engine_state) :
  exists n,
    _get_new_model_number st = (Ok n, with_new_model_number (n + 1) st) /\
    new_model_number st <= n /\
    glob (pat_number n) (models_dir st) = [] /\
    forall j, new_model_number st <= j < n -> glob (pat_number j) (models_dir st) <> [].
Proof.
  destruct (new_model_number_loop_total (models_dir st) (new_model_number st))
    as (n & Hloop & Hle & Hfree & Hbusy).
  exists n. split; [|auto].
  unfold _get_new_model_number, bind, get_state. rewrite Hloop. reflexivity.
Qed.

Lemma get_new_model_number_mono : preserves counter_mono _get_new_model_number.
Proof.
  intros st. destruct (get_new_model_number_spec st) as (n & -> & Hle & _).
  unfold counter_mono. simpl. lia.
Qed.

Lemma fold_max_mono (l : list Z) a b : a <= b -> fold_left Z.max l a <= fold_left Z.max l b.
Proof. revert a b. induction l as [|z l IH]; intros a b Hab; simpl; [exact Hab|]. apply IH. lia. Qed.

Lemma fold_max_ge (l : list Z) a n : n = a \/ n ∈ l -> n <= fold_left Z.max l a.
Proof.
  revert a. induction l as [|z l IH]; intros a Hn; simpl.
  - destruct Hn as [->|Hin]; [lia|inversion Hin].
  - destruct Hn as [Hn|Hin].
    + transitivity (fold_left Z.max l a); [apply IH; left; exact Hn|apply fold_max_mono; lia].
    + apply elem_of_cons in Hin as [Hn|Hin].
      * transitivity (fold_left Z.max l z); [apply IH; left; exact Hn|apply fold_max_mono; lia].
      * apply IH. right. exact Hin.
Qed.

Lemma py_max_ge (ns : list Z) n : n ∈ ns -> n <= py_max ns.
Proof.
  destruct ns as [|x ns]; [intros Hin; inversion Hin|]. simpl.
  intros Hin. apply fold_max_ge. apply elem_of_cons in Hin. exact Hin.
Qed.

Lemma model_file_numbers_elem names ns name n :
  model_file_numbers names = Some ns -> name ∈ names -> model_file_number name = Some n ->
  n ∈ ns.
Proof.
  revert ns. induction names as [|x names IH]; intros ns Hns Hin Hn; [inversion Hin|].
  simpl in Hns. destruct (model_file_number x) as [m|] eqn:Hx; [|discriminate].
  destruct (model_file_numbers names) as [ms|]; [|discriminate].
  injection Hns as <-. apply elem_of_cons in Hin as [->|Hin].
  - rewrite Hx in Hn. injection Hn as ->. left.
  - right. apply IH; auto.
Qed.

Lemma glob_elem (matches : string -> bool) (dir : gmap string dirent) name :
  name ∈ glob matches dir <-> is_Some (dir !! name) /\ matches name = true.
Proof.
  unfold glob. rewrite list_elem_of_In, filter_In, in_map_iff. split.
  - intros [([k e] & <- & Hin) Hm]. split; [|exact Hm].
    apply list_elem_of_In, elem_of_map_to_list in Hin. eexists; exact Hin.
  - intros [[e He] Hm]. split; [|exact Hm]. exists (name, e). split; [reflexivity|].
    apply list_elem_of_In, elem_of_map_to_list. exact He.
Qed.

(** The counter computed from a listing is above every number in it. *)
Lemma initial_model_number_above (dir : gmap string dirent) c n rest :
  initial_model_number dir = Ok c ->
  is_Some (dir !! (PyStr.str_of_int n +:+ "_" +:+ rest)) ->
  n < c.
Proof.
  intros Hc Hentry.
  assert (Hname : PyStr.str_of_int n +:+ "_" +:+ rest ∈ glob pat_any_underscore dir).
  { apply glob_elem. split; [exact Hentry|]. unfold pat_any_underscore.
    rewrite !contains_app. simpl. rewrite orb_true_r. reflexivity. }
  unfold initial_model_number in Hc.
  destruct (glob pat_any_underscore dir) as [|f files] eqn:Hglob; [inversion Hname|].
  change ((0 <? length (f :: files))%nat) with true in Hc. cbv iota in Hc.
  destruct (model_file_numbers (f :: files)) as [ns|] eqn:Hns; [|discriminate].
  injection Hc as <-.
  assert (n ∈ ns).
  { eapply model_file_numbers_elem; [exact Hns|exact Hname|].
    apply model_file_number_numbered. }
  pose proof (py_max_ge ns n ltac:(assumption)). lia.
Qed.

Context `{!OliveEnv}.

Lemma clean_run_caches_counter (eng : Engine) :
  preserves (same_on new_model_number) (clean_run_caches eng).
Proof.
  unfold clean_run_caches, set_models_dir, set_runs_dir. preserves_tac; reflexivity.
Qed.

(** The counter [initialize] leaves is above every number present. *)
Lemma initialize_counter (eng : Engine) (st0 st1 : engine_state) :
  initialize eng st0 = (Ok tt, st1) ->
  forall n rest,
    is_Some ((if cfg_clean_cache eng then ∅ else models_dir st0)
               !! (PyStr.str_of_int n +:+ "_" +:+ rest)) ->
    n < new_model_number st1.
Proof.
  intros Hinit n rest Hentry. unfold initialize in Hinit.
  apply bind_inv_ok in Hinit as ([] & sa & Ha & Hinit).
  apply bind_inv_ok in Hinit as ([] & sb & Hb & Hinit).
  apply bind_inv_ok in Hinit as (sc & sc' & Hc & Hinit).
  apply bind_inv_ok in Hinit as (c & sd & Hd & Hinit).
  apply bind_inv_ok in Hinit as ([] & se & He & Hinit).
  apply bind_inv_ok in Hinit as ([] & sf & Hf & Hinit).
  injection Hc as <- <-. injection Hb as <-. injection He as <-. injection Hinit as <-.
  apply (preserved _ _ _ _ _ (clean_run_caches_counter eng)) in Hf.
  unfold same_on in Hf. simpl in *. rewrite Hf.
  assert (Hdir : models_dir sa = if cfg_clean_cache eng then ∅ else models_dir st0).
  { destruct (cfg_clean_cache eng); injection Ha as <-; reflexivity. }
  rewrite Hdir in Hd.
  destruct (initial_model_number _) as [c'|e] eqn:Hnum; [|discriminate].
  injection Hd as <- <-. eapply initial_model_number_above; eauto.
Qed.

End AllocatorFacts.

Section C6.
Context `{OliveEnv}.

(** C6.  After [initialize], in any later state of the run (the counter
    never goes down), [_get_new_model_number] returns a number [n] and
    leaves the counter at [n + 1]; no entry "<n>_*" is in the models
    directory at the time of the call; [n] is greater than every number
    returned earlier in the run; and [n] is greater than every number [m]
    of an entry "<m>_*" that was in the models directory when the engine
    was initialized, a leftover directory without a sidecar included. *)
Theorem allocator_never_reuses (eng : Engine) (st0 st1 st : engine_state) :
  initialize eng st0 = (Ok tt, st1) ->
  counter_mono st1 st ->
  exists n,
    _get_new_model_number st = (Ok n, with_new_model_number (n + 1) st) /\
    (forall rest, models_dir st !! (PyStr.str_of_int n +:+ "_" +:+ rest) = None) /\
    (forall stp np stp',
        _get_new_model_number stp = (Ok np, stp') -> counter_mono stp' st -> np < n) /\
    (forall m rest,
        is_Some ((if cfg_clean_cache eng then ∅ else models_dir st0)
                   !! (PyStr.str_of_int m +:+ "_" +:+ rest)) ->
        m < n).
Proof.
  intros Hinit Hlater.
  destruct (get_new_model_number_spec st) as (n & Hn & Hle & Hfree & _).
  exists n. split; [exact Hn|]. split; [|split].
  - intros rest. destruct (models_dir st !! _) as [e|] eqn:He; [|reflexivity].
    exfalso. rewrite glob_nil_iff in Hfree.
    specialize (Hfree (PyStr.str_of_int n +:+ "_" +:+ rest) (ex_intro _ e He)).
    unfold pat_number in Hfree.
    rewrite <- app_assoc_str, startswith_app in Hfree. discriminate.
  - intros stp np stp' Hp Hmono.
    destruct (get_new_model_number_spec stp) as (np' & Hnp & _).
    rewrite Hnp in Hp. injection Hp as -> <-.
    unfold counter_mono in Hmono. simpl in Hmono. lia.
  - intros m rest Hentry.
    pose proof (initialize_counter eng st0 st1 Hinit m rest Hentry).
    unfold counter_mono in Hlater. lia.
Qed.
End C6.

Section ResolverFacts.
Context `{OliveEnv}.

Lemma resolve_ep_inv device supported_eps av rs0 rs ep :
  resolver_inv av rs0 -> resolver_inv av rs -> extends_for device rs0 rs ->
  ep ∉ processed_ep rs0 ->
  resolver_inv av (resolve_ep device supported_eps av rs ep) /\
  extends_for device rs0 (resolve_ep device supported_eps av rs ep).
Proof.
  intros (H0p & _) (Hp & Hu & Hc & Hn) (Ep & En & Es & Enew) Hfresh.
  unfold resolve_ep.
  destruct (negb (bool_decide (ep ∈ supported_eps))) eqn:Hsup; simpl.
  { split; [split; [|split; [|split]]|split; [|split; [|split]]]; simpl; auto.
    - intros s Hs. apply elem_of_union_r. auto.
    - set_solver.
    - set_solver.
    - set_solver. }
  destruct (bool_decide (ep = "CPUExecutionProvider") &&
            negb (bool_decide (device = "cpu")) && av) eqn:Hcpu.
  { split; [split; [|split; [|split]]|split; [|split; [|split]]]; auto. }
  split; [split; [|split; [|split]]|split; [|split; [|split]]]; simpl.
  - intros s [Hs| ->%list_elem_of_singleton]%elem_of_app; [|set_solver].
    apply elem_of_union_r. auto.
  - assert (Hold : forall s, s ∈ specs_acc rs -> execution_provider s = ep ->
                             s = mkAcceleratorSpec device ep).
    { intros [d e] Hs Hep. simpl in Hep. subst e.
      destruct (Enew _ Hs) as [Hin|[Hd _]]; simpl in *.
      - exfalso. apply Hfresh. apply (H0p _ Hin).
      - subst d. reflexivity. }
    intros s1 s2 [H1| ->%list_elem_of_singleton]%elem_of_app
                 [H2| ->%list_elem_of_singleton]%elem_of_app Heq; simpl in *.
    + auto.
    + apply Hold; assumption.
    + symmetry. apply Hold; [assumption|symmetry; assumption].
    + reflexivity.
  - intros Hav s [Hs| ->%list_elem_of_singleton]%elem_of_app Hep; simpl in *; [auto|].
    subst ep av. rewrite bool_decide_eq_true_2 in Hcpu by reflexivity.
    simpl in Hcpu. rewrite andb_true_r in Hcpu.
    apply negb_false_iff, bool_decide_eq_true in Hcpu. exact Hcpu.
  - set_solver.
  - set_solver.
  - assumption.
  - intros s Hs. apply elem_of_app. left. auto.
  - intros s [Hs| ->%list_elem_of_singleton]%elem_of_app; [auto|].
    right. simpl. auto.
Qed.

Lemma fold_resolve_ep_inv device supported_eps av rs0 eps rs :
  resolver_inv av rs0 -> resolver_inv av rs -> extends_for device rs0 rs ->
  (forall ep, ep ∈ eps -> ep ∉ processed_ep rs0) ->
  resolver_inv av (fold_left (resolve_ep device supported_eps av) eps rs) /\
  extends_for device rs0 (fold_left (resolve_ep device supported_eps av) eps rs).
Proof.
  intros Hinv0. revert rs. induction eps as [|ep eps IH]; intros rs Hinv Hext Hfresh; simpl.
  - auto.
  - destruct (resolve_ep_inv device supported_eps av rs0 rs ep) as [Hinv' Hext']; auto.
    { apply Hfresh. left. }
    apply IH; auto. intros ep' Hin. apply Hfresh. right. exact Hin.
Qed.

Lemma extends_for_refl device rs : extends_for device rs rs.
Proof. unfold extends_for. auto. Qed.

(** The whole loop keeps the invariant, and adds only specs of providers
    that were not yet processed. *)
Lemma resolve_devices_inv eps av accels rs rs' :
  resolve_devices eps av accels rs = Ok rs' ->
  resolver_inv av rs ->
  resolver_inv av rs' /\
  processed_ep rs ⊆ processed_ep rs' /\
  (forall s, s ∈ specs_acc rs -> s ∈ specs_acc rs') /\
  (forall s, s ∈ specs_acc rs' ->
             s ∈ specs_acc rs \/ execution_provider s ∉ processed_ep rs).
Proof.
  revert rs. induction accels as [|a accels IH]; intros rs Hres Hinv; simpl in Hres.
  - injection Hres as <-. auto.
  - destruct (is_device (PyStr.lower a)); [|discriminate].
    set (device := PyStr.lower a) in *.
    set (todo := List.filter _ eps) in Hres.
    destruct (fold_resolve_ep_inv device (get_execution_providers_for_device device) av rs todo rs)
      as [Hinv1 (Ep & En & Es & Enew)]; auto using extends_for_refl.
    { intros ep Hin. apply list_elem_of_In, filter_In in Hin as [_ Hin].
      apply negb_true_iff, bool_decide_eq_false in Hin. exact Hin. }
    destruct (IH _ Hres Hinv1) as (Hinv' & Hp' & Hs' & Hnew').
    split; [exact Hinv'|]. split; [set_solver|]. split; [auto|].
    intros s Hs. destruct (Hnew' _ Hs) as [Hmid|Hfresh].
    + destruct (Enew _ Hmid) as [?|[_ ?]]; auto.
    + right. set_solver.
Qed.

Lemma resolve_devices_app eps av pre post rs :
  resolve_devices eps av (pre ++ post) rs =
  match resolve_devices eps av pre rs with
  | Ok rs_mid => resolve_devices eps av post rs_mid
  | Raise e => Raise e
  end.
Proof.
  revert rs. induction pre as [|a pre IH]; intros rs; simpl; [reflexivity|].
  destruct (is_device (PyStr.lower a)); [apply IH|reflexivity].
Qed.

Lemma resolver_inv_empty av : resolver_inv av (mkResolver ∅ ∅ []).
Proof.
  unfold resolver_inv. simpl. repeat split; set_solver.
Qed.

(** C5.  In the list of accelerator specs [__init__] resolves, two specs
    with the same execution provider are the same spec; when a CPU device
    is among the target's accelerators, CPUExecutionProvider is paired
    with the cpu device only; a provider paired with, or rejected for, a
    device is paired with no later device; the list is not empty, and
    when the loop leaves it empty [__init__] raises [AssertionError]. *)
Theorem accelerator_specs_resolved (target : OliveSystem)
    (execution_providers : option (list string)) :
  let accels := match accelerators target with None => ["CPU"] | Some a => a end in
  let is_cpu_available := bool_decide ("cpu" ∈ map PyStr.lower accels) in
  (forall specs,
      init_accelerator_specs target execution_providers = Ok specs ->
      specs <> [] /\
      (forall s1 s2, s1 ∈ specs -> s2 ∈ specs ->
                     execution_provider s1 = execution_provider s2 -> s1 = s2) /\
      ("cpu" ∈ map PyStr.lower accels ->
       forall s, s ∈ specs -> execution_provider s = "CPUExecutionProvider" ->
                 accelerator_type s = "cpu") /\
      (forall eps pre post rs_mid ep s,
          init_execution_providers target execution_providers = Ok eps ->
          accels = (pre ++ post)%list ->
          resolve_devices eps is_cpu_available pre (mkResolver ∅ ∅ []) = Ok rs_mid ->
          (exists s', s' ∈ specs_acc rs_mid /\ execution_provider s' = ep) \/
            ep ∈ not_supported_ep rs_mid ->
          s ∈ specs -> execution_provider s = ep -> s ∈ specs_acc rs_mid)) /\
  (forall eps rs,
      init_execution_providers target execution_providers = Ok eps ->
      resolve_devices eps is_cpu_available accels (mkResolver ∅ ∅ []) = Ok rs ->
      specs_acc rs = [] ->
      init_accelerator_specs target execution_providers = Raise AssertionError).
Proof.
  intros accels av. split.
  - intros specs Hinit. unfold init_accelerator_specs in Hinit.
    destruct (init_execution_providers target execution_providers) as [eps|e] eqn:Heps;
      [|discriminate].
    fold accels in Hinit. fold av in Hinit.
    destruct (resolve_devices eps av accels (mkResolver ∅ ∅ [])) as [rs|e] eqn:Hres;
      [|discriminate].
    destruct (specs_acc rs) as [|s0 l] eqn:Hspecs; [discriminate|].
    injection Hinit as <-. rewrite <- Hspecs.
    destruct (resolve_devices_inv _ _ _ _ _ Hres (resolver_inv_empty av))
      as ((Hp & Hu & Hc & Hn) & _).
    split; [rewrite Hspecs; discriminate|]. split; [exact Hu|]. split.
    + intros Hcpu. apply Hc. unfold av. apply bool_decide_eq_true_2. exact Hcpu.
    + intros eps' pre post rs_mid ep s [= <-] Hsplit Hpre Hsettled Hs Hep.
      rewrite Hsplit, resolve_devices_app, Hpre in Hres.
      destruct (resolve_devices_inv _ _ _ _ _ Hpre (resolver_inv_empty av))
        as ((Hp1 & _ & _ & Hn1) & _).
      destruct (resolve_devices_inv _ _ _ _ _ Hres) as (_ & _ & _ & Hnew).
      { destruct (resolve_devices_inv _ _ _ _ _ Hpre (resolver_inv_empty av)) as [? _].
        assumption. }
      destruct (Hnew _ Hs) as [?|Hfresh]; [assumption|].
      exfalso. apply Hfresh. rewrite Hep.
      destruct Hsettled as [(s' & Hs' & <-)|Hrej]; [apply Hp1; exact Hs'|set_solver].
  - intros eps rs Heps Hres Hnil. unfold init_accelerator_specs.
    rewrite Heps. fold accels. fold av. rewrite Hres, Hnil. reflexivity.
Qed.

End ResolverFacts.

Section CacheFacts.
Context `{OliveEnv}.

(** Writing a sidecar: what [_cache_model] leaves. *)
Lemma cache_model_written (model : model_value) (model_id : string) (check_object : bool)
    (st : engine_state) :
  models_dir st !! get_model_json_path model_id <> Some EDir ->
  _cache_model model model_id check_object st =
    (Ok tt,
     with_models_dir
       (<[get_model_json_path model_id :=
            EFile (JsonText (match model with
                             | PRUNED_CONFIG => JObj []
                             | Model m => model_to_json check_object m
                             end))]> (models_dir st)) st).
Proof.
  intros Hdir. unfold _cache_model, try_except, bind, get_state, write_json.
  destruct (models_dir st !! get_model_json_path model_id) as [[f|]|]; try reflexivity.
  contradiction.
Qed.

Lemma cache_model_never_raises (model : model_value) (model_id : string) (check_object : bool)
    (st : engine_state) :
  exists st', _cache_model model model_id check_object st = (Ok tt, st').
Proof.
  unfold _cache_model, try_except, bind, get_state, write_json.
  destruct (models_dir st !! get_model_json_path model_id) as [[f|]|]; simpl; eauto.
Qed.

Lemma load_model_json (model_id : string) (j : json) (st : engine_state) :
  models_dir st !! get_model_json_path model_id = Some (EFile (JsonText j)) ->
  _load_model model_id st =
    if is_empty_obj j then (Ok (Some PRUNED_CONFIG), st)
    else match model_from_json j with
         | Ok m => (Ok (Some (Model m)), st)
         | Raise e => (Raise e, st)
         end.
Proof.
  intros Hfile. unfold _load_model, try_except, bind, get_state, read_json.
  rewrite Hfile. simpl. destruct (is_empty_obj j); [reflexivity|].
  destruct (model_from_json j); reflexivity.
Qed.

Lemma load_model_unreadable (model_id : string) (st : engine_state) :
  (forall j, models_dir st !! get_model_json_path model_id <> Some (EFile (JsonText j))) ->
  _load_model model_id st =
    (Ok None, with_trace (trace st ++ [EvLogError "Failed to load model"]) st).
Proof.
  intros Hbad. unfold _load_model, try_except, bind, get_state, read_json.
  destruct (models_dir st !! get_model_json_path model_id) as [[[j|]|]|] eqn:Hf;
    try reflexivity.
  exfalso. exact (Hbad j eq_refl).
Qed.

(** C9.  [_cache_model] of the pruned sentinel writes the empty JSON
    object as the sidecar, and [_load_model] then returns the sentinel;
    [_load_model] of any model id whose sidecar is the empty object
    returns the sentinel; [_load_model] of a sidecar that is missing or
    cannot be parsed returns [None] and raises nothing. *)
Theorem pruned_round_trip (model_id : string) (st : engine_state) :
  (forall check_object,
      models_dir st !! get_model_json_path model_id <> Some EDir ->
      exists st',
        _cache_model PRUNED_CONFIG model_id check_object st = (Ok tt, st') /\
        models_dir st' !! get_model_json_path model_id = Some (EFile (JsonText (JObj []))) /\
        _load_model model_id st' = (Ok (Some PRUNED_CONFIG), st')) /\
  (models_dir st !! get_model_json_path model_id = Some (EFile (JsonText (JObj []))) ->
   _load_model model_id st = (Ok (Some PRUNED_CONFIG), st)) /\
  ((forall j, models_dir st !! get_model_json_path model_id <> Some (EFile (JsonText j))) ->
   exists st', _load_model model_id st = (Ok None, st') /\
               models_dir st' = models_dir st /\ runs_dir st' = runs_dir st).
Proof.
  split; [|split].
  - intros check_object Hdir. eexists. split; [apply cache_model_written; exact Hdir|].
    assert (Hfile : forall d : gmap string dirent,
               <[get_model_json_path model_id := EFile (JsonText (JObj []))]> d
                 !! get_model_json_path model_id = Some (EFile (JsonText (JObj [])))).
    { intros d. apply lookup_insert_eq. }
    split; [apply Hfile|].
    rewrite (load_model_json model_id (JObj [])); [reflexivity|apply Hfile].
  - intros Hfile. rewrite (load_model_json model_id (JObj []) st Hfile). reflexivity.
  - intros Hbad. eexists. split; [apply load_model_unreadable; exact Hbad|].
    split; reflexivity.
Qed.

End CacheFacts.

(** ** Dictionaries *)

Module PyDictFacts.
Section Facts.
Context {K V : Type} `{EqDecision K}.
Implicit Types (k : K) (v : V) (d : list (K * V)).

Lemma get_set_eq k v d : PyDict.get k (PyDict.set k v d) = Some v.
Proof.
  induction d as [|[k' v'] d IH]; simpl.
  - rewrite decide_True by reflexivity. reflexivity.
  - destruct (decide (k' = k)) as [->|Hne]; simpl.
    + rewrite decide_True by reflexivity. reflexivity.
    + rewrite decide_False by exact Hne. exact IH.
Qed.

Lemma get_set_ne k k' v d : k <> k' -> PyDict.get k' (PyDict.set k v d) = PyDict.get k' d.
Proof.
  intros Hne. induction d as [|[k0 v0] d IH]; simpl.
  - rewrite decide_False by exact Hne. reflexivity.
  - destruct (decide (k0 = k)) as [->|Hne0]; simpl.
    + rewrite !decide_False by exact Hne. reflexivity.
    + destruct (decide (k0 = k')); [reflexivity|exact IH].
Qed.

Lemma elem_of_set k v d kv :
  kv ∈ PyDict.set k v d -> kv = (k, v) \/ kv ∈ d.
Proof.
  induction d as [|[k' v'] d IH]; simpl.
  - intros ->%list_elem_of_singleton. left. reflexivity.
  - destruct (decide (k' = k)) as [->|Hne].
    + intros [->|Hin]%elem_of_cons; [left; reflexivity|right; right; exact Hin].
    + intros [->|Hin]%elem_of_cons; [right; left|].
      destruct (IH Hin) as [->|Hd]; [left; reflexivity|right; right; exact Hd].
Qed.

Lemma get_None_not_key k d : PyDict.get k d = None <-> k ∉ PyDict.keys d.
Proof.
  unfold PyDict.keys. induction d as [|[k' v'] d IH]; simpl.
  - split; [intros _ Hin; inversion Hin|reflexivity].
  - destruct (decide (k' = k)) as [->|Hne].
    + split; [discriminate|]. intros Hnin. exfalso. apply Hnin. left.
    + rewrite IH. rewrite not_elem_of_cons. split; [auto|tauto].
Qed.

Lemma mem_iff k d : PyDict.mem k d = true <-> k ∈ PyDict.keys d.
Proof.
  unfold PyDict.mem. pose proof (get_None_not_key k d) as Hn.
  destruct (PyDict.get k d).
  - split; [|reflexivity]. intros _.
    destruct (decide (k ∈ PyDict.keys d)) as [|Hnin]; [assumption|].
    apply Hn in Hnin. discriminate.
  - split; [discriminate|]. intros Hin. exfalso. apply Hn; auto.
Qed.

Lemma set_fresh k v d : PyDict.get k d = None -> PyDict.set k v d = (d ++ [(k, v)])%list.
Proof.
  induction d as [|[k' v'] d IH]; simpl; [reflexivity|].
  destruct (decide (k' = k)); [discriminate|]. intros Hd. rewrite (IH Hd). reflexivity.
Qed.

Lemma get_app k d d' :
  PyDict.get k (d ++ d')%list =
  match PyDict.get k d with Some v => Some v | None => PyDict.get k d' end.
Proof.
  induction d as [|[k' v'] d IH]; simpl; [reflexivity|].
  destruct (decide (k' = k)); [reflexivity|exact IH].
Qed.

End Facts.



End PyDictFacts.

Section GoalFacts.
Context `{OliveEnv}.
Import PyDictFacts.

Lemma get_sub_type_info_values {A} (metric : Metric) (info : SubMetric -> A) k a :
  (k, a) ∈ get_sub_type_info metric info ->
  exists s, s ∈ sub_types metric /\ a = info s.
Proof.
  unfold get_sub_type_info.
  assert (Hgen : forall subs d,
             (k, a) ∈ fold_left (fun d sub_type =>
                                   if sub_priority sub_type <=? 0 then d
                                   else PyDict.set (sub_name sub_type) (info sub_type) d) subs d ->
             (k, a) ∈ d \/ exists s, s ∈ subs /\ a = info s).
  { induction subs as [|s subs IH]; intros d Hin; simpl in Hin; [left; exact Hin|].
    apply IH in Hin as [Hin|(s' & Hs' & ->)].
    - destruct (sub_priority s <=? 0); [left; exact Hin|].
      apply elem_of_set in Hin as [[= _ ->]|Hin]; [|left; exact Hin].
      right. exists s. split; [left|reflexivity].
    - right. exists s'. split; [right; exact Hs'|reflexivity]. }
  intros Hin. apply Hgen in Hin as [Hin|?]; [inversion Hin|assumption].
Qed.

Lemma goals_of_values (metrics : list Metric) k goal :
  (k, goal) ∈ goals_of metrics ->
  exists m, m ∈ metrics /\ goal = get_sub_type_info m sub_goal.
Proof.
  unfold goals_of.
  assert (Hgen : forall ms d,
             (k, goal) ∈ fold_left (fun goals metric =>
                          PyDict.set (metric_name metric) (get_sub_type_info metric sub_goal) goals)
                          ms d ->
             (k, goal) ∈ d \/ exists m, m ∈ ms /\ goal = get_sub_type_info m sub_goal).
  { induction ms as [|m ms IH]; intros d Hin; simpl in Hin; [left; exact Hin|].
    apply IH in Hin as [Hin|(m' & Hm' & ->)].
    - apply elem_of_set in Hin as [[= _ ->]|Hin]; [|left; exact Hin].
      right. exists m. split; [left|reflexivity].
    - right. exists m'. split; [right; exact Hm'|reflexivity]. }
  intros Hin. apply Hgen in Hin as [Hin|?]; [inversion Hin|assumption].
Qed.

Lemma sub_goals_need_baseline_true (sub_goals : list (option MetricGoal)) :
  sub_goals_need_baseline sub_goals = true ->
  exists g, Some g ∈ sub_goals /\ goal_kind g <> threshold.
Proof.
  induction sub_goals as [|[g|] l IH]; simpl; try discriminate.
  destruct (bool_decide (goal_kind g = threshold)) eqn:Hk; simpl.
  - intros Hl. destruct (IH Hl) as (g' & Hin & Hne). exists g'. split; [right; exact Hin|exact Hne].
  - intros _. exists g. split; [left|]. apply bool_decide_eq_false in Hk. exact Hk.
Qed.

Lemma goals_need_baseline_true (goals : list (list (string * option MetricGoal))) :
  goals_need_baseline goals = true ->
  exists goal, goal ∈ goals /\ sub_goals_need_baseline (PyDict.values goal) = true.
Proof.
  induction goals as [|goal goals IH]; simpl; [discriminate|].
  destruct (sub_goals_need_baseline (PyDict.values goal)) eqn:Hg.
  - intros _. exists goal. split; [left|exact Hg].
  - intros Hl. destruct (IH Hl) as (g & Hin & Hn). exists g. split; [right; exact Hin|exact Hn].
Qed.

(** Goals that are all thresholds (or absent) ask for no baseline. *)
Lemma thresholds_need_no_baseline (metrics : list Metric) :
  (forall m s g, m ∈ metrics -> s ∈ sub_types m -> sub_goal s = Some g ->
                 goal_kind g = threshold) ->
  goals_need_baseline (PyDict.values (goals_of metrics)) = false.
Proof.
  intros Hall. destruct (goals_need_baseline _) eqn:Hneed; [|reflexivity]. exfalso.
  apply goals_need_baseline_true in Hneed as (goal & Hgoal & Hsub).
  apply sub_goals_need_baseline_true in Hsub as (g & Hg & Hne).
  unfold PyDict.values in *.
  apply list_elem_of_In, in_map_iff in Hgoal as ([k goal'] & Heq & Hin). simpl in Heq. subst goal'.
  apply list_elem_of_In, goals_of_values in Hin as (m & Hm & ->).
  apply list_elem_of_In, in_map_iff in Hg as ([k' g'] & Heq & Hin). simpl in Heq. subst g'.
  apply list_elem_of_In, get_sub_type_info_values in Hin as (s & Hs & Hgs).
  apply Hne. eapply Hall; eauto.
Qed.

(** With thresholds only, [resolve_goals] evaluates nothing and returns the
    empty dictionary. *)
Lemma resolve_goals_thresholds_only (eng : Engine) (input_model : OliveModel)
    (input_model_id : string) (metrics : list Metric) (accelerator_spec : AcceleratorSpec)
    (st : engine_state) :
  (forall m s g, m ∈ metrics -> s ∈ sub_types m -> sub_goal s = Some g ->
                 goal_kind g = threshold) ->
  resolve_goals eng input_model input_model_id metrics accelerator_spec st = (Ok [], st).
Proof.
  intros Hall. unfold resolve_goals.
  rewrite (thresholds_need_no_baseline metrics Hall). reflexivity.
Qed.

End GoalFacts.

Section GoalResolution.
Context `{OliveEnv}.
Import PyDictFacts.














End GoalResolution.

Import PyDictFacts.

(** ** Frames: what each method leaves alone *)

Ltac head_of c :=
  lazymatch c with
  | ?f _ => head_of f
  | _ => c
  end.

(** Close a goal [R st st'] on explicit states. *)
Ltac frame_leaf :=
  first [ reflexivity
        | unfold same_on, counter_mono, host_calls, evaluations; simpl;
          first [ reflexivity | lia
                | rewrite List.filter_app, app_nil_r; reflexivity
                | rewrite List.filter_app; simpl; rewrite app_nil_r; reflexivity ] ].

Ltac frame_step :=
  lazymatch goal with
  | |- preserves ?R (ret _) => apply (preserves_ret R)
  | |- preserves ?R (raise _) => apply (preserves_raise R)
  | |- preserves ?R get_state => apply (preserves_get_state R)
  | |- preserves ?R (assert _) => apply (preserves_assert R)
  | |- preserves ?R (lift_result _) => apply (preserves_lift_result R)
  | |- preserves ?R (bind _ _) => apply (preserves_bind R); [|intros ?]
  | |- preserves ?R (try_except _ _) => apply (preserves_try_except R); [|intros ?]
  | |- preserves ?R (for_each _ _) => apply (preserves_for_each R); intros ?
  | |- preserves ?R (modify _) => apply (preserves_modify R); intros ?; frame_leaf
  | |- preserves ?R (call_world _) => apply (preserves_call_world R); intros ? ?; frame_leaf
  | |- preserves ?R (match ?x with _ => _ end) => destruct x
  | |- preserves ?R ?c =>
      first [ solve [auto with preserves]
            | let h := head_of c in progress unfold h ]
  end.

Ltac frame := repeat frame_step.

Section Frames.
Context `{OliveEnv}.

Lemma load_run_models i p c a : preserves (same_on models_dir) (_load_run i p c a).
Proof. frame. Qed.
Lemma load_run_runs i p c a : preserves (same_on runs_dir) (_load_run i p c a).
Proof. frame. Qed.
Lemma load_run_passes i p c a : preserves (same_on passes) (_load_run i p c a).
Proof. frame. Qed.
Lemma load_run_counter i p c a : preserves (same_on new_model_number) (_load_run i p c a).
Proof. frame. Qed.
Lemma load_run_host_calls i p c a : preserves (same_on host_calls) (_load_run i p c a).
Proof. frame. Qed.
Lemma load_run_world i p c a : preserves (same_on world) (_load_run i p c a).
Proof. frame. Qed.

Lemma load_model_models i : preserves (same_on models_dir) (_load_model i).
Proof. frame. Qed.
Lemma load_model_runs i : preserves (same_on runs_dir) (_load_model i).
Proof. frame. Qed.
Lemma load_model_passes i : preserves (same_on passes) (_load_model i).
Proof. frame. Qed.
Lemma load_model_counter i : preserves (same_on new_model_number) (_load_model i).
Proof. frame. Qed.
Lemma load_model_host_calls i : preserves (same_on host_calls) (_load_model i).
Proof. frame. Qed.
Lemma load_model_world i : preserves (same_on world) (_load_model i).
Proof. frame. Qed.

Lemma run_pass_output_models e i p pt m path :
  preserves (same_on models_dir) (_run_pass_output e i p pt m path).
Proof. frame. Qed.
Lemma run_pass_output_runs e i p pt m path :
  preserves (same_on runs_dir) (_run_pass_output e i p pt m path).
Proof. frame. Qed.
Lemma run_pass_output_passes e i p pt m path :
  preserves (same_on passes) (_run_pass_output e i p pt m path).
Proof. frame. Qed.
Lemma run_pass_output_counter e i p pt m path :
  preserves (same_on new_model_number) (_run_pass_output e i p pt m path).
Proof. frame. Qed.

Lemma cache_model_passes m i c : preserves (same_on passes) (_cache_model m i c).
Proof. frame. Qed.
Lemma cache_model_counter m i c : preserves (same_on new_model_number) (_cache_model m i c).
Proof. frame. Qed.
Lemma cache_run_passes p c i o a : preserves (same_on passes) (_cache_run p c i o a).
Proof. frame. Qed.
Lemma cache_run_counter p c i o a : preserves (same_on new_model_number) (_cache_run p c i o a).
Proof. frame. Qed.

End Frames.

Section RunPassFacts.
Context `{OliveEnv}.

Lemma cache_run_written (pass_name : string) (pass_config : json)
    (input_model_id output_model_id : string) (accel : option AcceleratorSpec)
    (st : engine_state) :
  let path := get_run_json_path pass_name (PyStr.split_head "_" input_model_id) pass_config accel in
  runs_dir st !! path <> Some EDir ->
  _cache_run pass_name pass_config input_model_id output_model_id accel st =
    (Ok tt,
     with_runs_dir
       (<[path := EFile (JsonText (JObj [("pass_name", JStr pass_name);
                                         ("pass_config", pass_config);
                                         ("input_model_id", JStr input_model_id);
                                         ("output_model_id", JStr output_model_id)]))]>
          (runs_dir st)) st).
Proof.
  intros path Hdir. unfold _cache_run, try_except, bind, get_state, write_json. fold path.
  destruct (runs_dir st !! path) as [[f|]|]; try reflexivity. contradiction.
Qed.

Lemma run_json_output_model_id (a b c : json) (output_model_id : string) :
  run_output_model_id (JObj [("pass_name", a); ("pass_config", b); ("input_model_id", c);
                             ("output_model_id", JStr output_model_id)])
  = Ok (Some output_model_id).
Proof. reflexivity. Qed.

Lemma load_run_hit (input_model_id pass_name : string) (pass_config : json)
    (accel : option AcceleratorSpec) (st : engine_state) (run_json : json) r :
  runs_dir st !! get_run_json_path pass_name (PyStr.split_head "_" input_model_id) pass_config accel
    = Some (EFile (JsonText run_json)) ->
  run_output_model_id run_json = Ok r ->
  _load_run input_model_id pass_name pass_config accel st = (Ok r, st).
Proof.
  intros Hfile Hid. unfold _load_run, try_except, bind, get_state, read_json.
  rewrite Hfile. simpl. rewrite Hid. reflexivity.
Qed.

(** [_load_run] never raises; when it finds an id, the run file holds it
    and nothing was logged. *)
Lemma load_run_inv (input_model_id pass_name : string) (pass_config : json)
    (accel : option AcceleratorSpec) (st : engine_state) :
  exists r st',
    _load_run input_model_id pass_name pass_config accel st = (Ok r, st') /\
    forall output_model_id, r = Some output_model_id ->
      st' = st /\
      exists run_json,
        runs_dir st !! get_run_json_path pass_name (PyStr.split_head "_" input_model_id)
                         pass_config accel = Some (EFile (JsonText run_json)) /\
        run_output_model_id run_json = Ok (Some output_model_id).
Proof.
  unfold _load_run, try_except, bind, get_state, read_json.
  destruct (runs_dir st !! _) as [[[j|]|]|] eqn:Hf; simpl;
    try (eexists; eexists; split; [reflexivity|discriminate]).
  destruct (run_output_model_id j) as [[id|]|e] eqn:Hid; simpl;
    try (eexists; eexists; split; [reflexivity|discriminate]).
  eexists; eexists; split; [reflexivity|]. intros ? [= <-]. split; [reflexivity|]. eauto.
Qed.

(** When [_load_model] returns a model or the sentinel, the sidecar holds
    it and nothing was logged. *)
Lemma load_model_inv (model_id : string) (st st' : engine_state) (model : model_value) :
  _load_model model_id st = (Ok (Some model), st') ->
  st' = st /\
  exists j, models_dir st !! get_model_json_path model_id = Some (EFile (JsonText j)) /\
            (if is_empty_obj j then model = PRUNED_CONFIG
             else exists m, model_from_json j = Ok m /\ model = Model m).
Proof.
  destruct (models_dir st !! get_model_json_path model_id) as [[[j|]|]|] eqn:Hf.
  - rewrite (load_model_json model_id j st Hf).
    destruct (is_empty_obj j) eqn:He.
    + intros [= <- <-]. split; [reflexivity|]. exists j. rewrite He. auto.
    + destruct (model_from_json j) as [m|e] eqn:Hm; [|discriminate].
      intros [= <- <-]. split; [reflexivity|]. exists j. rewrite He. eauto.
  - rewrite load_model_unreadable; [discriminate|]. intros j. rewrite Hf. discriminate.
  - rewrite load_model_unreadable; [discriminate|]. intros j. rewrite Hf. discriminate.
  - rewrite load_model_unreadable; [discriminate|]. intros j. rewrite Hf. discriminate.
Qed.

Lemma pass_item_ok (pass_id : string) (item : PassItem) (st : engine_state) :
  PyDict.get pass_id (passes st) = Some item -> pass_item pass_id st = (Ok item, st).
Proof. intros Hitem. unfold pass_item, bind, get_state. rewrite Hitem. reflexivity. Qed.

Lemma pass_item_inv (pass_id : string) (item : PassItem) (st st' : engine_state) :
  pass_item pass_id st = (Ok item, st') ->
  st' = st /\ PyDict.get pass_id (passes st) = Some item.
Proof.
  unfold pass_item, bind, get_state. destruct (PyDict.get pass_id (passes st)); [|discriminate].
  intros [= <- <-]. auto.
Qed.

(** A cache hit: the host is not called. *)
Lemma run_pass_hit (eng : Engine) (pass_id : string) (item : PassItem) (point : json)
    (input_model : option model_value) (input_model_id : string) (accel : AcceleratorSpec)
    (st : engine_state) (output_model_id : string) :
  let p := pi_pass item in
  let pass_config := serialize_config p (config_at_search_point p point) in
  let run_accel := if is_accelerator_agnostic p accel then None else Some accel in
  PyDict.get pass_id (passes st) = Some item ->
  run_cached st (get_run_json_path (pass_class_name p) (PyStr.split_head "_" input_model_id)
                   pass_config run_accel) output_model_id ->
  exists output_model st',
    _run_pass eng pass_id point input_model input_model_id accel st =
      (Ok (output_model, output_model_id), st') /\
    trace st' = trace st /\ world st' = world st /\
    models_dir st' = models_dir st /\ runs_dir st' = runs_dir st.
Proof.
  intros p pass_config run_accel Hitem (rj & mj & Hrun & Hid & Hside & Hload).
  unfold _run_pass.
  erewrite bind_ok; [|apply pass_item_ok; exact Hitem].
  fold p. fold pass_config. fold run_accel.
  erewrite bind_ok; [|eapply load_run_hit; [exact Hrun|exact Hid]].
  assert (Hmodel : exists output_model,
             _load_model output_model_id st = (Ok (Some output_model), st)).
  { rewrite (load_model_json _ mj st Hside).
    destruct (is_empty_obj mj); [eauto|].
    destruct Hload as [?|[m Hm]]; [discriminate|]. rewrite Hm. eauto. }
  destruct Hmodel as [output_model Hmodel].
  cbv beta iota.
  erewrite bind_ok; [|erewrite bind_ok; [|exact Hmodel]; reflexivity].
  exists output_model. eexists. split; [reflexivity|]. repeat split.
Qed.


Lemma append_length (s t : string) :
  String.length (s +:+ t) = (String.length s + String.length t)%nat.
Proof.
  induction s as [|a s IH]; [reflexivity|].
  change (S (String.length (s +:+ t)) = S (String.length s + String.length t)). f_equal. exact IH.
Qed.

Lemma sidecar_name_differs (model_id : string) : get_model_json_path model_id <> model_id.
Proof.
  unfold get_model_json_path. intros Heq.
  apply (f_equal String.length) in Heq. rewrite append_length in Heq. simpl in Heq. lia.
Qed.

(** A number the allocator returns names no entry of the directory. *)
Lemma fresh_number_no_entry (dir : gmap string dirent) (n : Z) (rest : string) :
  glob (pat_number n) dir = [] ->
  dir !! (PyStr.str_of_int n +:+ "_" +:+ rest) = None.
Proof.
  intros Hfree. destruct (dir !! _) as [e|] eqn:He; [|reflexivity]. exfalso.
  rewrite glob_nil_iff in Hfree.
  specialize (Hfree (PyStr.str_of_int n +:+ "_" +:+ rest) (ex_intro _ e He)).
  unfold pat_number in Hfree. rewrite <- app_assoc_str, startswith_app in Hfree. discriminate.
Qed.

Lemma new_output_model_id_numbered (p : Pass) (n : Z) (input_model_id : string)
    (pass_config : json) (accel : AcceleratorSpec) :
  exists rest,
    new_output_model_id p n input_model_id pass_config accel = PyStr.str_of_int n +:+ "_" +:+ rest.
Proof.
  unfold new_output_model_id.
  destruct (negb (is_accelerator_agnostic p accel)); simpl; rewrite !app_assoc_str; eauto.
Qed.

Lemma mkdir_models_fresh (name : string) (st : engine_state) :
  models_dir st !! name = None ->
  mkdir_models name st = (Ok tt, with_models_dir (<[name := EDir]> (models_dir st)) st).
Proof.
  intros Hfresh. unfold mkdir_models, bind, get_state. rewrite Hfresh. reflexivity.
Qed.

(** What the miss path leaves in the cache when it returns. *)
Lemma run_pass_miss_caches (eng : Engine) (pass_id : string) (p : Pass) (point pass_config : json)
    (run_accel : option AcceleratorSpec) (input_model : option model_value)
    (input_model_id : string) (accel : AcceleratorSpec) (st st' : engine_state)
    (output_model : model_value) (output_model_id : string) :
  let run_path := get_run_json_path (pass_class_name p) (PyStr.split_head "_" input_model_id)
                    pass_config run_accel in
  _run_pass_miss eng pass_id p point pass_config run_accel input_model input_model_id accel st
    = (Ok (output_model, output_model_id), st') ->
  runs_dir st !! run_path <> Some EDir ->
  (exists run_json,
      runs_dir st' !! run_path = Some (EFile (JsonText run_json)) /\
      run_output_model_id run_json = Ok (Some output_model_id)) /\
  models_dir st' !! get_model_json_path output_model_id =
    Some (EFile (JsonText (match output_model with
                           | PRUNED_CONFIG => JObj []
                           | Model m => model_to_json true m
                           end))).
Proof.
  intros run_path Hmiss Hdir. unfold _run_pass_miss in Hmiss.
  destruct (get_new_model_number_spec st) as (n & Hn & _ & Hfree & _).
  erewrite bind_ok in Hmiss by exact Hn. cbv beta zeta in Hmiss.
  set (id := new_output_model_id p n input_model_id pass_config accel) in *.
  destruct (new_output_model_id_numbered p n input_model_id pass_config accel) as [rest Hid].
  fold id in Hid.
  erewrite bind_ok in Hmiss.
  2:{ apply mkdir_models_fresh. simpl. rewrite Hid. apply fresh_number_no_entry. exact Hfree. }
  apply bind_inv_ok in Hmiss as (out & st3 & Hout & Hmiss).
  pose proof (preserved _ _ _ _ _ (run_pass_output_models _ _ _ _ _ _) Hout) as Hm3.
  pose proof (preserved _ _ _ _ _ (run_pass_output_runs _ _ _ _ _ _) Hout) as Hr3.
  unfold same_on in Hm3, Hr3. simpl in Hm3, Hr3.
  erewrite bind_ok in Hmiss.
  2:{ apply cache_model_written. rewrite Hm3.
      rewrite lookup_insert_ne by (apply not_eq_sym, sidecar_name_differs).
      unfold get_model_json_path. rewrite Hid, !app_assoc_str.
      rewrite fresh_number_no_entry by exact Hfree. discriminate. }
  erewrite bind_ok in Hmiss.
  2:{ apply cache_run_written. simpl. rewrite Hr3. exact Hdir. }
  unfold bind, footprint_record, modify, ret in Hmiss. simpl in Hmiss.
  injection Hmiss as <- <- <-. simpl. split.
  - eexists. split; [apply lookup_insert_eq|]. apply run_json_output_model_id.
  - apply lookup_insert_eq.
Qed.

(** What any returning execution leaves in the cache. *)
Lemma run_pass_caches (eng : Engine) (pass_id : string) (item : PassItem) (point : json)
    (input_model : option model_value) (input_model_id : string) (accel : AcceleratorSpec)
    (st st' : engine_state) (output_model : model_value) (output_model_id : string) :
  let p := pi_pass item in
  let pass_config := serialize_config p (config_at_search_point p point) in
  let run_accel := if is_accelerator_agnostic p accel then None else Some accel in
  let run_path := get_run_json_path (pass_class_name p) (PyStr.split_head "_" input_model_id)
                    pass_config run_accel in
  PyDict.get pass_id (passes st) = Some item ->
  _run_pass eng pass_id point input_model input_model_id accel st
    = (Ok (output_model, output_model_id), st') ->
  runs_dir st !! run_path <> Some EDir ->
  (forall m, output_model = Model m -> exists m', model_from_json (model_to_json true m) = Ok m') ->
  run_cached st' run_path output_model_id.
Proof.
  intros p pass_config run_accel run_path Hitem Hrun Hdir Hjson.
  unfold _run_pass in Hrun.
  erewrite bind_ok in Hrun by (apply pass_item_ok; exact Hitem).
  cbv beta zeta in Hrun. fold p pass_config run_accel in Hrun.
  destruct (load_run_inv input_model_id (pass_class_name p) pass_config run_accel st)
    as (r & sa & Hload & Hr).
  pose proof (preserved _ _ _ _ _ (load_run_runs _ _ _ _) Hload) as Hra.
  unfold same_on in Hra.
  erewrite bind_ok in Hrun by exact Hload.
  apply bind_inv_ok in Hrun as (cached & sb & Hcached & Hrun).
  assert (Hmiss_case :
    forall sc, runs_dir sc = runs_dir st ->
      _run_pass_miss eng pass_id p point pass_config run_accel input_model input_model_id
        accel sc = (Ok (output_model, output_model_id), st') ->
      run_cached st' run_path output_model_id).
  { intros sc Hrc Hmiss.
    destruct (run_pass_miss_caches _ _ _ _ _ _ _ _ _ _ _ _ _ Hmiss) as [(rj & Hrj & Hid) Hside].
    { rewrite Hrc. exact Hdir. }
    exists rj. eexists. split; [exact Hrj|]. split; [exact Hid|]. split; [exact Hside|].
    destruct output_model as [m|]; [|left; reflexivity].
    destruct (Hjson m eq_refl) as [m' Hm']. right. eauto. }
  destruct r as [idc|].
  - destruct (Hr idc eq_refl) as (-> & rj & Hrj & Hid).
    apply bind_inv_ok in Hcached as (om & sc & Hmodel & Hret).
    injection Hret as <- <-.
    destruct om as [m|]; simpl in Hrun.
    + apply load_model_inv in Hmodel as (-> & mj & Hmj & Hkind).
      unfold bind, footprint_record, modify, ret in Hrun. simpl in Hrun.
      injection Hrun as <- <- <-.
      exists rj, mj. simpl. split; [exact Hrj|]. split; [exact Hid|]. split; [exact Hmj|].
      destruct (is_empty_obj mj); [left; reflexivity|].
      destruct Hkind as (m' & Hm' & _). right. eauto.
    + apply (Hmiss_case sc); [|exact Hrun].
      apply (preserved _ _ _ _ _ (load_model_runs _) Hmodel).
  - injection Hcached as <- <-. apply (Hmiss_case sa); [exact Hra|exact Hrun].
Qed.

(** A run file whose sidecar cannot be read: the execution takes the miss
    path. *)
Lemma run_pass_degrades (eng : Engine) (pass_id : string) (item : PassItem) (point : json)
    (input_model : option model_value) (input_model_id : string) (accel : AcceleratorSpec)
    (st : engine_state) (run_json : json) (output_model_id : string) :
  let p := pi_pass item in
  let pass_config := serialize_config p (config_at_search_point p point) in
  let run_accel := if is_accelerator_agnostic p accel then None else Some accel in
  let run_path := get_run_json_path (pass_class_name p) (PyStr.split_head "_" input_model_id)
                    pass_config run_accel in
  PyDict.get pass_id (passes st) = Some item ->
  runs_dir st !! run_path = Some (EFile (JsonText run_json)) ->
  run_output_model_id run_json = Ok (Some output_model_id) ->
  (forall j, models_dir st !! get_model_json_path output_model_id <> Some (EFile (JsonText j))) ->
  _run_pass eng pass_id point input_model input_model_id accel st =
  _run_pass_miss eng pass_id p point pass_config run_accel input_model input_model_id accel
    (with_trace (trace st ++ [EvLogError "Failed to load model"]) st).
Proof.
  intros p pass_config run_accel run_path Hitem Hrun Hid Hbad.
  unfold _run_pass.
  erewrite bind_ok by (apply pass_item_ok; exact Hitem).
  cbv beta zeta. fold p pass_config run_accel.
  erewrite bind_ok by (eapply load_run_hit; [exact Hrun|exact Hid]).
  cbv beta iota.
  erewrite bind_ok;
    [|erewrite bind_ok; [|apply load_model_unreadable; exact Hbad]; reflexivity].
  reflexivity.
Qed.


(** C1.  After an execution of a pass that returned, a later execution in
    the same cache directory with the same input model id, pass name,
    serialized pass config and accelerator (left out for an
    accelerator-agnostic pass) finds the cached run: it returns the
    output model id of the first execution and the host runs nothing.
    When the run file is there but the model sidecar cannot be loaded,
    the execution logs an error and goes on as a cache miss. *)
Theorem run_pass_is_cached (eng : Engine) (accel : AcceleratorSpec) (input_model_id : string)
    (pass_id : string) (item : PassItem) (point : json) (input_model : option model_value)
    (st1 st1' : engine_state) (output_model : model_value) (output_model_id : string)
    (pass_id2 : string) (item2 : PassItem) (point2 : json) (input_model2 : option model_value)
    (st2 : engine_state) :
  let p := pi_pass item in
  let p2 := pi_pass item2 in
  let pass_config := serialize_config p (config_at_search_point p point) in
  let run_accel := if is_accelerator_agnostic p accel then None else Some accel in
  let run_path := get_run_json_path (pass_class_name p) (PyStr.split_head "_" input_model_id)
                    pass_config run_accel in
  (* an execution that returned *)
  PyDict.get pass_id (passes st1) = Some item ->
  _run_pass eng pass_id point input_model input_model_id accel st1
    = (Ok (output_model, output_model_id), st1') ->
  runs_dir st1 !! run_path <> Some EDir ->
  (forall m, output_model = Model m -> exists m', model_from_json (model_to_json true m) = Ok m') ->
  (* a later execution with the same key *)
  PyDict.get pass_id2 (passes st2) = Some item2 ->
  pass_class_name p2 = pass_class_name p ->
  serialize_config p2 (config_at_search_point p2 point2) = pass_config ->
  is_accelerator_agnostic p2 accel = is_accelerator_agnostic p accel ->
  runs_dir st2 !! run_path = runs_dir st1' !! run_path ->
  (models_dir st2 !! get_model_json_path output_model_id
     = models_dir st1' !! get_model_json_path output_model_id ->
   exists output_model2 st2',
     _run_pass eng pass_id2 point2 input_model2 input_model_id accel st2
       = (Ok (output_model2, output_model_id), st2') /\
     host_calls st2' = host_calls st2 /\ world st2' = world st2) /\
  ((forall j, models_dir st2 !! get_model_json_path output_model_id <> Some (EFile (JsonText j))) ->
   _run_pass eng pass_id2 point2 input_model2 input_model_id accel st2 =
   _run_pass_miss eng pass_id2 p2 point2 pass_config run_accel input_model2 input_model_id accel
     (with_trace (trace st2 ++ [EvLogError "Failed to load model"]) st2)).
Proof.
  intros p p2 pass_config run_accel run_path Hitem Hrun Hdir Hjson Hitem2 Hname Hconfig Hagn Hruns.
  destruct (run_pass_caches eng pass_id item point input_model input_model_id accel st1 st1'
              output_model output_model_id Hitem Hrun Hdir Hjson)
    as (rj & mj & Hrj & Hid & Hmj & Hload).
  fold p pass_config run_accel run_path in Hrj.
  assert (Hpath2 :
    get_run_json_path (pass_class_name p2) (PyStr.split_head "_" input_model_id)
      (serialize_config p2 (config_at_search_point p2 point2))
      (if is_accelerator_agnostic p2 accel then None else Some accel) = run_path).
  { unfold run_path, run_accel. rewrite Hname, Hconfig, Hagn. reflexivity. }
  split.
  - intros Hmodels.
    destruct (run_pass_hit eng pass_id2 item2 point2 input_model2 input_model_id accel st2
                output_model_id Hitem2) as (out2 & st2' & Hhit & Htrace & Hworld & _).
    { fold p2. rewrite Hpath2. exists rj, mj.
      rewrite Hruns, Hmodels. auto. }
    exists out2, st2'. split; [exact Hhit|]. split; [|exact Hworld].
    unfold host_calls. rewrite Htrace. reflexivity.
  - intros Hbad.
    rewrite (run_pass_degrades eng pass_id2 item2 point2 input_model2 input_model_id accel st2
               rj output_model_id Hitem2).
    + fold p2. rewrite Hconfig, Hagn. reflexivity.
    + fold p2. rewrite Hpath2, Hruns. exact Hrj.
    + exact Hid.
    + exact Hbad.
Qed.

End RunPassFacts.

Section FailureFacts.
Context `{OliveEnv}.

Lemma host_calls_snoc_run (t : list event) (name path : string) :
  length (List.filter is_run_pass (t ++ [EvRunPass name path])) =
  S (length (List.filter is_run_pass t)).
Proof. rewrite List.filter_app, length_app. simpl. lia. Qed.

Lemma host_calls_snoc_log (t : list event) (msg : string) :
  length (List.filter is_run_pass (t ++ [EvLogError msg])) =
  length (List.filter is_run_pass t).
Proof. rewrite List.filter_app, length_app. simpl. lia. Qed.

Lemma host_for_pass_ok (eng : Engine) (pass_id : string) (item : PassItem) (st : engine_state) :
  PyDict.get pass_id (passes st) = Some item ->
  host_for_pass eng pass_id st = (Ok (host_of eng item), st).
Proof.
  intros Hitem. unfold host_for_pass.
  erewrite bind_ok by (apply pass_item_ok; exact Hitem).
  unfold host_of. destruct (pi_host item); reflexivity.
Qed.

Lemma prepare_ready (h : OliveSystem) (input_model : option model_value) (st : engine_state) :
  input_ready h input_model ->
  (if negb (bool_decide (system_type h = AzureML))
   then _prepare_non_local_model input_model
   else ret input_model) st = (Ok input_model, st).
Proof.
  intros [Haz|(m & -> & Hlocal)].
  - rewrite bool_decide_eq_true_2 by exact Haz. reflexivity.
  - destruct (negb _); [|reflexivity]. simpl. rewrite Hlocal. reflexivity.
Qed.

(** What [_run_pass_output] does with a failure of the host. *)
Lemma run_pass_output_host_failure (eng : Engine) (pass_id : string) (item : PassItem)
    (point : json) (input_model : option model_value) (path : string) (st : engine_state)
    (e : exn) (w' : World) :
  let p := pi_pass item in
  let h := host_of eng item in
  PyDict.get pass_id (passes st) = Some item ->
  (validate_search_point p point = true \/ no_search eng = true) ->
  input_ready h input_model ->
  run_pass h p input_model path point (world st) = (Raise e, w') ->
  exists st',
    host_calls st' = S (host_calls st) /\
    models_dir st' = models_dir st /\ runs_dir st' = runs_dir st /\
    _run_pass_output eng pass_id p point input_model path st =
      (match e with
       | OlivePassException => Ok PRUNED_CONFIG
       | _ => if EXCEPTIONS_TO_RAISE e || no_search eng then Raise e else Ok PRUNED_CONFIG
       end, st').
Proof.
  intros p h Hitem Hrun Hready Hraise. unfold _run_pass_output.
  assert (Hguard : negb (validate_search_point p point) && negb (no_search eng) = false).
  { destruct Hrun as [->| ->]; [reflexivity|apply andb_false_r]. }
  rewrite Hguard.
  erewrite bind_ok by (apply host_for_pass_ok; exact Hitem).
  erewrite bind_ok by (apply prepare_ready; exact Hready).
  fold h. unfold try_except, host_run_pass, bind, emit, modify, call_world. simpl.
  rewrite Hraise.
  destruct e; simpl; try destruct (no_search eng); simpl;
    eexists; (split; [|split; [|split; [|reflexivity]]]);
    unfold host_calls; simpl;
    rewrite ?host_calls_snoc_log, ?host_calls_snoc_run; reflexivity.
Qed.





Lemma load_run_absent (input_model_id pass_name : string) (pass_config : json)
    (accel : option AcceleratorSpec) (st : engine_state) :
  runs_dir st !! get_run_json_path pass_name (PyStr.split_head "_" input_model_id) pass_config accel
    = None ->
  _load_run input_model_id pass_name pass_config accel st = (Ok None, st).
Proof. intros Hnone. unfold _load_run, bind, get_state. rewrite Hnone. reflexivity. Qed.



End FailureFacts.

Section RegistryFacts.
Context `{OliveEnv}.

Lemma auto_name_inj (cls : string) (i j : Z) :
  0 <= i -> 0 <= j -> auto_name cls i = auto_name cls j -> i = j.
Proof.
  intros Hi Hj. unfold auto_name.
  destruct (0 <? i) eqn:Ei, (0 <? j) eqn:Ej; intros Heq.
  - apply String.app_inj in Heq. apply String.app_inj in Heq. apply str_of_int_inj. exact Heq.
  - apply (f_equal String.length) in Heq. rewrite append_length in Heq. simpl in Heq. lia.
  - apply (f_equal String.length) in Heq. rewrite append_length in Heq. simpl in Heq. lia.
  - apply Z.ltb_ge in Ei, Ej. lia.
Qed.

Lemma fresh_name_loop_first (fuel : nat) (cls : string) (id : Z)
    (registry : list (string * PassItem)) :
  (exists k, id <= k <= id + Z.of_nat fuel /\ PyDict.mem (auto_name cls k) registry = false) ->
  exists name, fresh_name_loop fuel cls id registry = Some name /\
               PyDict.mem name registry = false.
Proof.
  revert id. induction fuel as [|fuel IH]; intros id (k & Hk & Hfree); simpl.
  - assert (k = id) as -> by lia. rewrite Hfree. simpl. eauto.
  - destruct (PyDict.mem (auto_name cls id) registry) eqn:Hid; simpl; [|eauto].
    apply IH. exists k. split; [|exact Hfree].
    assert (k <> id) by (intros ->; congruence). lia.
Qed.

(** The naming loop ends, on a name that is not registered. *)
Lemma fresh_name_total (cls : string) (registry : list (string * PassItem)) (st : engine_state) :
  exists name, fresh_name cls registry st = (Ok name, st) /\ PyDict.mem name registry = false.
Proof.
  destruct (fresh_name_loop_first (length registry) cls 0 registry) as (name & Hloop & Hfree).
  { destruct (free_exists (auto_name cls) (PyDict.keys registry) 0) as (k & Hk & Hnot).
    { intros i j Hi Hj. apply auto_name_inj; assumption. }
    exists k. split.
    - unfold PyDict.keys in Hk. rewrite length_map in Hk. lia.
    - destruct (PyDict.mem (auto_name cls k) registry) eqn:Hm; [|reflexivity].
      apply mem_iff in Hm. contradiction. }
  exists name. split; [|exact Hfree]. unfold fresh_name. rewrite Hloop. reflexivity.
Qed.

(** Registering under a generated name: refused in no-search mode when the
    pass has a search space, recorded otherwise. *)
Lemma register_pass_auto (eng : Engine) (p : Pass) (host : option OliveSystem)
    (evaluator : option OliveEvaluatorConfig) (output_name : option string)
    (st : engine_state) :
  if no_search eng && (0 <? length (search_space p))%nat then
    register_pass eng p None host evaluator output_name st = (Raise ValueError, st)
  else
    exists name,
      PyDict.mem name (passes st) = false /\
      register_pass eng p None host evaluator output_name st =
        (Ok tt, with_passes (PyDict.set name (mkPassItem p host evaluator output_name) (passes st)) st).
Proof.
  destruct (fresh_name_total (pass_class_name p) (passes st) st) as (name & Hname & Hfree).
  unfold register_pass.
  destruct (no_search eng && (0 <? length (search_space p))%nat).
  - erewrite bind_ok by reflexivity. erewrite bind_ok by exact Hname. reflexivity.
  - exists name. split; [exact Hfree|].
    erewrite bind_ok by reflexivity. erewrite bind_ok by exact Hname. reflexivity.
Qed.

Lemma register_all_rejects (eng : Engine) (accel : AcceleratorSpec)
    (configs : list PassDescriptor) (st : engine_state) :
  no_search eng = true ->
  (exists config, config ∈ configs /\ search_space (instance_of accel config) <> []) ->
  exists st', for_each configs (register_descriptor eng accel) st = (Raise ValueError, st').
Proof.
  intros Hns. revert st. induction configs as [|c configs IH]; intros st (config & Hin & Hspace).
  - inversion Hin.
  - simpl. unfold register_descriptor at 1. fold (instance_of accel c).
    pose proof (register_pass_auto eng (instance_of accel c) (pd_host c) (pd_evaluator c)
                  (pd_output_name c) st) as Hreg.
    rewrite Hns in Hreg. simpl in Hreg.
    destruct (0 <? length (search_space (instance_of accel c)))%nat eqn:Hlen.
    + erewrite bind_raise by exact Hreg. eauto.
    + destruct Hreg as (name & _ & Hreg). erewrite bind_ok by exact Hreg.
      apply IH. exists config. split; [|exact Hspace].
      apply elem_of_cons in Hin as [->|Hin]; [|exact Hin].
      exfalso. destruct (search_space (instance_of accel c)); [contradiction|discriminate].
Qed.

Lemma register_pass_quiet eng p n h e o :
  preserves (same_on (fun st => (trace st, world st, models_dir st, runs_dir st)))
            (register_pass eng p n h e o).
Proof. frame. Qed.

Lemma setup_passes_quiet eng accel :
  preserves (same_on (fun st => (trace st, world st, models_dir st, runs_dir st)))
            (setup_passes eng accel).
Proof. frame. Qed.

Lemma setup_passes_rejects (eng : Engine) (accel : AcceleratorSpec) (st : engine_state) :
  no_search eng = true ->
  (exists config, config ∈ PyDict.values (pass_config eng) /\
                  search_space (instance_of accel config) <> []) ->
  exists st',
    setup_passes eng accel st = (Raise ValueError, st') /\
    trace st' = trace st /\ world st' = world st /\
    models_dir st' = models_dir st /\ runs_dir st' = runs_dir st.
Proof.
  intros Hns Hex.
  destruct (register_all_rejects eng accel (PyDict.values (pass_config eng))
              (with_passes [] st) Hns Hex) as [st' Hraise].
  assert (Hsetup : setup_passes eng accel st = (Raise ValueError, st')).
  { unfold setup_passes. erewrite bind_ok by reflexivity.
    erewrite bind_raise; [reflexivity|exact Hraise]. }
  exists st'. split; [exact Hsetup|].
  pose proof (preserved _ _ _ _ _ (setup_passes_quiet eng accel) Hsetup) as Hq.
  unfold same_on in Hq. injection Hq as -> -> -> ->. auto.
Qed.

Lemma register_all_empty_spaces (eng : Engine) (accel : AcceleratorSpec)
    (configs : list PassDescriptor) (st st' : engine_state) :
  no_search eng = true ->
  for_each configs (register_descriptor eng accel) st = (Ok tt, st') ->
  (forall kv, kv ∈ passes st -> search_space (pi_pass (snd kv)) = []) ->
  forall kv, kv ∈ passes st' -> search_space (pi_pass (snd kv)) = [].
Proof.
  intros Hns. revert st. induction configs as [|c configs IH]; intros st Hrun Hinv; simpl in Hrun.
  - injection Hrun as <-. exact Hinv.
  - apply bind_inv_ok in Hrun as ([] & st1 & Hreg & Hrun).
    apply (IH st1 Hrun). unfold register_descriptor in Hreg. fold (instance_of accel c) in Hreg.
    pose proof (register_pass_auto eng (instance_of accel c) (pd_host c) (pd_evaluator c)
                  (pd_output_name c) st) as Hspec.
    rewrite Hns in Hspec. simpl in Hspec.
    destruct (0 <? length (search_space (instance_of accel c)))%nat eqn:Hlen.
    + rewrite Hspec in Hreg. discriminate.
    + destruct Hspec as (name & _ & Hspec). rewrite Hspec in Hreg. injection Hreg as <-.
      simpl. intros kv [->|Hin]%elem_of_set; [|apply Hinv; exact Hin]. simpl.
      destruct (search_space (instance_of accel c)); [reflexivity|discriminate].
Qed.

(** In no-search mode the registry [setup_passes] leaves holds no pass with
    a search space. *)
Lemma setup_passes_empty_spaces (eng : Engine) (accel : AcceleratorSpec)
    (st st' : engine_state) :
  no_search eng = true ->
  setup_passes eng accel st = (Ok tt, st') ->
  forall kv, kv ∈ passes st' -> search_space (pi_pass (snd kv)) = [].
Proof.
  intros Hns Hsetup. unfold setup_passes in Hsetup.
  apply bind_inv_ok in Hsetup as ([] & s1 & H1 & Hsetup). injection H1 as <-.
  apply bind_inv_ok in Hsetup as ([] & s2 & H2 & Hsetup).
  apply bind_inv_ok in Hsetup as (s3 & s3' & H3 & Hsetup).
  injection H3 as <- <-. injection Hsetup as <-. simpl.
  apply (register_all_empty_spaces eng accel _ _ _ Hns H2).
  intros kv Hin. inversion Hin.
Qed.

(** On such a registry the guard of [run_no_search] does nothing; on any
    other it fails on the missing key, before it could raise its
    [ValueError]. *)
Lemma no_search_guard_spec (registry : list (string * PassItem)) (st : engine_state) :
  no_search_guard registry st =
  (if forallb (fun kv => match search_space (pi_pass (snd kv)) with [] => true | _ => false end)
              registry
   then Ok tt else Raise (OtherException "KeyError"), st).
Proof.
  unfold no_search_guard, PyDict.values.
  induction registry as [|[name item] registry IH]; simpl; [reflexivity|].
  destruct (search_space (pi_pass item)); simpl.
  - erewrite bind_ok by reflexivity. exact IH.
  - reflexivity.
Qed.

Section WithSearch.
Variable run_search :
  Engine -> OliveModel -> string -> AcceleratorSpec -> option string -> M (list string).

(** C8.  Without search, when a configured pass has a non-empty search
    space, [run] raises [ValueError] while it sets up the passes of the
    first accelerator: no pass has run, nothing is logged and the cache is
    untouched.  The check is the one of [register_pass]. *)
Theorem no_search_rejects_search_space (eng : Engine) (input_model : OliveModel)
    (output_name : option string) (evaluation_only : bool) (accel : AcceleratorSpec)
    (rest : list AcceleratorSpec) (outputs : list (AcceleratorSpec * run_output))
    (st : engine_state) :
  no_search eng = true ->
  (exists config, config ∈ PyDict.values (pass_config eng) /\
                  search_space (instance_of accel config) <> []) ->
  exists st',
    run_accelerators run_search eng input_model output_name evaluation_only (accel :: rest)
      outputs st = (Raise ValueError, st') /\
    trace st' = trace st /\ world st' = world st /\
    models_dir st' = models_dir st /\ runs_dir st' = runs_dir st.
Proof.
  intros Hns Hex.
  destruct (setup_passes_rejects eng accel st Hns Hex) as (st' & Hsetup & Hframe).
  exists st'. split; [|exact Hframe].
  simpl. unfold run_accelerator.
  erewrite bind_raise; [reflexivity|].
  erewrite bind_raise; [reflexivity|exact Hsetup].
Qed.


Lemma run_accelerator_unfold (eng : Engine) (input_model : OliveModel)
    (output_name : option string) (evaluation_only : bool) (accel : AcceleratorSpec)
    (outputs : list (AcceleratorSpec * run_output)) (st : engine_state) :
  run_accelerator run_search eng input_model output_name evaluation_only accel outputs st =
  bind (run_accelerator_prefix eng input_model accel)
       (fun input_model_id =>
          try_except
            (run_accelerator_body run_search eng input_model input_model_id output_name
               evaluation_only accel outputs)
            (run_accelerator_handler outputs)) st.
Proof.
  unfold run_accelerator, run_accelerator_prefix, bind.
  destruct (setup_passes eng accel st) as [[[]|e] s1]; [|reflexivity].
  destruct (_init_input_model input_model s1) as [[id|e] s2]; reflexivity.
Qed.






(** An exception of the loop over accelerators is the exception of [run]. *)
Lemma run_propagates (eng : Engine) (input_model : OliveModel) (packaging : bool)
    (output_name : option string) (evaluation_only : bool) (st st' : engine_state) (e : exn) :
  initialized st = true ->
  run_accelerators run_search eng input_model output_name evaluation_only
    (accelerator_specs eng) [] st = (Raise e, st') ->
  run run_search eng input_model packaging output_name evaluation_only st = (Raise e, st').
Proof.
  intros Hinit Hloop. unfold run.
  erewrite bind_ok by reflexivity. rewrite Hinit. simpl.
  erewrite bind_ok by reflexivity.
  erewrite bind_raise; [reflexivity|exact Hloop].
Qed.

End WithSearch.
End RegistryFacts.

Section NoSearchFacts.
Context `{OliveEnv}.

Lemma get_new_model_number_passes : preserves (same_on passes) _get_new_model_number.
Proof. frame. Qed.

Lemma run_pass_passes eng i pt m mid a : preserves (same_on passes) (_run_pass eng i pt m mid a).
Proof. frame. Qed.

Lemma run_pass_counter eng i pt m mid a : preserves counter_mono (_run_pass eng i pt m mid a).
Proof.
  unfold _run_pass, _run_pass_miss.
  repeat (frame_step; try apply get_new_model_number_mono).
Qed.

Lemma evaluate_model_passes m i e a : preserves (same_on passes) (_evaluate_model m i e a).
Proof. frame. Qed.

Lemma run_pass_registered (eng : Engine) pass_id point model model_id accel st r st' :
  _run_pass eng pass_id point model model_id accel st = (Ok r, st') ->
  exists item, PyDict.get pass_id (passes st) = Some item.
Proof.
  unfold _run_pass. intros Hrun. apply bind_inv_ok in Hrun as (item & s1 & Hitem & _).
  apply pass_item_inv in Hitem as [_ Hitem]. eauto.
Qed.

(** An unpruned loop ran every pass of the step: one model id each, all
    passes registered, the registry untouched. *)
Lemma run_passes_loop_unpruned (eng : Engine) (step : list (string * json)) model model_id accel
    ids st model' model_id' ids' st' :
  _run_passes_loop eng step model model_id accel ids st
    = (Ok (false, model', model_id', ids'), st') ->
  length ids' = (length ids + length step)%nat /\
  passes st' = passes st /\
  forall pass_id, pass_id ∈ map fst step -> exists item, PyDict.get pass_id (passes st) = Some item.
Proof.
  revert model model_id ids st.
  induction step as [|[pass_id point] step IH]; intros model model_id ids st Hloop;
    simpl in Hloop.
  - unfold ret in Hloop. simplify_eq. split; [simpl; lia|]. split; [reflexivity|].
    intros pass_id Hin. inversion Hin.
  - apply bind_inv_ok in Hloop as ([m mid] & s1 & Hpass & Hloop).
    pose proof (preserved _ _ _ _ _ (run_pass_passes _ _ _ _ _ _) Hpass) as Hp1.
    unfold same_on in Hp1.
    destruct m as [m|]; [|discriminate].
    apply IH in Hloop as (Hlen & Hp & Hreg).
    split; [rewrite Hlen, length_app; simpl; lia|]. split; [congruence|].
    intros id [->|Hin]%elem_of_cons.
    + eapply run_pass_registered. exact Hpass.
    + rewrite <- Hp1. apply Hreg. exact Hin.
Qed.

Lemma run_passes_unpruned (eng : Engine) (step : list (string * json)) model model_id accel
    st signal ids st' :
  _run_passes eng step model model_id accel st = (Ok (false, signal, ids), st') ->
  step <> [] /\ length ids = length step /\ passes st' = passes st /\
  forall pass_id, pass_id ∈ map fst step -> exists item, PyDict.get pass_id (passes st) = Some item.
Proof.
  unfold _run_passes. intros Hrun.
  apply bind_inv_ok in Hrun as ([[[prune m] mid] ids0] & s1 & Hloop & Hrun).
  destruct prune; simpl in Hrun.
  { apply bind_inv_ok in Hrun as ([] & s2 & _ & Hrun). discriminate. }
  destruct (run_passes_loop_unpruned _ _ _ _ _ _ _ _ _ _ _ Hloop) as (Hlen & Hp & Hreg).
  simpl in Hlen.
  destruct (last (map fst step)) as [pass_id|] eqn:Hlast; [|discriminate].
  assert (Hne : step <> []) by (intros ->; discriminate).
  apply bind_inv_ok in Hrun as (ev & s2 & Hev & Hrun).
  assert (Hs2 : s2 = s1).
  { unfold evaluator_for_pass in Hev. apply bind_inv_ok in Hev as (item & s3 & Hitem & Hev).
    apply pass_item_inv in Hitem as [-> _]. destruct (pi_evaluator item); injection Hev; auto. }
  subst s2.
  destruct (no_search eng && negb (bool_decide (ev <> None))).
  - unfold ret in Hrun. simplify_eq. auto.
  - apply bind_inv_ok in Hrun as (sig & s3 & Heval & Hrun). unfold ret in Hrun. simplify_eq.
    pose proof (preserved _ _ _ _ _ (evaluate_model_passes _ _ _ _) Heval) as Hp3.
    unfold same_on in Hp3. split; [exact Hne|]. split; [exact Hlen|]. split; [congruence|exact Hreg].
Qed.


Lemma run_no_search_step_unpruned (eng : Engine) (input_model : OliveModel)
    (input_model_id : string) (accel : AcceleratorSpec) (st st1 : engine_state)
    (step : list (string * json)) (signal : option MetricResult) (ids : list string) :
  run_no_search_step eng input_model input_model_id accel st
    = (Ok (step, false, signal, ids), st1) ->
  step <> [] /\ length ids = length step /\
  forall pass_id, pass_id ∈ map fst step ->
                  exists item, PyDict.get pass_id (passes st1) = Some item.
Proof.
  unfold run_no_search_step. intros Hstep.
  apply bind_inv_ok in Hstep as (s0 & s0' & _ & Hstep).
  apply bind_inv_ok in Hstep as ([] & s1 & _ & Hstep).
  destruct (last (PyDict.keys (passes s0))); [|discriminate].
  apply bind_inv_ok in Hstep as (ev & s2 & _ & Hstep).
  apply bind_inv_ok in Hstep as (objective & s3 & _ & Hstep).
  apply bind_inv_ok in Hstep as (s4 & s4' & _ & Hstep).
  apply bind_inv_ok in Hstep as ([next|] & s5 & _ & Hstep); [|discriminate].
  apply bind_inv_ok in Hstep as (model & s6 & _ & Hstep).
  apply bind_inv_ok in Hstep as ([[prune sig] ids0] & s7 & Hrun & Hstep).
  unfold ret in Hstep. simplify_eq.
  destruct (run_passes_unpruned _ _ _ _ _ _ _ _ _ Hrun) as (Hne & Hlen & Hp & Hreg).
  split; [exact Hne|]. split; [exact Hlen|]. rewrite Hp. exact Hreg.
Qed.

Lemma last_cons_cons {A} (x y : A) (l : list A) : last (x :: y :: l) = last (y :: l).
Proof. reflexivity. Qed.

Lemma registered_output_names_ok (registry : list (string * PassItem))
    (step : list (string * json)) :
  (forall pass_id, pass_id ∈ map fst step ->
                   exists item, PyDict.get pass_id registry = Some item) ->
  exists names,
    registered_output_names registry step = Ok names /\
    length names = length step /\
    forall last_pass item,
      last (map fst step) = Some last_pass ->
      PyDict.get last_pass registry = Some item ->
      last names = Some (pi_output_name item).
Proof.
  induction step as [|[pass_id point] step IH]; intros Hreg.
  - exists []. split; [reflexivity|]. split; [reflexivity|]. discriminate.
  - destruct IH as (names & Hnames & Hlen & Hlast).
    { intros id Hin. apply Hreg. right. exact Hin. }
    destruct (Hreg pass_id ltac:(left)) as [item Hitem].
    exists (pi_output_name item :: names). simpl. rewrite Hitem, Hnames.
    split; [reflexivity|]. split; [simpl; congruence|].
    intros last_pass item' Hl Hget.
    destruct step as [|[id2 pt2] step].
    + simpl in Hl. injection Hl as <-. destruct names; [|discriminate].
      rewrite Hitem in Hget. injection Hget as <-. reflexivity.
    + destruct names as [|n names]; [discriminate|].
      simpl map in Hl. rewrite last_cons_cons in *. apply (Hlast last_pass item'); auto.
Qed.

Lemma zip_set_last {A B} (l : list A) (ids : list B) (x : A) :
  l <> [] -> length ids = length l ->
  exists front last_id, last ids = Some last_id /\ zip (set_last l x) ids = (front ++ [(x, last_id)])%list.
Proof.
  revert ids. induction l as [|a l IH]; intros ids Hne Hlen; [contradiction|].
  destruct ids as [|i ids]; [discriminate|].
  destruct l as [|b l].
  - destruct ids; [|discriminate]. exists [], i. split; reflexivity.
  - destruct ids as [|i2 ids]; [discriminate|].
    destruct (IH (i2 :: ids)) as (front & last_id & Hlast & Hzip); [discriminate|simpl in *; lia|].
    exists ((a, i) :: front), last_id. split; [exact Hlast|].
    unfold set_last in *. simpl removelast in *. simpl in *. rewrite Hzip. reflexivity.
Qed.

Lemma saves_of_app named named' : saves_of (named ++ named') = (saves_of named ++ saves_of named')%list.
Proof.
  induction named as [|[n i] named IH]; simpl; [reflexivity|].
  destruct (str_truthy n); simpl; rewrite IH; reflexivity.
Qed.

Lemma saves_of_filter named : List.filter is_save_model (saves_of named) = saves_of named.
Proof.
  induction named as [|[n i] named IH]; simpl; [reflexivity|].
  destruct (str_truthy n); simpl; rewrite IH; reflexivity.
Qed.

(** When [save_model] always returns the saved model's JSON, the loop
    makes exactly those calls and keeps the JSON of the last one. *)
Lemma save_outputs_spec (named : list (option string * string)) (acc : option json)
    (st : engine_state) :
  (forall dir id name w, exists j w',
      save_model dir id name w = (Ok j, w') /\ json_truthy j = true) ->
  exists r st',
    save_outputs named acc st = (Ok r, st') /\
    trace st' = (trace st ++ saves_of named)%list /\
    match saves_of named with
    | [] => r = acc
    | _ :: _ => exists j, r = Some j /\ json_truthy j = true
    end.
Proof.
  intros Hsave. revert acc st. induction named as [|[n i] named IH]; intros acc st; simpl.
  - exists acc, st. split; [reflexivity|]. split; [rewrite app_nil_r; reflexivity|reflexivity].
  - destruct (str_truthy n) eqn:Hn; simpl.
    + destruct (Hsave (models_dir st) i (default "" n +:+ "_model") (world st)) as (j & w' & Hj & Ht).
      destruct (IH (Some j)
                  (with_world w' (with_trace (trace st ++ [EvSaveModel i (default "" n +:+ "_model")]) st)))
        as (r & st' & Hrun & Htrace & Hr).
      exists r, st'. split; [|split].
      * erewrite bind_ok by reflexivity. erewrite bind_ok by reflexivity.
        erewrite bind_ok; [exact Hrun|].
        unfold call_world. simpl. rewrite Hj. reflexivity.
      * rewrite Htrace. simpl. rewrite <- app_assoc. reflexivity.
      * destruct (saves_of named); [|exact Hr]. subst r. eauto.
    + apply IH.
Qed.


Lemma final_output_name_truthy (accel : AcceleratorSpec) (output_name last_name : option string) :
  accel_str accel <> "" ->
  str_truthy (Some (final_output_name accel output_name last_name)) = true.
Proof.
  intros Hne. unfold final_output_name.
  assert (Happ : forall a b, str_truthy (Some (a +:+ "_" +:+ b)) = true).
  { intros a b. simpl. destruct (a +:+ "_" +:+ b) eqn:Heq; [|reflexivity].
    apply (f_equal String.length) in Heq. rewrite append_length in Heq. simpl in Heq. lia. }
  destruct (str_truthy output_name); [apply Happ|].
  destruct (str_truthy last_name) eqn:Hlast; simpl.
  - destruct last_name as [s|]; [exact Hlast|discriminate].
  - destruct (String.eqb_spec (accel_str accel) ""); [contradiction|reflexivity].
Qed.

Lemma last_snoc_event (l : list event) (x : event) : last (l ++ [x]) = Some x.
Proof. apply last_snoc. Qed.

(** C10.  Without search, when the step ends unpruned, [run_no_search]
    returns an output model: the output model of the terminal pass is the
    last one saved, under the name "<name>_model", where <name> is the
    accelerator spec's string when neither the terminal pass nor the
    engine gives an output name. *)
Theorem no_search_terminal_output (eng : Engine) (input_model : OliveModel)
    (input_model_id : string) (accel : AcceleratorSpec) (output_name : option string)
    (st st1 : engine_state) (step : list (string * json)) (signal : option MetricResult)
    (model_ids : list string) :
  run_no_search_step eng input_model input_model_id accel st
    = (Ok (step, false, signal, model_ids), st1) ->
  accel_str accel <> "" ->
  (forall dir id name w, exists j w',
      save_model dir id name w = (Ok j, w') /\ json_truthy j = true) ->
  exists j st2 last_pass terminal last_id,
    run_no_search eng input_model input_model_id accel output_name st
      = (Ok (Some (OutModel j signal)), st2) /\
    last (map fst step) = Some last_pass /\
    PyDict.get last_pass (passes st1) = Some terminal /\
    last model_ids = Some last_id /\
    let name := final_output_name accel output_name
                  (pass_output_name accel (pi_output_name terminal)) in
    (exists events,
        trace st2 = (trace st1 ++ events)%list /\
        last (List.filter is_save_model events) = Some (EvSaveModel last_id (name +:+ "_model"))) /\
    (str_truthy output_name = false -> str_truthy (pi_output_name terminal) = false ->
     name = accel_str accel).
Proof.
  intros Hstep Haccel Hsave.
  destruct (run_no_search_step_unpruned _ _ _ _ _ _ _ _ _ Hstep) as (Hne & Hlen & Hreg).
  destruct (registered_output_names_ok (passes st1) step Hreg) as (names & Hnames & Hnlen & Hlast).
  destruct (last (map fst step)) as [last_pass|] eqn:Hlp.
  2:{ destruct step; [contradiction|]. apply last_None in Hlp. discriminate. }
  destruct (Hreg last_pass) as [terminal Hterminal].
  { apply last_Some in Hlp as [l' ->]. apply elem_of_app. right. left. }
  specialize (Hlast last_pass terminal eq_refl Hterminal).
  set (name := final_output_name accel output_name
                 (pass_output_name accel (pi_output_name terminal))).
  set (pnames := map (pass_output_name accel) names).
  assert (Hplast : last pnames = Some (pass_output_name accel (pi_output_name terminal))).
  { unfold pnames. change (map (pass_output_name accel) names)
      with (pass_output_name accel <$> names). rewrite fmap_last, Hlast. reflexivity. }
  destruct (zip_set_last pnames model_ids (Some name)) as (front & last_id & Hlid & Hzip).
  { intros Hnil. rewrite Hnil in Hplast. discriminate. }
  { unfold pnames. rewrite length_map. congruence. }
  destruct (save_outputs_spec (front ++ [(Some name, last_id)]) None st1 Hsave)
    as (r & st2 & Hrun & Htrace & Hr).
  assert (Hsingle : saves_of [(Some name, last_id)] = [EvSaveModel last_id (name +:+ "_model")]).
  { pose proof (final_output_name_truthy accel output_name
                  (pass_output_name accel (pi_output_name terminal)) Haccel) as Ht.
    fold name in Ht. unfold saves_of. rewrite Ht. reflexivity. }
  rewrite saves_of_app, Hsingle in Htrace, Hr.
  assert (Hrj : exists j, r = Some j /\ json_truthy j = true).
  { destruct (saves_of front); exact Hr. }
  clear Hr.
  destruct Hrj as (j & -> & Hj).
  assert (Houtputs :
    exists st3,
      run_no_search_outputs accel output_name step signal model_ids st1
        = (Ok (Some (OutModel j signal)), st3) /\
      exists tail, trace st3 = (trace st2 ++ tail)%list /\ List.filter is_save_model tail = []).
  { unfold run_no_search_outputs.
    erewrite bind_ok by reflexivity.
    erewrite bind_ok by (rewrite Hnames; reflexivity).
    cbv zeta. fold pnames. rewrite Hplast. fold name. rewrite Hzip.
    erewrite bind_ok by exact Hrun.
    destruct signal as [sig|].
    - erewrite bind_ok by reflexivity. rewrite Hj. eexists. split; [reflexivity|].
      exists [EvWriteMetrics (name +:+ "_metrics.json")]. split; reflexivity.
    - erewrite bind_ok by reflexivity. rewrite Hj. exists st2. split; [reflexivity|].
      exists []. split; [rewrite app_nil_r; reflexivity|reflexivity]. }
  destruct Houtputs as (st3 & Hout & tail & Htail & Hnosave).
  exists j, st3, last_pass, terminal, last_id.
  split.
  { unfold run_no_search. erewrite bind_ok by exact Hstep. exact Hout. }
  split; [reflexivity|]. split; [exact Hterminal|]. split; [exact Hlid|]. split.
  - exists ((saves_of front ++ [EvSaveModel last_id (name +:+ "_model")]) ++ tail)%list.
    split; [rewrite Htail, Htrace, <- !app_assoc; reflexivity|].
    rewrite !List.filter_app, Hnosave, app_nil_r, saves_of_filter. simpl.
    apply last_snoc.
  - intros Hno Hnt. unfold name, final_output_name, pass_output_name.
    rewrite Hno, Hnt. reflexivity.
Qed.

End NoSearchFacts.

(** ** More on the accelerator specs *)

Section ResolverMore.
Context `{OliveEnv}.

Lemma resolve_ep_sound eps accels device av rs ep :
  sound_specs eps accels rs -> ep ∈ eps -> device ∈ map PyStr.lower accels ->
  sound_specs eps accels
    (resolve_ep device (get_execution_providers_for_device device) av rs ep).
Proof.
  intros Hs Hep Hdev. unfold resolve_ep.
  destruct (bool_decide (ep ∈ get_execution_providers_for_device device)) eqn:Hsup; simpl.
  - destruct (bool_decide (ep = "CPUExecutionProvider") && _ && av); [exact Hs|].
    intros s [Hin| ->%list_elem_of_singleton]%elem_of_app; [auto|]. simpl.
    apply bool_decide_eq_true in Hsup. auto.
  - exact Hs.
Qed.

Lemma fold_resolve_ep_sound eps accels device av todo rs :
  sound_specs eps accels rs -> (forall ep, ep ∈ todo -> ep ∈ eps) ->
  device ∈ map PyStr.lower accels ->
  sound_specs eps accels
    (fold_left (resolve_ep device (get_execution_providers_for_device device) av) todo rs).
Proof.
  intros Hs Htodo Hdev. revert rs Hs.
  induction todo as [|ep todo IH]; intros rs Hs; simpl; [exact Hs|].
  apply IH.
  - intros ep' Hin. apply Htodo. right. exact Hin.
  - apply resolve_ep_sound; auto. apply Htodo. left.
Qed.

Lemma filter_unprocessed_sub (eps : list string) (done : gset string) ep :
  ep ∈ List.filter (fun e => negb (bool_decide (e ∈ done))) eps -> ep ∈ eps /\ ep ∉ done.
Proof.
  intros Hin. apply list_elem_of_In, filter_In in Hin as [Hin Hf].
  split; [apply list_elem_of_In; exact Hin|].
  apply negb_true_iff, bool_decide_eq_false in Hf. exact Hf.
Qed.

Lemma resolve_devices_sound eps av all accels rs rs' :
  resolve_devices eps av accels rs = Ok rs' ->
  (forall a, a ∈ accels -> a ∈ all) ->
  sound_specs eps all rs -> sound_specs eps all rs'.
Proof.
  revert rs. induction accels as [|a accels IH]; intros rs Hres Hsub Hs; simpl in Hres.
  - injection Hres as <-. exact Hs.
  - destruct (is_device (PyStr.lower a)); [|discriminate].
    apply (IH _ Hres).
    + intros a' Hin. apply Hsub. right. exact Hin.
    + apply fold_resolve_ep_sound; auto.
      * intros ep Hin. apply filter_unprocessed_sub in Hin. tauto.
      * apply list_elem_of_fmap_2. apply Hsub. left.
Qed.

(** The loop over devices raises only on a string that is no device. *)
Lemma resolve_devices_raises eps av accels rs :
  (exists rs', resolve_devices eps av accels rs = Ok rs' /\
               forall a, a ∈ accels -> is_device (PyStr.lower a) = true) \/
  (resolve_devices eps av accels rs = Raise ValueError /\
   exists a, a ∈ accels /\ is_device (PyStr.lower a) = false).
Proof.
  revert rs. induction accels as [|a accels IH]; intros rs; simpl.
  - left. eexists. split; [reflexivity|]. intros a Hin. inversion Hin.
  - destruct (is_device (PyStr.lower a)) eqn:Hdev.
    + destruct (IH (fold_left
                      (resolve_ep (PyStr.lower a)
                         (get_execution_providers_for_device (PyStr.lower a)) av)
                      (List.filter (fun e => negb (bool_decide (e ∈ processed_ep rs))) eps) rs))
        as [(rs' & Hok & Hall)|(Hraise & a' & Hin & Hbad)].
      * left. exists rs'. split; [exact Hok|].
        intros a' [->|Hin]%elem_of_cons; auto.
      * right. split; [exact Hraise|]. exists a'. split; [right; exact Hin|exact Hbad].
    + right. split; [reflexivity|]. exists a. split; [left|exact Hdev].
Qed.

(** After the providers of one device, every provider that was on its
    list is processed, but for CPUExecutionProvider kept for the cpu
    device. *)
Lemma fold_resolve_ep_processed device supported av todo rs ep :
  ep ∈ todo \/ ep ∈ processed_ep rs ->
  ep ∈ processed_ep (fold_left (resolve_ep device supported av) todo rs) \/
  (ep = "CPUExecutionProvider" /\ device <> "cpu" /\ av = true).
Proof.
  revert rs. induction todo as [|x todo IH]; intros rs Hin; simpl.
  - destruct Hin as [Hin|Hin]; [inversion Hin|left; exact Hin].
  - assert (Hstep : ep ∈ processed_ep (resolve_ep device supported av rs x) \/
                    (ep = "CPUExecutionProvider" /\ device <> "cpu" /\ av = true) \/
                    ep ∈ todo).
    { unfold resolve_ep.
      destruct Hin as [[->|Hin]%elem_of_cons|Hin].
      - destruct (negb (bool_decide (x ∈ supported))); simpl; [left; set_solver|].
        destruct (bool_decide (x = "CPUExecutionProvider")) eqn:Hx; simpl.
        + destruct (bool_decide (device = "cpu")) eqn:Hd; simpl.
          * left. set_solver.
          * destruct av; simpl; [|left; set_solver].
            right. left. apply bool_decide_eq_true in Hx. apply bool_decide_eq_false in Hd.
            auto.
        + left. set_solver.
      - right. right. exact Hin.
      - left. destruct (negb (bool_decide (x ∈ supported))); simpl; [set_solver|].
        destruct (bool_decide (x = "CPUExecutionProvider") && _ && av); simpl; set_solver. }
    destruct Hstep as [Hp|[Hcpu|Htodo]]; [apply IH; right; exact Hp|right; exact Hcpu|].
    apply IH. left. exact Htodo.
Qed.

End ResolverMore.

Section ResolverTheorems.
Context `{OliveEnv}.

(** Every resolved spec pairs one of the target's devices, lower-cased,
    with one of the execution providers in force, and the device supports
    the provider. *)
Theorem accelerator_specs_sound (target : OliveSystem)
    (execution_providers : option (list string)) (eps : list string)
    (specs : list AcceleratorSpec) :
  let accels := match accelerators target with None => ["CPU"] | Some a => a end in
  init_execution_providers target execution_providers = Ok eps ->
  init_accelerator_specs target execution_providers = Ok specs ->
  forall s, s ∈ specs ->
    execution_provider s ∈ eps /\
    accelerator_type s ∈ map PyStr.lower accels /\
    execution_provider s ∈ get_execution_providers_for_device (accelerator_type s).
Proof.
  intros accels Heps Hinit. unfold init_accelerator_specs in Hinit. rewrite Heps in Hinit.
  fold accels in Hinit.
  destruct (resolve_devices eps _ accels (mkResolver ∅ ∅ [])) as [rs|e] eqn:Hres; [|discriminate].
  assert (Hsound : sound_specs eps accels rs).
  { eapply resolve_devices_sound; [exact Hres|auto|].
    intros s Hs. inversion Hs. }
  destruct (specs_acc rs) as [|s0 l] eqn:Hspecs; [discriminate|].
  injection Hinit as <-. rewrite <- Hspecs. exact Hsound.
Qed.

(** Only the first device of the target's list gets a provider other
    than CPUExecutionProvider: a spec of a later device pairs the cpu
    device with CPUExecutionProvider. *)
Theorem first_device_takes_the_providers (target : OliveSystem)
    (execution_providers : option (list string)) (a0 : string) (rest : list string)
    (specs : list AcceleratorSpec) :
  let accels := match accelerators target with None => ["CPU"] | Some a => a end in
  accels = a0 :: rest ->
  init_accelerator_specs target execution_providers = Ok specs ->
  forall s, s ∈ specs ->
    accelerator_type s = PyStr.lower a0 \/
    (execution_provider s = "CPUExecutionProvider" /\ accelerator_type s = "cpu").
Proof.
  intros accels Haccels Hinit. unfold init_accelerator_specs in Hinit.
  destruct (init_execution_providers target execution_providers) as [eps|e] eqn:Heps;
    [|discriminate].
  fold accels in Hinit. rewrite Haccels in Hinit.
  set (av := bool_decide ("cpu" ∈ map PyStr.lower (a0 :: rest))) in *.
  destruct (resolve_devices eps av (a0 :: rest) (mkResolver ∅ ∅ [])) as [rs|e] eqn:Hres;
    [|discriminate].
  assert (Hsound : sound_specs eps (a0 :: rest) rs).
  { eapply resolve_devices_sound; [exact Hres|auto|]. intros s Hs. inversion Hs. }
  destruct (resolve_devices_inv _ _ _ _ _ Hres (resolver_inv_empty av))
    as ((_ & _ & Hcpu & _) & _).
  assert (Hspecs : forall s, s ∈ specs_acc rs ->
            accelerator_type s = PyStr.lower a0 \/
            (execution_provider s = "CPUExecutionProvider" /\ accelerator_type s = "cpu")).
  { simpl in Hres. destruct (is_device (PyStr.lower a0)); [|discriminate].
    set (d0 := PyStr.lower a0) in *.
    set (todo := List.filter _ eps) in Hres.
    set (rs1 := fold_left _ todo _) in Hres.
    destruct (fold_resolve_ep_inv d0 (get_execution_providers_for_device d0) av
                (mkResolver ∅ ∅ []) todo (mkResolver ∅ ∅ []))
      as [Hinv1 (_ & _ & _ & Hnew1)]; auto using resolver_inv_empty, extends_for_refl.
    { intros ep _. simpl. set_solver. }
    fold rs1 in Hinv1, Hnew1.
    destruct (resolve_devices_inv _ _ _ _ _ Hres Hinv1) as (_ & _ & _ & Hnew).
    intros s Hs. destruct (Hnew s Hs) as [Hold|Hfresh].
    - destruct (Hnew1 s Hold) as [Hnil|[Hd _]]; [inversion Hnil|left; exact Hd].
    - right. destruct (Hsound s Hs) as (Hep & _).
      destruct (fold_resolve_ep_processed d0 (get_execution_providers_for_device d0) av todo
                  (mkResolver ∅ ∅ []) (execution_provider s)) as [Hdone|(Hname & _ & Hav)].
      + left. unfold todo. apply list_elem_of_In, filter_In. split.
        * apply list_elem_of_In. exact Hep.
        * simpl. apply negb_true_iff, bool_decide_eq_false. set_solver.
      + contradiction.
      + split; [exact Hname|]. apply Hcpu; assumption. }
  destruct (specs_acc rs) as [|s0 l] eqn:Hl; [discriminate|].
  injection Hinit as <-. exact Hspecs.
Qed.

(** With the providers given, [__init__] raises [ValueError] exactly when
    one of the target's accelerators is no device. *)
Theorem unknown_device_is_a_value_error (target : OliveSystem) (eps : list string) :
  let accels := match accelerators target with None => ["CPU"] | Some a => a end in
  init_accelerator_specs target (Some eps) = Raise ValueError <->
  exists a, a ∈ accels /\ is_device (PyStr.lower a) = false.
Proof.
  intros accels. unfold init_accelerator_specs. simpl. fold accels.
  set (av := bool_decide ("cpu" ∈ map PyStr.lower accels)).
  destruct (resolve_devices_raises eps av accels (mkResolver ∅ ∅ []))
    as [(rs & Hok & Hall)|(Hraise & Hbad)].
  - rewrite Hok. split.
    + destruct (specs_acc rs); discriminate.
    + intros (a & Hin & Hdev). rewrite (Hall a Hin) in Hdev. discriminate.
  - rewrite Hraise. split; [intros _; exact Hbad|reflexivity].
Qed.

End ResolverTheorems.

(** ** Registering passes *)

Section RegistryMore.
Context `{OliveEnv}.

Lemma fresh_name_loop_least (fuel : nat) (cls : string) (id : Z)
    (registry : list (string * PassItem)) :
  (exists k, id <= k <= id + Z.of_nat fuel /\ PyDict.mem (auto_name cls k) registry = false) ->
  exists k, id <= k /\
    fresh_name_loop fuel cls id registry = Some (auto_name cls k) /\
    PyDict.mem (auto_name cls k) registry = false /\
    forall j, id <= j < k -> PyDict.mem (auto_name cls j) registry = true.
Proof.
  revert id. induction fuel as [|fuel IH]; intros id (k & Hk & Hfree); simpl.
  - assert (k = id) as -> by lia. rewrite Hfree. simpl.
    exists id. repeat split; auto; try lia.
  - destruct (PyDict.mem (auto_name cls id) registry) eqn:Hid; simpl.
    + destruct (IH (id + 1)) as (k' & Hle & Hloop & Hfree' & Hbusy).
      { exists k. split; [|exact Hfree].
        assert (k <> id) by (intros ->; congruence). lia. }
      exists k'. split; [lia|]. split; [exact Hloop|]. split; [exact Hfree'|].
      intros j Hj. destruct (decide (j = id)) as [->|]; [exact Hid|]. apply Hbusy. lia.
    + exists id. split; [lia|]. split; [reflexivity|]. split; [exact Hid|]. intros; lia.
Qed.

Lemma fresh_config_name_loop_least (fuel : nat) (cls : string) (id : Z)
    (pass_config : list (string * PassDescriptor)) :
  (exists k, id <= k <= id + Z.of_nat fuel /\
             PyDict.mem (auto_name cls k) pass_config = false) ->
  exists k, id <= k /\
    fresh_config_name_loop fuel cls id pass_config = Some (auto_name cls k) /\
    PyDict.mem (auto_name cls k) pass_config = false /\
    forall j, id <= j < k -> PyDict.mem (auto_name cls j) pass_config = true.
Proof.
  revert id. induction fuel as [|fuel IH]; intros id (k & Hk & Hfree); simpl.
  - assert (k = id) as -> by lia. rewrite Hfree. simpl.
    exists id. repeat split; auto; try lia.
  - destruct (PyDict.mem (auto_name cls id) pass_config) eqn:Hid; simpl.
    + destruct (IH (id + 1)) as (k' & Hle & Hloop & Hfree' & Hbusy).
      { exists k. split; [|exact Hfree].
        assert (k <> id) by (intros ->; congruence). lia. }
      exists k'. split; [lia|]. split; [exact Hloop|]. split; [exact Hfree'|].
      intros j Hj. destruct (decide (j = id)) as [->|]; [exact Hid|]. apply Hbusy. lia.
    + exists id. split; [lia|]. split; [reflexivity|]. split; [exact Hid|]. intros; lia.
Qed.

(** Among the first [length d + 1] candidates one is free. *)
Lemma auto_name_free_exists {V : Type} (cls : string) (d : list (string * V)) :
  exists k, 0 <= k <= 0 + Z.of_nat (length d) /\ PyDict.mem (auto_name cls k) d = false.
Proof.
  destruct (free_exists (auto_name cls) (PyDict.keys d) 0) as (k & Hk & Hnot).
  { intros i j Hi Hj. apply auto_name_inj; assumption. }
  exists k. split.
  - unfold PyDict.keys in Hk. rewrite length_map in Hk. lia.
  - destruct (PyDict.mem (auto_name cls k) d) eqn:Hm; [|reflexivity].
    apply mem_iff in Hm. contradiction.
Qed.

Lemma mem_false_iff {V : Type} (k : string) (d : list (string * V)) :
  PyDict.mem k d = false <-> k ∉ PyDict.keys d.
Proof.
  rewrite <- mem_iff. destruct (PyDict.mem k d); split; intros Hm; congruence.
Qed.

Lemma mem_false_get {V : Type} (k : string) (d : list (string * V)) :
  PyDict.mem k d = false -> PyDict.get k d = None.
Proof. unfold PyDict.mem. destruct (PyDict.get k d); [discriminate|reflexivity]. Qed.

Lemma keys_set_present {V : Type} (k : string) (v old : V) (d : list (string * V)) :
  PyDict.get k d = Some old -> PyDict.keys (PyDict.set k v d) = PyDict.keys d.
Proof.
  induction d as [|[k' v'] d IH]; simpl; [discriminate|].
  destruct (decide (k' = k)); simpl; [reflexivity|].
  intros Hget. rewrite (IH Hget). reflexivity.
Qed.

(** Registering a pass under a generated name. *)
Lemma register_pass_auto_name (eng : Engine) (p : Pass) (host : option OliveSystem)
    (evaluator : option OliveEvaluatorConfig) (output_name : option string)
    (st : engine_state) :
  (no_search eng && (0 <? length (search_space p))%nat) = false ->
  exists k, 0 <= k /\
    PyDict.mem (auto_name (pass_class_name p) k) (passes st) = false /\
    (forall j, 0 <= j < k -> PyDict.mem (auto_name (pass_class_name p) j) (passes st) = true) /\
    register_pass eng p None host evaluator output_name st =
      (Ok tt,
       with_passes (passes st ++ [(auto_name (pass_class_name p) k,
                                   mkPassItem p host evaluator output_name)])%list st).
Proof.
  intros Hok.
  destruct (fresh_name_loop_least (length (passes st)) (pass_class_name p) 0 (passes st)
              (auto_name_free_exists _ _)) as (k & Hk & Hloop & Hfree & Hbusy).
  exists k. split; [exact Hk|]. split; [exact Hfree|]. split; [exact Hbusy|].
  unfold register_pass. erewrite bind_ok by reflexivity.
  erewrite bind_ok; [|unfold fresh_name; rewrite Hloop; reflexivity].
  rewrite Hok. erewrite bind_ok by reflexivity.
  rewrite set_fresh by (apply mem_false_get; exact Hfree). reflexivity.
Qed.

Lemma register_all_spec (eng : Engine) (accel : AcceleratorSpec)
    (configs : list PassDescriptor) (st : engine_state) :
  (no_search eng = true ->
   forall config, config ∈ configs -> search_space (instance_of accel config) = []) ->
  NoDup (PyDict.keys (passes st)) ->
  exists new,
    for_each configs (register_descriptor eng accel) st =
      (Ok tt, with_passes (passes st ++ new)%list st) /\
    PyDict.values new = map (item_of accel) configs /\
    Forall2 (named_after accel) (PyDict.keys new) configs /\
    NoDup (PyDict.keys (passes st ++ new)%list).
Proof.
  revert st. induction configs as [|c configs IH]; intros st Hspaces Hnd.
  - exists []. simpl. rewrite app_nil_r. repeat split; auto.
    destruct st; reflexivity.
  - assert (Hok : (no_search eng && (0 <? length (search_space (instance_of accel c)))%nat)
                  = false).
    { destruct (no_search eng) eqn:Hns; [|reflexivity]. simpl.
      rewrite (Hspaces eq_refl c) by left. reflexivity. }
    destruct (register_pass_auto_name eng (instance_of accel c) (pd_host c) (pd_evaluator c)
                (pd_output_name c) st Hok) as (k & Hk & Hfree & _ & Hreg).
    set (name := auto_name (pass_class_name (instance_of accel c)) k) in *.
    set (st1 := with_passes (passes st ++ [(name, item_of accel c)])%list st).
    destruct (IH st1) as (new & Hrest & Hvals & Hnames & Hnd').
    { intros Hns config Hin. apply Hspaces; [exact Hns|right; exact Hin]. }
    { simpl. unfold PyDict.keys. rewrite map_app. simpl.
      apply NoDup_app. split; [exact Hnd|]. split; [|apply NoDup_singleton].
      intros x Hx ->%list_elem_of_singleton. apply mem_false_iff in Hfree. contradiction. }
    exists ((name, item_of accel c) :: new). split; [|split; [|split]].
    + simpl. unfold register_descriptor at 1. fold (instance_of accel c).
      erewrite bind_ok by exact Hreg. fold name. fold (item_of accel c).
      change (with_passes _ st) with st1 at 1. rewrite Hrest. simpl.
      rewrite <- app_assoc. reflexivity.
    + simpl. rewrite Hvals. reflexivity.
    + simpl. constructor; [exists k; auto|exact Hnames].
    + simpl in Hnd'. rewrite <- app_assoc in Hnd'. exact Hnd'.
Qed.

Lemma map_get_keys {V A : Type} (f : option V -> A) (d : list (string * V)) :
  NoDup (PyDict.keys d) ->
  map (fun k => (k, f (PyDict.get k d))) (PyDict.keys d) =
  map (fun kv => (fst kv, f (Some (snd kv)))) d.
Proof.
  induction d as [|[k v] d IH]; intros Hnd; simpl; [reflexivity|].
  apply NoDup_cons in Hnd as [Hk Hnd].
  destruct (decide (k = k)); [|contradiction]. f_equal.
  rewrite <- (IH Hnd). apply map_ext_in. intros k' Hin.
  destruct (decide (k = k')) as [->|]; [|reflexivity].
  exfalso. apply Hk. apply list_elem_of_In. exact Hin.
Qed.

(** In search mode, or when no pass has a search space, [setup_passes]
    returns: one entry per descriptor, under distinct names. *)
Lemma setup_passes_ok (eng : Engine) (accel : AcceleratorSpec) (st : engine_state) :
  setup_ok eng accel ->
  exists st',
    setup_passes eng accel st = (Ok tt, st') /\
    PyDict.values (passes st') = map (item_of accel) (PyDict.values (pass_config eng)) /\
    NoDup (PyDict.keys (passes st')).
Proof.
  intros Hok.
  destruct (register_all_spec eng accel (PyDict.values (pass_config eng)) (with_passes [] st)
              Hok) as (new & Hloop & Hvals & _ & Hnd).
  { simpl. apply NoDup_nil_2. }
  simpl in Hloop, Hnd.
  eexists. split; [|split].
  - unfold setup_passes. erewrite bind_ok by reflexivity.
    erewrite bind_ok by exact Hloop. erewrite bind_ok by reflexivity. reflexivity.
  - simpl. exact Hvals.
  - simpl. exact Hnd.
Qed.

End RegistryMore.

Section RegistryTheorems.
Context `{OliveEnv}.

(** [register] without a name never replaces an entry: the descriptor
    goes last, under the name of the pass class, or under that name with
    the least suffix "_k", k = 1, 2, ..., that is not yet a key. *)
Theorem register_generates_a_fresh_name (pass_type : PassType) (config : option json)
    (disable_search : bool) (host : option OliveSystem)
    (evaluator_config : option OliveEvaluatorConfig) (clean_run_cache : bool)
    (output_name : option string) (pass_config : list (string * PassDescriptor))
    (st : engine_state) :
  exists k, 0 <= k /\
    register pass_type config disable_search None host evaluator_config clean_run_cache
      output_name pass_config st
    = (Ok (pass_config ++
             [(auto_name (type_name pass_type) k,
               mkPassDescriptor pass_type (config_or_empty config) disable_search host
                 evaluator_config clean_run_cache output_name)])%list, st) /\
    (auto_name (type_name pass_type) k ∉ PyDict.keys pass_config) /\
    (forall j, 0 <= j < k -> auto_name (type_name pass_type) j ∈ PyDict.keys pass_config) /\
    auto_name (type_name pass_type) 0 = type_name pass_type.
Proof.
  destruct (fresh_config_name_loop_least (length pass_config) (type_name pass_type) 0
              pass_config (auto_name_free_exists _ _)) as (k & Hk & Hloop & Hfree & Hbusy).
  exists k. split; [exact Hk|]. split; [|split; [|split]].
  - unfold register. erewrite bind_ok by reflexivity. rewrite Hloop.
    erewrite bind_ok by reflexivity.
    rewrite set_fresh by (apply mem_false_get; exact Hfree). reflexivity.
  - apply mem_false_iff. exact Hfree.
  - intros j Hj. apply mem_iff. apply Hbusy. exact Hj.
  - reflexivity.
Qed.

(** [register] with a name looks the name up in [self.passes], not in
    [self.pass_config]: a name that is a key of [pass_config] only is
    accepted, and its descriptor is replaced in place. *)
Theorem register_named_replaces (pass_type : PassType) (config : option json)
    (disable_search : bool) (name : string) (host : option OliveSystem)
    (evaluator_config : option OliveEvaluatorConfig) (clean_run_cache : bool)
    (output_name : option string) (pass_config : list (string * PassDescriptor))
    (old : PassDescriptor) (st : engine_state) :
  PyDict.mem name (passes st) = false ->
  PyDict.get name pass_config = Some old ->
  exists pass_config',
    register pass_type config disable_search (Some name) host evaluator_config
      clean_run_cache output_name pass_config st = (Ok pass_config', st) /\
    PyDict.keys pass_config' = PyDict.keys pass_config /\
    PyDict.get name pass_config' =
      Some (mkPassDescriptor pass_type (config_or_empty config) disable_search host
              evaluator_config clean_run_cache output_name) /\
    forall other, other <> name ->
      PyDict.get other pass_config' = PyDict.get other pass_config.
Proof.
  intros Hfree Hold. eexists. split; [|split; [|split]].
  - unfold register. erewrite bind_ok by reflexivity. rewrite Hfree. simpl.
    erewrite bind_ok by reflexivity. reflexivity.
  - eapply keys_set_present. exact Hold.
  - apply get_set_eq.
  - intros other Hne. apply get_set_ne. congruence.
Qed.

(** [register] with a name that is a key of [self.passes] fails its
    assertion and leaves everything as it was. *)
Lemma register_named_asserts (pass_type : PassType) (config : option json)
    (disable_search : bool) (name : string) (host : option OliveSystem)
    (evaluator_config : option OliveEvaluatorConfig) (clean_run_cache : bool)
    (output_name : option string) (pass_config : list (string * PassDescriptor))
    (item : PassItem) (st : engine_state) :
  PyDict.get name (passes st) = Some item ->
  register pass_type config disable_search (Some name) host evaluator_config
    clean_run_cache output_name pass_config st = (Raise AssertionError, st).
Proof.
  intros Hitem. unfold register. erewrite bind_ok by reflexivity.
  unfold PyDict.mem. rewrite Hitem. reflexivity.
Qed.

(** [setup_passes] registers one pass per descriptor, in the order of
    [pass_config], under pairwise distinct names generated from the class
    names of the instances: the keys of [pass_config] are not used.  In
    no-search mode this needs every search space to be empty. *)
Theorem setup_passes_registers_in_order (eng : Engine) (accel : AcceleratorSpec)
    (st : engine_state) :
  (no_search eng = true ->
   forall config, config ∈ PyDict.values (pass_config eng) ->
                  search_space (instance_of accel config) = []) ->
  exists st',
    setup_passes eng accel st = (Ok tt, st') /\
    PyDict.values (passes st') = map (item_of accel) (PyDict.values (pass_config eng)) /\
    NoDup (PyDict.keys (passes st')) /\
    Forall2 (fun name config =>
               exists k, 0 <= k /\
                 name = auto_name (pass_class_name (instance_of accel config)) k)
            (PyDict.keys (passes st')) (PyDict.values (pass_config eng)) /\
    pass_search_spaces st' =
      map (fun kv => (fst kv, search_space (pi_pass (snd kv)))) (passes st').
Proof.
  intros Hspaces.
  destruct (register_all_spec eng accel (PyDict.values (pass_config eng)) (with_passes [] st)
              Hspaces) as (new & Hloop & Hvals & Hnames & Hnd).
  { simpl. apply NoDup_nil_2. }
  simpl in Hloop, Hnd.
  eexists. split; [|split; [|split; [|split]]].
  - unfold setup_passes. erewrite bind_ok by reflexivity.
    erewrite bind_ok by exact Hloop. erewrite bind_ok by reflexivity. reflexivity.
  - simpl. exact Hvals.
  - simpl. exact Hnd.
  - simpl. exact Hnames.
  - simpl.
    rewrite <- (map_get_keys (fun o => match o with
                                    | Some item => search_space (pi_pass item)
                                    | None => []
                                    end) new Hnd).
    reflexivity.
Qed.

End RegistryTheorems.

(** ** More on [initialize] and the allocator *)

Section InitializeMore.
Context `{OliveEnv}.







End InitializeMore.

Section InitializeTheorems.
Context `{OliveEnv}.



(** [_get_new_model_number] returns the least number, from the counter
    on, that no entry of [models/] starts with (followed by "_"): every
    number it skips is taken. *)
Theorem allocator_returns_least_free (st : engine_state) :
  exists n,
    _get_new_model_number st = (Ok n, with_new_model_number (n + 1) st) /\
    new_model_number st <= n /\
    (forall name, is_Some (models_dir st !! name) ->
                  PyStr.startswith (PyStr.str_of_int n +:+ "_") name = false) /\
    (forall j, new_model_number st <= j < n ->
       exists name, is_Some (models_dir st !! name) /\
                    PyStr.startswith (PyStr.str_of_int j +:+ "_") name = true).
Proof.
  destruct (get_new_model_number_spec st) as (n & Hn & Hle & Hfree & Hbusy).
  exists n. split; [exact Hn|]. split; [exact Hle|]. split.
  - apply glob_nil_iff. exact Hfree.
  - intros j Hj. specialize (Hbusy j Hj).
    destruct (glob (pat_number j) (models_dir st)) as [|name l] eqn:Hglob; [contradiction|].
    assert (Hin : name ∈ glob (pat_number j) (models_dir st)) by (rewrite Hglob; left).
    apply glob_elem in Hin as [Hentry Hmatch]. exists name. split; assumption.
Qed.

End InitializeTheorems.

(** ** More on the model cache *)

Section CacheTheorems.
Context `{OliveEnv}.

(** A model cached and loaded again comes back through the model factory
    from the JSON [to_json] gave.  The factory's exception, if it raises,
    leaves [_load_model]; a model whose JSON is the empty object comes
    back as the pruned sentinel. *)
Theorem cache_then_load_model (m : OliveModel) (model_id : string) (check_object : bool)
    (st : engine_state) :
  models_dir st !! get_model_json_path model_id <> Some EDir ->
  exists st',
    _cache_model (Model m) model_id check_object st = (Ok tt, st') /\
    _load_model model_id st' =
      (if is_empty_obj (model_to_json check_object m) then Ok (Some PRUNED_CONFIG)
       else match model_from_json (model_to_json check_object m) with
            | Ok m' => Ok (Some (Model m'))
            | Raise e => Raise e
            end, st').
Proof.
  intros Hdir. eexists. split; [apply cache_model_written; exact Hdir|].
  erewrite load_model_json; [|simpl; apply lookup_insert_eq].
  destruct (is_empty_obj _); [reflexivity|].
  destruct (model_from_json _); reflexivity.
Qed.

(** [_cache_model] never raises.  When the sidecar's path is a directory
    it logs an error and leaves the cache as it was; otherwise it changes
    nothing but the sidecar. *)
Theorem cache_model_is_contained (model : model_value) (model_id : string)
    (check_object : bool) (st : engine_state) :
  exists st',
    _cache_model model model_id check_object st = (Ok tt, st') /\
    runs_dir st' = runs_dir st /\ new_model_number st' = new_model_number st /\
    (forall name, name <> get_model_json_path model_id ->
                  models_dir st' !! name = models_dir st !! name) /\
    (models_dir st !! get_model_json_path model_id = Some EDir ->
     models_dir st' = models_dir st /\
     trace st' = (trace st ++ [EvLogError "Failed to cache model"])%list).
Proof.
  destruct (models_dir st !! get_model_json_path model_id) as [[f|]|] eqn:Hentry.
  - eexists. split; [apply cache_model_written; rewrite Hentry; discriminate|].
    simpl. repeat split; try discriminate.
    intros name Hne. apply lookup_insert_ne. congruence.
  - eexists. split.
    + unfold _cache_model, try_except, bind, get_state, write_json. rewrite Hentry.
      reflexivity.
    + simpl. repeat split; auto.
  - eexists. split; [apply cache_model_written; rewrite Hentry; discriminate|].
    simpl. repeat split; try discriminate.
    intros name Hne. apply lookup_insert_ne. congruence.
Qed.

(** [_init_input_model] names the input model by the hash of its JSON and
    allocates no number; a second call returns the same id and changes
    nothing. *)
Theorem init_input_model_idempotent (input_model : OliveModel) (st : engine_state) :
  let model_hash := hash_dict (model_to_json false input_model) in
  models_dir st !! get_model_json_path model_hash <> Some EDir ->
  exists st1,
    _init_input_model input_model st = (Ok model_hash, st1) /\
    models_dir st1 !! get_model_json_path model_hash
      = Some (EFile (JsonText (model_to_json false input_model))) /\
    new_model_number st1 = new_model_number st /\
    _init_input_model input_model st1 = (Ok model_hash, st1).
Proof.
  intros model_hash Hdir. eexists. split; [|split; [|split]].
  - unfold _init_input_model. fold model_hash.
    erewrite bind_ok by (apply cache_model_written; exact Hdir). reflexivity.
  - simpl. apply lookup_insert_eq.
  - reflexivity.
  - unfold _init_input_model. fold model_hash.
    erewrite bind_ok.
    2:{ apply cache_model_written. simpl. rewrite lookup_insert_eq. discriminate. }
    simpl. unfold ret. f_equal. unfold with_models_dir. simpl.
    rewrite insert_insert_eq. reflexivity.
Qed.

(** A run file that names a model whose sidecar parses but is refused by
    the model factory makes [_run_pass] raise the factory's exception,
    with or without search: the pass is not run again and nothing is
    written. *)
Theorem rejected_sidecar_is_fatal (eng : Engine) (pass_id : string) (item : PassItem)
    (point : json) (input_model : option model_value) (input_model_id : string)
    (accel : AcceleratorSpec) (st : engine_state) (run_json : json)
    (output_model_id : string) (model_json : json) (e : exn) :
  let p := pi_pass item in
  let pass_config := serialize_config p (config_at_search_point p point) in
  let run_accel := if is_accelerator_agnostic p accel then None else Some accel in
  let run_path := get_run_json_path (pass_class_name p) (PyStr.split_head "_" input_model_id)
                    pass_config run_accel in
  PyDict.get pass_id (passes st) = Some item ->
  runs_dir st !! run_path = Some (EFile (JsonText run_json)) ->
  run_output_model_id run_json = Ok (Some output_model_id) ->
  models_dir st !! get_model_json_path output_model_id = Some (EFile (JsonText model_json)) ->
  is_empty_obj model_json = false ->
  model_from_json model_json = Raise e ->
  _run_pass eng pass_id point input_model input_model_id accel st = (Raise e, st).
Proof.
  intros p pass_config run_accel run_path Hitem Hrun Hid Hside Hne Hfactory.
  unfold _run_pass. erewrite bind_ok by (apply pass_item_ok; exact Hitem).
  fold p. fold pass_config. fold run_accel.
  erewrite bind_ok by (eapply load_run_hit; [exact Hrun|exact Hid]).
  erewrite bind_raise; [reflexivity|].
  erewrite bind_raise; [reflexivity|].
  rewrite (load_model_json _ _ _ Hside), Hne, Hfactory. reflexivity.
Qed.

End CacheTheorems.

(** ** More on [_run_pass] *)

Section RunPassMore.
Context `{OliveEnv}.

Lemma run_pass_evaluations eng i pt m mid a :
  preserves (same_on evaluations) (_run_pass eng i pt m mid a).
Proof. frame. Qed.

(** [_run_pass] on a pass whose run is not in the cache. *)
Lemma run_pass_miss_unfold (eng : Engine) (pass_id : string) (item : PassItem) (point : json)
    (input_model : option model_value) (input_model_id : string) (accel : AcceleratorSpec)
    (st : engine_state) :
  let p := pi_pass item in
  let pass_config := serialize_config p (config_at_search_point p point) in
  let run_accel := if is_accelerator_agnostic p accel then None else Some accel in
  PyDict.get pass_id (passes st) = Some item ->
  runs_dir st !! get_run_json_path (pass_class_name p) (PyStr.split_head "_" input_model_id)
                   pass_config run_accel = None ->
  _run_pass eng pass_id point input_model input_model_id accel st =
  _run_pass_miss eng pass_id p point pass_config run_accel input_model input_model_id accel st.
Proof.
  intros p pass_config run_accel Hitem Hmiss.
  unfold _run_pass. erewrite bind_ok by (apply pass_item_ok; exact Hitem).
  cbv beta zeta. fold p pass_config run_accel.
  erewrite bind_ok by (apply load_run_absent; exact Hmiss).
  erewrite bind_ok by reflexivity. reflexivity.
Qed.

(** The miss path up to the call of [_run_pass_output]: the number, the
    id and the state with the new directory. *)
Lemma run_pass_miss_start (eng : Engine) (pass_id : string) (p : Pass) (point pass_config : json)
    (run_accel : option AcceleratorSpec) (input_model : option model_value)
    (input_model_id : string) (accel : AcceleratorSpec) (st : engine_state) :
  exists n,
    new_model_number st <= n /\
    let id := new_output_model_id p n input_model_id pass_config accel in
    let st2 := with_models_dir (<[id := EDir]> (models_dir st))
                 (with_new_model_number (n + 1) st) in
    models_dir st !! id = None /\
    models_dir st !! get_model_json_path id = None /\
    _run_pass_miss eng pass_id p point pass_config run_accel input_model input_model_id accel st
    = bind (_run_pass_output eng pass_id p point input_model
              ("models/" +:+ id +:+ "/output_model"))
        (fun output_model =>
           _cache_model output_model id true ;;
           _cache_run (pass_class_name p) pass_config input_model_id id run_accel ;;
           footprint_record accel
             (mkFootprintRecord id (Some (footprint_model_config output_model))
                (Some input_model_id) (Some (pass_class_name p)) (Some pass_config) None) ;;
           ret (output_model, id)) st2.
Proof.
  destruct (get_new_model_number_spec st) as (n & Hn & Hle & Hfree & _).
  exists n. split; [exact Hle|]. cbv zeta.
  set (id := new_output_model_id p n input_model_id pass_config accel).
  destruct (new_output_model_id_numbered p n input_model_id pass_config accel) as [rest Hid].
  fold id in Hid.
  assert (Hnone : models_dir st !! id = None).
  { rewrite Hid. apply fresh_number_no_entry. exact Hfree. }
  assert (Hside : models_dir st !! get_model_json_path id = None).
  { unfold get_model_json_path. rewrite Hid, !app_assoc_str.
    apply fresh_number_no_entry. exact Hfree. }
  split; [exact Hnone|]. split; [exact Hside|].
  unfold _run_pass_miss. erewrite bind_ok by exact Hn. cbv beta zeta. fold id.
  erewrite bind_ok by (apply mkdir_models_fresh; exact Hnone).
  reflexivity.
Qed.

(** The miss path after [_run_pass_output] returned [output_model]. *)
Lemma run_pass_miss_finish (p : Pass) (pass_config : json) (run_accel : option AcceleratorSpec)
    (input_model_id : string) (accel : AcceleratorSpec) (id : string)
    (output_model : model_value) (st3 : engine_state) :
  let run_path := get_run_json_path (pass_class_name p) (PyStr.split_head "_" input_model_id)
                    pass_config run_accel in
  models_dir st3 !! get_model_json_path id <> Some EDir ->
  runs_dir st3 !! run_path <> Some EDir ->
  exists st',
    (_cache_model output_model id true ;;
     _cache_run (pass_class_name p) pass_config input_model_id id run_accel ;;
     footprint_record accel
       (mkFootprintRecord id (Some (footprint_model_config output_model))
          (Some input_model_id) (Some (pass_class_name p)) (Some pass_config) None) ;;
     ret (output_model, id)) st3 = (Ok (output_model, id), st') /\
    trace st' = trace st3 /\ world st' = world st3 /\
    new_model_number st' = new_model_number st3 /\
    models_dir st' =
      <[get_model_json_path id :=
          EFile (JsonText (match output_model with
                           | PRUNED_CONFIG => JObj []
                           | Model m => model_to_json true m
                           end))]> (models_dir st3) /\
    (exists run_json,
        runs_dir st' = <[run_path := EFile (JsonText run_json)]> (runs_dir st3) /\
        run_output_model_id run_json = Ok (Some id)).
Proof.
  intros run_path Hside Hrun.
  erewrite bind_ok by (apply cache_model_written; exact Hside).
  erewrite bind_ok by (apply cache_run_written; simpl; exact Hrun).
  eexists. split; [reflexivity|]. simpl. repeat split.
  eexists. split; [reflexivity|]. apply run_json_output_model_id.
Qed.

End RunPassMore.

Section RunPassTheorems.
Context `{OliveEnv}.

(** With search enabled, a search point the pass does not validate is
    pruned without a call to the host; the pruned output still takes a new
    number, gets its directory, its empty sidecar and its run file. *)
Theorem invalid_search_point_is_pruned (eng : Engine) (pass_id : string) (item : PassItem)
    (point : json) (input_model : option model_value) (input_model_id : string)
    (accel : AcceleratorSpec) (st : engine_state) :
  let p := pi_pass item in
  let pass_config := serialize_config p (config_at_search_point p point) in
  let run_accel := if is_accelerator_agnostic p accel then None else Some accel in
  let run_path := get_run_json_path (pass_class_name p) (PyStr.split_head "_" input_model_id)
                    pass_config run_accel in
  no_search eng = false ->
  PyDict.get pass_id (passes st) = Some item ->
  validate_search_point p point = false ->
  runs_dir st !! run_path = None ->
  exists n st',
    let output_model_id := new_output_model_id p n input_model_id pass_config accel in
    _run_pass eng pass_id point input_model input_model_id accel st
      = (Ok (PRUNED_CONFIG, output_model_id), st') /\
    host_calls st' = host_calls st /\ world st' = world st /\
    models_dir st' !! output_model_id = Some EDir /\
    models_dir st' !! get_model_json_path output_model_id = Some (EFile (JsonText (JObj []))) /\
    run_cached st' run_path output_model_id.
Proof.
  intros p pass_config run_accel run_path Hsearch Hitem Hinvalid Hmiss.
  rewrite (run_pass_miss_unfold eng pass_id item point input_model input_model_id accel st
             Hitem Hmiss).
  fold p pass_config run_accel.
  destruct (run_pass_miss_start eng pass_id p point pass_config run_accel input_model
              input_model_id accel st) as (n & _ & Hnone & Hside & Hstart).
  cbv zeta in Hnone, Hside, Hstart.
  set (id := new_output_model_id p n input_model_id pass_config accel) in *.
  set (st2 := with_models_dir _ _) in Hstart.
  assert (Hout : _run_pass_output eng pass_id p point input_model
                   ("models/" +:+ id +:+ "/output_model") st2 = (Ok PRUNED_CONFIG, st2)).
  { unfold _run_pass_output. rewrite Hinvalid, Hsearch. reflexivity. }
  destruct (run_pass_miss_finish p pass_config run_accel input_model_id accel id PRUNED_CONFIG
              st2) as (st' & Hfin & Htrace & Hworld & _ & Hmodels & (rj & Hruns & Hrj)).
  { simpl. rewrite lookup_insert_ne by (apply not_eq_sym, sidecar_name_differs).
    rewrite Hside. discriminate. }
  { simpl. fold run_path. rewrite Hmiss. discriminate. }
  exists n, st'. cbv zeta. fold id. split; [|split; [|split; [|split; [|split]]]].
  - rewrite Hstart. erewrite bind_ok by exact Hout. exact Hfin.
  - unfold host_calls. rewrite Htrace. reflexivity.
  - rewrite Hworld. reflexivity.
  - rewrite Hmodels. rewrite lookup_insert_ne by (apply sidecar_name_differs).
    simpl. apply lookup_insert_eq.
  - rewrite Hmodels. apply lookup_insert_eq.
  - exists rj, (JObj []). split; [rewrite Hruns; apply lookup_insert_eq|].
    split; [exact Hrj|]. split; [rewrite Hmodels; apply lookup_insert_eq|].
    left. reflexivity.
Qed.

(** A cache miss on which the host returns a model: the host is called
    once, on a path inside the directory of the new id; the model's JSON
    goes to the sidecar and the run file names the new id.  Without
    search the search point is not validated. *)
Theorem run_pass_miss_runs_the_host (eng : Engine) (pass_id : string) (item : PassItem)
    (point : json) (input_model : option model_value) (input_model_id : string)
    (accel : AcceleratorSpec) (st : engine_state) (m : OliveModel) :
  let p := pi_pass item in
  let pass_config := serialize_config p (config_at_search_point p point) in
  let run_accel := if is_accelerator_agnostic p accel then None else Some accel in
  let run_path := get_run_json_path (pass_class_name p) (PyStr.split_head "_" input_model_id)
                    pass_config run_accel in
  PyDict.get pass_id (passes st) = Some item ->
  (validate_search_point p point = true \/ no_search eng = true) ->
  runs_dir st !! run_path = None ->
  input_ready (host_of eng item) input_model ->
  (forall path, exists w',
      run_pass (host_of eng item) p input_model path point (world st) = (Ok m, w')) ->
  exists n st',
    let output_model_id := new_output_model_id p n input_model_id pass_config accel in
    new_model_number st <= n /\ new_model_number st' = n + 1 /\
    _run_pass eng pass_id point input_model input_model_id accel st
      = (Ok (Model m, output_model_id), st') /\
    trace st' = (trace st ++ [EvRunPass (pass_class_name p)
                                ("models/" +:+ output_model_id +:+ "/output_model")])%list /\
    models_dir st' =
      <[get_model_json_path output_model_id := EFile (JsonText (model_to_json true m))]>
        (<[output_model_id := EDir]> (models_dir st)) /\
    exists run_json,
      runs_dir st' = <[run_path := EFile (JsonText run_json)]> (runs_dir st) /\
      run_output_model_id run_json = Ok (Some output_model_id).
Proof.
  intros p pass_config run_accel run_path Hitem Hvalid Hmiss Hready Hhost.
  rewrite (run_pass_miss_unfold eng pass_id item point input_model input_model_id accel st
             Hitem Hmiss).
  fold p pass_config run_accel.
  destruct (run_pass_miss_start eng pass_id p point pass_config run_accel input_model
              input_model_id accel st) as (n & Hle & Hnone & Hside & Hstart).
  cbv zeta in Hnone, Hside, Hstart.
  set (id := new_output_model_id p n input_model_id pass_config accel) in *.
  set (st2 := with_models_dir _ _) in Hstart.
  destruct (Hhost ("models/" +:+ id +:+ "/output_model")) as [w' Hw'].
  set (st3 := with_world w'
                (with_trace (trace st ++ [EvRunPass (pass_class_name p)
                                            ("models/" +:+ id +:+ "/output_model")]) st2)).
  assert (Hout : _run_pass_output eng pass_id p point input_model
                   ("models/" +:+ id +:+ "/output_model") st2 = (Ok (Model m), st3)).
  { unfold _run_pass_output.
    assert (Hguard : negb (validate_search_point p point) && negb (no_search eng) = false).
    { destruct Hvalid as [->| ->]; [reflexivity|apply andb_false_r]. }
    rewrite Hguard.
    erewrite bind_ok by (apply host_for_pass_ok; exact Hitem).
    erewrite bind_ok by (apply prepare_ready; exact Hready).
    unfold try_except, host_run_pass, bind, emit, modify, call_world. simpl.
    fold p. rewrite Hw'. reflexivity. }
  destruct (run_pass_miss_finish p pass_config run_accel input_model_id accel id (Model m) st3)
    as (st' & Hfin & Htrace & _ & Hcount & Hmodels & (rj & Hruns & Hrj)).
  { simpl. rewrite lookup_insert_ne by (apply not_eq_sym, sidecar_name_differs).
    rewrite Hside. discriminate. }
  { simpl. fold run_path. rewrite Hmiss. discriminate. }
  exists n, st'. cbv zeta. fold id. split; [exact Hle|]. split; [rewrite Hcount; reflexivity|].
  split; [rewrite Hstart; erewrite bind_ok by exact Hout; exact Hfin|].
  split; [rewrite Htrace; reflexivity|]. split; [rewrite Hmodels; reflexivity|].
  exists rj. split; [rewrite Hruns; reflexivity|exact Hrj].
Qed.

(** A failure of the host that leaves [_run_pass] (one of the four
    propagated classes, or, without search, anything but
    [OlivePassException]) leaves the directory of the new id behind, with
    no sidecar and no run file: the number is used up. *)
Theorem failed_pass_leaves_a_directory (eng : Engine) (pass_id : string) (item : PassItem)
    (point : json) (input_model : option model_value) (input_model_id : string)
    (accel : AcceleratorSpec) (st : engine_state) (e : exn) :
  let p := pi_pass item in
  let pass_config := serialize_config p (config_at_search_point p point) in
  let run_accel := if is_accelerator_agnostic p accel then None else Some accel in
  let run_path := get_run_json_path (pass_class_name p) (PyStr.split_head "_" input_model_id)
                    pass_config run_accel in
  PyDict.get pass_id (passes st) = Some item ->
  (validate_search_point p point = true \/ no_search eng = true) ->
  runs_dir st !! run_path = None ->
  input_ready (host_of eng item) input_model ->
  (forall path, exists w',
      run_pass (host_of eng item) p input_model path point (world st) = (Raise e, w')) ->
  e <> OlivePassException ->
  EXCEPTIONS_TO_RAISE e || no_search eng = true ->
  exists n st',
    let output_model_id := new_output_model_id p n input_model_id pass_config accel in
    new_model_number st <= n /\ new_model_number st' = n + 1 /\
    _run_pass eng pass_id point input_model input_model_id accel st = (Raise e, st') /\
    models_dir st' = <[output_model_id := EDir]> (models_dir st) /\
    models_dir st' !! get_model_json_path output_model_id = None /\
    runs_dir st' = runs_dir st.
Proof.
  intros p pass_config run_accel run_path Hitem Hvalid Hmiss Hready Hhost Hne Hfatal.
  rewrite (run_pass_miss_unfold eng pass_id item point input_model input_model_id accel st
             Hitem Hmiss).
  fold p pass_config run_accel.
  destruct (run_pass_miss_start eng pass_id p point pass_config run_accel input_model
              input_model_id accel st) as (n & Hle & Hnone & Hside & Hstart).
  cbv zeta in Hnone, Hside, Hstart.
  set (id := new_output_model_id p n input_model_id pass_config accel) in *.
  set (st2 := with_models_dir _ _) in Hstart.
  destruct (Hhost ("models/" +:+ id +:+ "/output_model")) as [w' Hw'].
  destruct (run_pass_output_host_failure eng pass_id item point input_model
              ("models/" +:+ id +:+ "/output_model") st2 e w' Hitem Hvalid Hready Hw')
    as (st3 & _ & Hmodels & Hruns & Hout).
  fold p in Hout. rewrite Hfatal in Hout.
  assert (Hraise : _run_pass_output eng pass_id p point input_model
                     ("models/" +:+ id +:+ "/output_model") st2 = (Raise e, st3)).
  { rewrite Hout. destruct e; try reflexivity. contradiction. }
  pose proof (preserved _ _ _ _ _ (run_pass_output_counter _ _ _ _ _ _) Hraise) as Hcount.
  unfold same_on in Hcount. simpl in Hcount.
  exists n, st3. cbv zeta. fold id. split; [exact Hle|]. split; [exact Hcount|].
  split; [rewrite Hstart; erewrite bind_raise by exact Hraise; reflexivity|].
  split; [rewrite Hmodels; reflexivity|]. split; [|rewrite Hruns; reflexivity].
  rewrite Hmodels. simpl.
  rewrite lookup_insert_ne by (apply not_eq_sym, sidecar_name_differs). exact Hside.
Qed.


(** The id [_run_pass] builds for a new output parses back to its number
    the way [initialize] parses the names in [models/], as a directory
    and as a sidecar; the token before its first underscore is the
    number. *)
Theorem output_model_id_parses (p : Pass) (n : Z) (input_model_id : string)
    (pass_config : json) (accel : AcceleratorSpec) :
  let output_model_id := new_output_model_id p n input_model_id pass_config accel in
  pat_any_underscore output_model_id = true /\
  model_file_number output_model_id = Some n /\
  model_file_number (get_model_json_path output_model_id) = Some n /\
  PyStr.split_head "_" output_model_id = PyStr.str_of_int n.
Proof.
  intros id.
  destruct (new_output_model_id_numbered p n input_model_id pass_config accel) as [rest Hid].
  fold id in Hid. rewrite Hid. split; [|split; [|split]].
  - unfold pat_any_underscore. rewrite !contains_app. simpl. apply orb_true_r.
  - apply model_file_number_numbered.
  - unfold get_model_json_path. rewrite !app_assoc_str. apply model_file_number_numbered.
  - apply numbered_name_token. rewrite <- app_assoc_str. apply startswith_app.
Qed.

End RunPassTheorems.

(** ** More on [_run_passes] *)

Section RunPassesMore.
Context `{OliveEnv}.

Lemma run_passes_loop_evaluations eng step model model_id accel ids :
  preserves (same_on evaluations) (_run_passes_loop eng step model model_id accel ids).
Proof.
  revert model model_id ids. induction step as [|[pass_id point] step IH];
    intros model model_id ids; simpl.
  - apply (preserves_ret (same_on evaluations)).
  - apply (preserves_bind (same_on evaluations)); [apply run_pass_evaluations|].
    intros [m mid]. destruct m; [apply IH|apply (preserves_ret (same_on evaluations))].
Qed.

(** A pruned loop stopped before the end of the step, and never looked
    at what follows. *)
Lemma run_passes_loop_pruned (eng : Engine) (step : list (string * json)) model model_id accel
    ids st model' model_id' ids' st' :
  _run_passes_loop eng step model model_id accel ids st
    = (Ok (true, model', model_id', ids'), st') ->
  (length ids' < length ids + length step)%nat /\
  forall rest,
    _run_passes_loop eng (step ++ rest) model model_id accel ids st
      = (Ok (true, model', model_id', ids'), st').
Proof.
  revert model model_id ids st.
  induction step as [|[pass_id point] step IH]; intros model model_id ids st Hloop;
    simpl in Hloop.
  - discriminate.
  - apply bind_inv_ok in Hloop as ([m mid] & s1 & Hpass & Hloop).
    destruct m as [m|].
    + apply IH in Hloop as (Hlen & Hrest). split.
      * rewrite length_app in Hlen. simpl in *. lia.
      * intros rest. simpl. erewrite bind_ok by exact Hpass. apply Hrest.
    + unfold ret in Hloop. simplify_eq. split; [simpl; lia|].
      intros rest. simpl. erewrite bind_ok by exact Hpass. reflexivity.
Qed.

Lemma evaluator_for_pass_ok (eng : Engine) (pass_id : string) (item : PassItem)
    (st : engine_state) :
  PyDict.get pass_id (passes st) = Some item ->
  evaluator_for_pass eng pass_id st =
    (Ok (match pi_evaluator item with
         | None => evaluator_config eng
         | Some e => Some e
         end), st).
Proof.
  intros Hitem. unfold evaluator_for_pass.
  erewrite bind_ok by (apply pass_item_ok; exact Hitem).
  destruct (pi_evaluator item); reflexivity.
Qed.


(** What a pruned step returns. *)
Lemma run_passes_pruned_inv (eng : Engine) (step : list (string * json))
    (model : option model_value) (model_id : string) (accel : AcceleratorSpec)
    (st st' : engine_state) (signal : option MetricResult) (model_ids : list string) :
  _run_passes eng step model model_id accel st = (Ok (true, signal, model_ids), st') ->
  signal = None /\ (length model_ids < length step)%nat.
Proof.
  unfold _run_passes. intros Hrun.
  apply bind_inv_ok in Hrun as ([[[prune m] mid] ids0] & s1 & Hloop & Hrun).
  destruct prune; simpl in Hrun.
  - unfold bind, emit, modify, ret in Hrun. simpl in Hrun. simplify_eq.
    destruct (run_passes_loop_pruned _ _ _ _ _ _ _ _ _ _ _ Hloop) as (Hlen & _).
    split; [reflexivity|exact Hlen].
  - destruct (last (map fst step)); [|discriminate].
    apply bind_inv_ok in Hrun as (ev & s2 & _ & Hrun).
    destruct (no_search eng && negb (bool_decide (ev <> None))).
    + discriminate.
    + apply bind_inv_ok in Hrun as (sig & s3 & _ & Hrun). discriminate.
Qed.

End RunPassesMore.

Section RunPassesTheorems.
Context `{OliveEnv}.

(** A pruned step has no signal, was never evaluated and has fewer model
    ids than passes; the passes after the pruned one play no part: the
    result is the same whatever follows. *)
Theorem pruned_step_stops (eng : Engine) (step : list (string * json))
    (model : option model_value) (model_id : string) (accel : AcceleratorSpec)
    (st st' : engine_state) (signal : option MetricResult) (model_ids : list string) :
  _run_passes eng step model model_id accel st = (Ok (true, signal, model_ids), st') ->
  signal = None /\
  (length model_ids < length step)%nat /\
  evaluations st' = evaluations st /\
  forall rest,
    _run_passes eng (step ++ rest) model model_id accel st = (Ok (true, None, model_ids), st').
Proof.
  unfold _run_passes. intros Hrun.
  apply bind_inv_ok in Hrun as ([[[prune m] mid] ids0] & s1 & Hloop & Hrun).
  pose proof (preserved _ _ _ _ _ (run_passes_loop_evaluations _ _ _ _ _ _) Hloop) as Hev.
  unfold same_on in Hev.
  destruct prune; simpl in Hrun.
  - unfold bind, emit, modify, ret in Hrun. simpl in Hrun. simplify_eq.
    destruct (run_passes_loop_pruned _ _ _ _ _ _ _ _ _ _ _ Hloop) as (Hlen & Hrest).
    split; [reflexivity|]. split; [simpl in Hlen; exact Hlen|]. split.
    + unfold evaluations in *. simpl. rewrite List.filter_app. simpl.
      rewrite app_nil_r. exact Hev.
    + intros rest. erewrite bind_ok by apply Hrest. reflexivity.
  - destruct (last (map fst step)); [|discriminate].
    apply bind_inv_ok in Hrun as (ev & s2 & _ & Hrun).
    destruct (no_search eng && negb (bool_decide (ev <> None))).
    + discriminate.
    + apply bind_inv_ok in Hrun as (sig & s3 & _ & Hrun). discriminate.
Qed.


End RunPassesTheorems.

(** ** More on [run] *)

Section RunMore.
Context `{OliveEnv}.
Variable run_search :
  Engine -> OliveModel -> string -> AcceleratorSpec -> option string -> M (list string).

Lemma run_accelerator_prefix_calls eng input_model accel :
  preserves (same_on (fun st => (host_calls st, evaluations st, run_warnings st, world st)))
            (run_accelerator_prefix eng input_model accel).
Proof.
  unfold run_accelerator_prefix, setup_passes, register_pass, fresh_name, _init_input_model,
    _cache_model, footprint_record, set_passes, set_pass_search_spaces, set_models_dir, emit.
  repeat (lazymatch goal with
          | |- preserves ?R (modify _) =>
              apply (preserves_modify R); intros ?; unfold same_on, host_calls, evaluations,
                run_warnings; simpl; rewrite ?List.filter_app; simpl; rewrite ?app_nil_r;
              reflexivity
          | |- _ => frame_step
          end).
Qed.

Lemma run_accelerator_prefix_total (eng : Engine) (input_model : OliveModel)
    (accel : AcceleratorSpec) (st : engine_state) :
  setup_ok eng accel ->
  exists input_model_id st1,
    run_accelerator_prefix eng input_model accel st = (Ok input_model_id, st1) /\
    PyDict.values (passes st1) = map (item_of accel) (PyDict.values (pass_config eng)) /\
    NoDup (PyDict.keys (passes st1)).
Proof.
  intros Hok.
  destruct (setup_passes_ok eng accel st Hok) as (s1 & Hsetup & Hvals & Hnd).
  destruct (cache_model_never_raises (Model input_model)
              (hash_dict (model_to_json false input_model)) false s1) as [s2 Hcache].
  pose proof (preserved _ _ _ _ _ (cache_model_passes _ _ _) Hcache) as Hp.
  unfold same_on in Hp.
  eexists. eexists. split.
  - unfold run_accelerator_prefix. erewrite bind_ok by exact Hsetup.
    unfold _init_input_model. erewrite bind_ok.
    2:{ erewrite bind_ok by exact Hcache. reflexivity. }
    erewrite bind_ok by reflexivity. reflexivity.
  - simpl. rewrite Hp. split; [exact Hvals|exact Hnd].
Qed.

(** When the [try] block of every accelerator raises, before it did
    anything, an exception that [run] does not propagate, the loop returns
    the outputs it started with. *)
Lemma run_accelerators_all_skipped (eng : Engine) (input_model : OliveModel)
    (output_name : option string) (evaluation_only : bool) (specs : list AcceleratorSpec)
    (outputs : list (AcceleratorSpec * run_output)) (st : engine_state) :
  (forall accel, accel ∈ specs -> setup_ok eng accel) ->
  (forall accel st0 input_model_id st1,
      accel ∈ specs ->
      run_accelerator_prefix eng input_model accel st0 = (Ok input_model_id, st1) ->
      exists e,
        run_accelerator_body run_search eng input_model input_model_id output_name
          evaluation_only accel outputs st1 = (Raise e, st1) /\
        EXCEPTIONS_TO_RAISE e = false) ->
  exists st',
    run_accelerators run_search eng input_model output_name evaluation_only specs outputs st
      = (Ok outputs, st') /\
    host_calls st' = host_calls st /\ evaluations st' = evaluations st /\
    world st' = world st /\
    run_warnings st' = (run_warnings st + length specs)%nat.
Proof.
  revert st. induction specs as [|accel specs IH]; intros st Hsetup Hbody.
  - exists st. simpl. repeat split; auto.
  - destruct (run_accelerator_prefix_total eng input_model accel st) as (id & st1 & Hprefix & _ & _).
    { apply Hsetup. left. }
    destruct (Hbody accel st id st1) as (e & Hraise & Hclass); [left|exact Hprefix|].
    pose proof (preserved _ _ _ _ _ (run_accelerator_prefix_calls eng input_model accel) Hprefix)
      as Hq.
    unfold same_on in Hq. injection Hq as Hh He Hw Hwo.
    set (st3 := with_trace (trace st1 ++ [EvLogWarning "Failed to run Olive"]) st1).
    destruct (IH st3) as (st' & Hrest & Hh' & He' & Hwo' & Hw').
    { intros a Ha. apply Hsetup. right. exact Ha. }
    { intros a s0 i s1 Ha. apply Hbody. right. exact Ha. }
    exists st'. split; [|split; [|split; [|split]]].
    + simpl. erewrite bind_ok; [exact Hrest|].
      rewrite run_accelerator_unfold. erewrite bind_ok by exact Hprefix.
      unfold try_except. rewrite Hraise. unfold run_accelerator_handler. rewrite Hclass.
      reflexivity.
    + rewrite Hh', <- Hh. unfold host_calls, st3. simpl.
      rewrite List.filter_app. simpl. rewrite app_nil_r. reflexivity.
    + rewrite He', <- He. unfold evaluations, st3. simpl.
      rewrite List.filter_app. simpl. rewrite app_nil_r. reflexivity.
    + rewrite Hwo', <- Hwo. reflexivity.
    + rewrite Hw'. unfold run_warnings in *. unfold st3. simpl.
      rewrite List.filter_app, length_app. simpl. rewrite Hw. lia.
Qed.

Lemma run_initialized (eng : Engine) (input_model : OliveModel) (packaging : bool)
    (output_name : option string) (evaluation_only : bool) (st st1 : engine_state)
    (outputs : list (AcceleratorSpec * run_output)) :
  initialized st = true ->
  run_accelerators run_search eng input_model output_name evaluation_only
    (accelerator_specs eng) [] st = (Ok outputs, st1) ->
  run run_search eng input_model packaging output_name evaluation_only st =
    (Ok outputs, if packaging then with_trace (trace st1 ++ [EvPackage]) st1 else st1).
Proof.
  intros Hinit Hloop. unfold run. erewrite bind_ok by reflexivity.
  rewrite Hinit. simpl. erewrite bind_ok by reflexivity.
  erewrite bind_ok by exact Hloop.
  destruct packaging; reflexivity.
Qed.

Lemma packaging_counts (packaging : bool) (st1 : engine_state) :
  let st' := if packaging then with_trace (trace st1 ++ [EvPackage]) st1 else st1 in
  host_calls st' = host_calls st1 /\ evaluations st' = evaluations st1 /\
  world st' = world st1 /\ run_warnings st' = run_warnings st1.
Proof.
  destruct packaging; simpl; [|auto].
  unfold host_calls, evaluations, run_warnings. simpl.
  rewrite !List.filter_app. simpl. rewrite !app_nil_r. auto.
Qed.


(** [run] without search on an engine with no pass registered does not
    fail either: the [IndexError] of [run_no_search] is caught for every
    accelerator, and the outputs are empty. *)
Theorem no_search_without_passes (eng : Engine) (input_model : OliveModel)
    (packaging : bool) (output_name : option string) (st : engine_state) :
  initialized st = true ->
  no_search eng = true ->
  pass_config eng = [] ->
  exists st',
    run run_search eng input_model packaging output_name false st = (Ok [], st') /\
    host_calls st' = host_calls st /\ evaluations st' = evaluations st /\
    world st' = world st /\
    run_warnings st' = (run_warnings st + length (accelerator_specs eng))%nat.
Proof.
  intros Hinit Hns Hempty.
  destruct (run_accelerators_all_skipped eng input_model output_name false
              (accelerator_specs eng) [] st) as (st1 & Hloop & Hh & He & Hwo & Hw).
  { intros accel _ _ config Hin. rewrite Hempty in Hin. inversion Hin. }
  { intros accel st0 id st1 _ Hprefix. exists (OtherException "IndexError").
    split; [|reflexivity].
    assert (Hpasses : passes st1 = []).
    { destruct (run_accelerator_prefix_total eng input_model accel st0) as (id' & s1' & Hp & Hv & _).
      { intros _ config Hin. rewrite Hempty in Hin. inversion Hin. }
      rewrite Hp in Hprefix. injection Hprefix as _ <-.
      rewrite Hempty in Hv. simpl in Hv. unfold PyDict.values in Hv.
      destruct (passes s1'); [reflexivity|discriminate]. }
    unfold run_accelerator_body. rewrite Hns.
    erewrite bind_raise; [reflexivity|].
    unfold run_no_search. erewrite bind_raise; [reflexivity|].
    unfold run_no_search_step. erewrite bind_ok by reflexivity.
    rewrite Hpasses. reflexivity. }
  destruct (packaging_counts packaging st1) as (Hh' & He' & Hwo' & Hw').
  eexists. split; [apply run_initialized; [exact Hinit|exact Hloop]|].
  cbv zeta in Hh', He', Hwo', Hw'. rewrite Hh', He', Hwo', Hw'. auto.
Qed.

Lemma initialize_calls (eng : Engine) :
  preserves (same_on host_calls) (initialize eng).
Proof. frame. Qed.

Lemma run_accelerator_eval_only_calls (eng : Engine) (input_model : OliveModel)
    (output_name : option string) (accel : AcceleratorSpec)
    (outputs : list (AcceleratorSpec * run_output)) :
  preserves (same_on host_calls)
            (run_accelerator run_search eng input_model output_name true accel outputs).
Proof.
  unfold run_accelerator, run_accelerator_body. cbv iota. frame.
Qed.

Lemma run_accelerators_eval_only_calls (eng : Engine) (input_model : OliveModel)
    (output_name : option string) (specs : list AcceleratorSpec)
    (outputs : list (AcceleratorSpec * run_output)) :
  preserves (same_on host_calls)
            (run_accelerators run_search eng input_model output_name true specs outputs).
Proof.
  revert outputs. induction specs as [|accel specs IH]; intros outputs; simpl.
  - apply (preserves_ret (same_on host_calls)).
  - apply (preserves_bind (same_on host_calls)); [apply run_accelerator_eval_only_calls|].
    intros outs. apply IH.
Qed.

(** [run] with [evaluation_only] never runs a pass, whatever it returns
    or raises. *)
Theorem evaluation_only_runs_no_pass (eng : Engine) (input_model : OliveModel)
    (packaging : bool) (output_name : option string) (st st' : engine_state)
    (r : result (list (AcceleratorSpec * run_output))) :
  run run_search eng input_model packaging output_name true st = (r, st') ->
  host_calls st' = host_calls st.
Proof.
  apply (preserved (same_on host_calls)).
  unfold run.
  apply (preserves_bind (same_on host_calls)); [apply (preserves_get_state _)|]. intros s.
  apply (preserves_bind (same_on host_calls)).
  { destruct (negb (initialized s)); [apply initialize_calls|apply (preserves_ret _)]. }
  intros _. apply (preserves_bind (same_on host_calls));
    [apply run_accelerators_eval_only_calls|].
  intros outs. frame.
Qed.



End RunMore.

(** ** More on [run_no_search] *)

Section NoSearchMore.
Context `{OliveEnv}.

Lemma run_no_search_step_inv (eng : Engine) (input_model : OliveModel)
    (input_model_id : string) (accel : AcceleratorSpec) (st st1 : engine_state)
    (step : list (string * json)) (prune : bool) (signal : option MetricResult)
    (ids : list string) :
  run_no_search_step eng input_model input_model_id accel st
    = (Ok (step, prune, signal, ids), st1) ->
  exists model model_id st0,
    _run_passes eng step model model_id accel st0 = (Ok (prune, signal, ids), st1).
Proof.
  unfold run_no_search_step. intros Hstep.
  apply bind_inv_ok in Hstep as (s0 & s0' & _ & Hstep).
  apply bind_inv_ok in Hstep as ([] & s1 & _ & Hstep).
  destruct (last (PyDict.keys (passes s0))); [|discriminate].
  apply bind_inv_ok in Hstep as (ev & s2 & _ & Hstep).
  apply bind_inv_ok in Hstep as (objective & s3 & _ & Hstep).
  apply bind_inv_ok in Hstep as (s4 & s4' & _ & Hstep).
  apply bind_inv_ok in Hstep as ([next|] & s5 & _ & Hstep); [|discriminate].
  apply bind_inv_ok in Hstep as (model & s6 & _ & Hstep).
  apply bind_inv_ok in Hstep as ([[prune' sig] ids0] & s7 & Hrun & Hstep).
  unfold ret in Hstep. simplify_eq. eauto.
Qed.

Lemma zip_set_last_short {A B} (l : list A) (ids : list B) (x : A) :
  (length ids < length l)%nat -> zip (set_last l x) ids = zip l ids.
Proof.
  revert ids. induction l as [|a l IH]; intros ids Hlen; [simpl in Hlen; lia|].
  destruct l as [|b l].
  - destruct ids; [reflexivity|simpl in Hlen; lia].
  - destruct ids as [|i ids]; [reflexivity|].
    specialize (IH ids ltac:(simpl in *; lia)).
    unfold set_last in *. simpl removelast in *. simpl in *. rewrite IH. reflexivity.
Qed.

Lemma save_outputs_unnamed (named : list (option string * string)) (acc : option json)
    (st : engine_state) :
  (forall n, n ∈ map fst named -> str_truthy n = false) ->
  save_outputs named acc st = (Ok acc, st).
Proof.
  induction named as [|[n i] named IH]; intros Hnone; simpl; [reflexivity|].
  rewrite (Hnone n) by left. simpl. apply IH.
  intros n' Hin. apply Hnone. right. exact Hin.
Qed.

Lemma registered_output_names_unnamed (registry : list (string * PassItem))
    (step : list (string * json)) :
  (forall pass_id, pass_id ∈ map fst step ->
     exists item, PyDict.get pass_id registry = Some item /\
                  str_truthy (pi_output_name item) = false) ->
  exists names,
    registered_output_names registry step = Ok names /\
    length names = length step /\
    forall n, n ∈ names -> str_truthy n = false.
Proof.
  induction step as [|[pass_id point] step IH]; intros Hreg.
  - exists []. split; [reflexivity|]. split; [reflexivity|]. intros n Hin. inversion Hin.
  - destruct IH as (names & Hnames & Hlen & Hnone).
    { intros id Hin. apply Hreg. right. exact Hin. }
    destruct (Hreg pass_id ltac:(left)) as (item & Hitem & Hname).
    exists (pi_output_name item :: names). simpl. rewrite Hitem, Hnames.
    split; [reflexivity|]. split; [simpl; congruence|].
    intros n [->|Hin]%elem_of_cons; auto.
Qed.

Lemma elem_of_zip_fst {A B} (l : list A) (k : list B) (a : A) :
  a ∈ map fst (zip l k) -> a ∈ l.
Proof.
  revert k. induction l as [|x l IH]; intros k Hin; [inversion Hin|].
  destruct k as [|y k]; [inversion Hin|]. simpl in Hin.
  apply elem_of_cons in Hin as [->|Hin]; [left|right; eapply IH; exact Hin].
Qed.

End NoSearchMore.

Section NoSearchTheorems.
Context `{OliveEnv}.

(** Without search, a pruned step in which no pass has an output name of
    its own gives no output: nothing is saved, no metrics are written and
    [run_no_search] returns [None], also when the engine was given an
    output name. *)
Theorem pruned_step_gives_no_output (eng : Engine) (input_model : OliveModel)
    (input_model_id : string) (accel : AcceleratorSpec) (output_name : option string)
    (st st1 : engine_state) (step : list (string * json)) (signal : option MetricResult)
    (model_ids : list string) :
  run_no_search_step eng input_model input_model_id accel st
    = (Ok (step, true, signal, model_ids), st1) ->
  (forall pass_id, pass_id ∈ map fst step ->
     exists item, PyDict.get pass_id (passes st1) = Some item /\
                  str_truthy (pi_output_name item) = false) ->
  run_no_search eng input_model input_model_id accel output_name st = (Ok None, st1).
Proof.
  intros Hstep Hreg.
  destruct (run_no_search_step_inv _ _ _ _ _ _ _ _ _ _ Hstep) as (model & mid & st0 & Hrun).
  destruct (run_passes_pruned_inv _ _ _ _ _ _ _ _ _ Hrun) as (-> & Hlen).
  destruct (registered_output_names_unnamed (passes st1) step Hreg)
    as (names & Hnames & Hnlen & Hnone).
  set (pnames := map (pass_output_name accel) names).
  assert (Hpnone : forall n, n ∈ pnames -> str_truthy n = false).
  { intros n Hin. unfold pnames in Hin.
    apply list_elem_of_In, in_map_iff in Hin as (n0 & <- & Hin0).
    unfold pass_output_name. rewrite (Hnone n0) by (apply list_elem_of_In; exact Hin0).
    reflexivity. }
  assert (Hplen : length pnames = length step) by (unfold pnames; rewrite length_map; exact Hnlen).
  destruct (last pnames) as [last_name|] eqn:Hlast.
  2:{ apply last_None in Hlast. rewrite Hlast in Hplen. simpl in Hplen. lia. }
  unfold run_no_search. erewrite bind_ok by exact Hstep.
  unfold run_no_search_outputs.
  erewrite bind_ok by reflexivity.
  erewrite bind_ok by (rewrite Hnames; reflexivity).
  cbv zeta. fold pnames. rewrite Hlast.
  rewrite zip_set_last_short by lia.
  erewrite bind_ok.
  2:{ apply save_outputs_unnamed. intros n Hin. apply Hpnone.
      eapply elem_of_zip_fst. exact Hin. }
  erewrite bind_ok by reflexivity. reflexivity.
Qed.

End NoSearchTheorems.

(** ** [resolve_objectives] *)

Section ObjectivesMore.
Context `{OliveEnv}.

Lemma keys_set_elem {V : Type} (k k' : string) (v : V) (d : list (string * V)) :
  k' ∈ PyDict.keys (PyDict.set k v d) <-> k' = k \/ k' ∈ PyDict.keys d.
Proof.
  induction d as [|[k0 v0] d IH]; simpl.
  - rewrite list_elem_of_singleton. split; [auto|]. intros [?|Hin]; [auto|inversion Hin].
  - destruct (decide (k0 = k)) as [->|Hne]; simpl.
    + rewrite !elem_of_cons. tauto.
    + rewrite !elem_of_cons, IH. tauto.
Qed.

Lemma keys_set_nodup {V : Type} (k : string) (v : V) (d : list (string * V)) :
  NoDup (PyDict.keys d) -> NoDup (PyDict.keys (PyDict.set k v d)).
Proof.
  induction d as [|[k0 v0] d IH]; simpl; intros Hnd.
  - apply NoDup_singleton.
  - apply NoDup_cons in Hnd as [Hk0 Hnd].
    destruct (decide (k0 = k)) as [->|Hne]; simpl.
    + apply NoDup_cons. split; assumption.
    + apply NoDup_cons. split; [|apply IH; exact Hnd].
      intros Hin. apply keys_set_elem in Hin as [->|Hin]; [contradiction|contradiction].
Qed.

(** The dictionary before it is sorted: one assignment per sub-metric
    with a positive priority, in the order of the metrics. *)
Lemma objective_dict_flat (goals : list (string * option float)) (metrics : list Metric)
    (d : list (string * Objective)) :
  fold_left (fun d metric =>
    fold_left (fun d sub_type =>
      if sub_priority sub_type <=? 0 then d
      else
        let metric_key := joint_metric_key (metric_name metric) (sub_name sub_type) in
        PyDict.set metric_key
          (mkObjective (sub_higher_is_better sub_type) (goal_for goals metric_key)
                       (Some (sub_priority sub_type))) d)
      (sub_types metric) d)
    metrics d =
  fold_left (fun d ms =>
               PyDict.set (joint_metric_key (metric_name (fst ms)) (sub_name (snd ms)))
                 (objective_of goals (fst ms) (snd ms)) d)
            (flat_map (fun m => map (fun s => (m, s)) (prioritized m)) metrics) d.
Proof.
  revert d. induction metrics as [|m metrics IH]; intros d; simpl; [reflexivity|].
  rewrite fold_left_app, IH. f_equal.
  unfold prioritized. generalize (sub_types m). intros subs. revert d.
  induction subs as [|s subs IHs]; intros d; simpl; [reflexivity|].
  destruct (sub_priority s <=? 0); simpl; apply IHs.
Qed.

Lemma fold_set_spec {X V : Type} (key : X -> string) (val : X -> V) (xs : list X)
    (d : list (string * V)) :
  let d' := fold_left (fun d x => PyDict.set (key x) (val x) d) xs d in
  (NoDup (PyDict.keys d) -> NoDup (PyDict.keys d')) /\
  (forall k, k ∈ PyDict.keys d' <-> k ∈ PyDict.keys d \/ exists x, x ∈ xs /\ k = key x) /\
  (forall kv, kv ∈ d' -> kv ∈ d \/ exists x, x ∈ xs /\ kv = (key x, val x)).
Proof.
  revert d. induction xs as [|x xs IH]; intros d; simpl.
  - split; [auto|]. split; [|auto].
    intros k. split; [auto|]. intros [?|(x & Hin & _)]; [auto|inversion Hin].
  - destruct (IH (PyDict.set (key x) (val x) d)) as (Hnd & Hkeys & Hmem).
    split; [|split].
    + intros Hd. apply Hnd. apply keys_set_nodup. exact Hd.
    + intros k. rewrite Hkeys, keys_set_elem. split.
      * intros [[->|Hin]|(y & Hy & ->)]; [right; exists x; split; [left|reflexivity]|auto|].
        right. exists y. split; [right; exact Hy|reflexivity].
      * intros [Hin|(y & [->|Hy]%elem_of_cons & ->)]; [auto|auto|].
        right. exists y. auto.
    + intros kv Hin. destruct (Hmem kv Hin) as [Hset|(y & Hy & ->)].
      * apply elem_of_set in Hset as [->|Hold]; [|auto].
        right. exists x. split; [left|reflexivity].
      * right. exists y. split; [right; exact Hy|reflexivity].
Qed.

Lemma insert_by_priority_perm x l : insert_by_priority x l ≡ₚ x :: l.
Proof.
  induction l as [|y l IH]; simpl; [reflexivity|].
  destruct (_ <=? _); [reflexivity|]. rewrite IH. apply Permutation_swap.
Qed.

Lemma sort_by_priority_perm l : sort_by_priority l ≡ₚ l.
Proof.
  induction l as [|x l IH]; simpl; [reflexivity|].
  unfold sort_by_priority in *. simpl. rewrite insert_by_priority_perm, IH. reflexivity.
Qed.

Lemma insert_by_priority_sorted x l :
  StronglySorted ranked_before l -> StronglySorted ranked_before (insert_by_priority x l).
Proof.
  induction l as [|y l IH]; simpl; intros Hs.
  - repeat constructor.
  - apply StronglySorted_inv in Hs as [Hs Hall].
    destruct (_ <=? _) eqn:Hle.
    + apply Z.leb_le in Hle. constructor; [constructor; assumption|].
      constructor; [exact Hle|].
      eapply Forall_impl; [exact Hall|]. intros z Hz. unfold ranked_before in *. lia.
    + apply Z.leb_gt in Hle. constructor; [apply IH; exact Hs|].
      rewrite insert_by_priority_perm. constructor; [unfold ranked_before; lia|exact Hall].
Qed.

Lemma sort_by_priority_sorted l : StronglySorted ranked_before (sort_by_priority l).
Proof.
  induction l as [|x l IH]; simpl; [constructor|].
  unfold sort_by_priority in *. simpl. apply insert_by_priority_sorted. exact IH.
Qed.

End ObjectivesMore.

Section ObjectivesTheorems.
Context `{OliveEnv}.

(** [resolve_objectives] returns whenever [resolve_goals] does.  The
    objectives are ranked by priority, lowest number first; their keys
    are pairwise distinct and are exactly the joint keys of the
    sub-metrics with a positive priority; each objective carries the
    direction and the priority of such a sub-metric and the goal resolved
    for its key, if any. *)
Theorem objectives_are_ranked (eng : Engine) (input_model : OliveModel)
    (input_model_id : string) (metrics : list Metric) (accel : AcceleratorSpec)
    (st st' : engine_state) (goals : list (string * option float)) :
  resolve_goals eng input_model input_model_id metrics accel st = (Ok goals, st') ->
  exists objectives,
    resolve_objectives eng input_model input_model_id metrics accel st = (Ok objectives, st') /\
    StronglySorted ranked_before objectives /\
    NoDup (PyDict.keys objectives) /\
    (forall key, key ∈ PyDict.keys objectives <->
       exists m s, m ∈ metrics /\ s ∈ sub_types m /\ 0 < sub_priority s /\
                   key = joint_metric_key (metric_name m) (sub_name s)) /\
    (forall key objective, (key, objective) ∈ objectives ->
       exists m s, m ∈ metrics /\ s ∈ sub_types m /\ 0 < sub_priority s /\
                   key = joint_metric_key (metric_name m) (sub_name s) /\
                   objective = mkObjective (sub_higher_is_better s) (goal_for goals key)
                                 (Some (sub_priority s))).
Proof.
  intros Hgoals.
  set (items := flat_map (fun m => map (fun s => (m, s)) (prioritized m)) metrics).
  assert (Hitems : forall ms, ms ∈ items <->
            fst ms ∈ metrics /\ snd ms ∈ sub_types (fst ms) /\ 0 < sub_priority (snd ms)).
  { intros [m s]. unfold items. rewrite list_elem_of_In, in_flat_map. simpl. split.
    - intros (m' & Hm' & Hin). apply in_map_iff in Hin as (s' & [= <- <-] & Hs').
      unfold prioritized in Hs'. apply filter_In in Hs' as [Hs' Hp].
      apply negb_true_iff, Z.leb_gt in Hp.
      split; [apply list_elem_of_In; exact Hm'|]. split; [apply list_elem_of_In; exact Hs'|lia].
    - intros (Hm & Hs & Hp). exists m. split; [apply list_elem_of_In; exact Hm|].
      apply in_map_iff. exists s. split; [reflexivity|].
      unfold prioritized. apply filter_In. split; [apply list_elem_of_In; exact Hs|].
      apply negb_true_iff, Z.leb_gt. lia. }
  destruct (fold_set_spec
              (fun ms : Metric * SubMetric =>
                 joint_metric_key (metric_name (fst ms)) (sub_name (snd ms)))
              (fun ms => objective_of goals (fst ms) (snd ms)) items [])
    as (Hnd & Hkeys & Hmem).
  cbv zeta in Hnd, Hkeys, Hmem.
  set (dict := fold_left _ items []) in *.
  exists (sort_by_priority dict). split; [|split; [|split; [|split]]].
  - unfold resolve_objectives. erewrite bind_ok by exact Hgoals.
    cbv zeta. rewrite objective_dict_flat. reflexivity.
  - apply sort_by_priority_sorted.
  - unfold PyDict.keys.
    rewrite (Permutation_map fst (sort_by_priority_perm dict)).
    apply Hnd. apply NoDup_nil_2.
  - intros key. unfold PyDict.keys.
    rewrite (Permutation_map fst (sort_by_priority_perm dict)).
    fold (PyDict.keys dict). rewrite Hkeys. split.
    + intros [Hnil|(ms & Hin & ->)]; [inversion Hnil|].
      apply Hitems in Hin as (Hm & Hs & Hp). exists (fst ms), (snd ms). auto.
    + intros (m & s & Hm & Hs & Hp & ->). right. exists (m, s).
      split; [apply Hitems; auto|reflexivity].
  - intros key objective Hin.
    rewrite (sort_by_priority_perm dict) in Hin.
    destruct (Hmem _ Hin) as [Hnil|(ms & Hms & Heq)]; [inversion Hnil|].
    apply Hitems in Hms as (Hm & Hs & Hp). injection Heq as -> ->.
    exists (fst ms), (snd ms). repeat split; auto.
Qed.

End ObjectivesTheorems.

(** ** The evaluation cache *)

Section StringSuffix.

Lemma substring_all (s : string) : substring 0 (String.length s) s = s.
Proof. induction s as [|c s IH]; simpl; [reflexivity|]. rewrite IH. reflexivity. Qed.

Lemma substring_skip (s t : string) (n : nat) :
  substring (String.length s) n (s +:+ t) = substring 0 n t.
Proof.
  induction s as [|c s IH]; [reflexivity|].
  change (String c s +:+ t) with (String c (s +:+ t)). simpl. exact IH.
Qed.

Lemma endswith_app (s suffix : string) : endswith suffix (s +:+ suffix) = true.
Proof.
  unfold endswith. rewrite append_length.
  apply andb_true_intro. split; [apply Nat.leb_le; lia|].
  replace (String.length s + String.length suffix - String.length suffix)%nat
    with (String.length s) by lia.
  rewrite substring_skip, substring_all. apply String.eqb_refl.
Qed.

End StringSuffix.

Section EvaluationTheorems.
Context `{OliveEnv}.
Variable signal_dict : MetricResult -> json.
Variable signal_of_dict : json -> result MetricResult.
Variable evaluate_model :
  OliveSystem -> option model_value -> list Metric -> AcceleratorSpec -> World ->
  result MetricResult * World.

(** The key of a model in the evaluation cache ends with "-" and the
    accelerator; a model id that already ends so is its own key.  So a
    model id and the same id followed by "-<accelerator>" share one
    evaluation file. *)
Theorem evaluation_key_is_normalised (model_id : string) (accel : AcceleratorSpec) :
  let key := model_id_with_accelerator model_id accel in
  endswith ("-" +:+ accel_str accel) key = true /\
  model_id_with_accelerator key accel = key /\
  model_id_with_accelerator (model_id +:+ "-" +:+ accel_str accel) accel
    = model_id +:+ "-" +:+ accel_str accel /\
  (key = model_id \/ key = model_id +:+ "-" +:+ accel_str accel).
Proof.
  intros key.
  assert (Hends : endswith ("-" +:+ accel_str accel) key = true).
  { unfold key, model_id_with_accelerator. cbv zeta.
    destruct (endswith ("-" +:+ accel_str accel) model_id) eqn:He; simpl;
      [exact He|apply endswith_app]. }
  split; [exact Hends|]. split; [|split].
  - unfold model_id_with_accelerator at 1. cbv zeta. rewrite Hends. reflexivity.
  - unfold model_id_with_accelerator. cbv zeta.
    rewrite (endswith_app model_id ("-" +:+ accel_str accel)). reflexivity.
  - unfold key, model_id_with_accelerator. cbv zeta.
    destruct (endswith _ model_id); simpl; auto.
Qed.

Lemma load_evaluation_hit (evaluations : gmap string dirent) (model_id : string)
    (evaluation_json signal_json : json) (signal : MetricResult) (st : engine_state) :
  evaluations !! get_evaluation_json_path model_id = Some (EFile (JsonText evaluation_json)) ->
  evaluation_signal evaluation_json = Ok signal_json ->
  signal_of_dict signal_json = Ok signal ->
  _load_evaluation signal_of_dict evaluations model_id st = (Ok (Some signal), st).
Proof.
  intros Hfile Hfield Hsignal. unfold _load_evaluation. rewrite Hfile.
  unfold try_except, bind, read_json. rewrite Hfile. simpl.
  rewrite Hfield. simpl. rewrite Hsignal. reflexivity.
Qed.

(** A signal that [_load_evaluation] returns was read from the file. *)
Lemma load_evaluation_inv (evaluations : gmap string dirent) (model_id : string)
    (st : engine_state) :
  exists r st',
    _load_evaluation signal_of_dict evaluations model_id st = (Ok r, st') /\
    forall signal, r = Some signal ->
      st' = st /\
      exists evaluation_json signal_json,
        evaluations !! get_evaluation_json_path model_id
          = Some (EFile (JsonText evaluation_json)) /\
        evaluation_signal evaluation_json = Ok signal_json /\
        signal_of_dict signal_json = Ok signal.
Proof.
  unfold _load_evaluation.
  destruct (evaluations !! get_evaluation_json_path model_id) as [entry|] eqn:Hentry.
  2:{ exists None, st. split; [reflexivity|discriminate]. }
  unfold try_except, bind, read_json. rewrite Hentry.
  destruct entry as [[j|]|]; simpl;
    try (eexists; eexists; split; [reflexivity|discriminate]).
  destruct (evaluation_signal j) as [sj|e] eqn:Hfield; simpl;
    try (eexists; eexists; split; [reflexivity|discriminate]).
  destruct (signal_of_dict sj) as [sig|e] eqn:Hsig; simpl;
    try (eexists; eexists; split; [reflexivity|discriminate]).
  exists (Some sig), st. split; [reflexivity|].
  intros signal [= <-]. split; [reflexivity|]. exists j, sj. auto.
Qed.

(** [_load_evaluation] never raises: a file that is missing gives [None];
    one that cannot be read, has no "signal" or whose signal
    [MetricResult] refuses gives [None] and an error in the log.  It
    touches nothing else. *)
Theorem load_evaluation_is_contained (evaluations : gmap string dirent) (model_id : string)
    (st : engine_state) :
  exists r st',
    _load_evaluation signal_of_dict evaluations model_id st = (Ok r, st') /\
    world st' = world st /\ models_dir st' = models_dir st /\ runs_dir st' = runs_dir st /\
    (evaluations !! get_evaluation_json_path model_id = None -> r = None /\ st' = st) /\
    (forall signal, r = Some signal ->
       st' = st /\
       exists evaluation_json signal_json,
         evaluations !! get_evaluation_json_path model_id
           = Some (EFile (JsonText evaluation_json)) /\
         evaluation_signal evaluation_json = Ok signal_json /\
         signal_of_dict signal_json = Ok signal).
Proof.
  unfold _load_evaluation.
  destruct (evaluations !! get_evaluation_json_path model_id) as [entry|] eqn:Hentry.
  2:{ exists None, st. repeat split; auto. discriminate. }
  unfold try_except, bind, read_json. rewrite Hentry.
  destruct entry as [[j|]|]; simpl;
    try (eexists; eexists; split; [reflexivity|]; simpl; repeat split; discriminate).
  destruct (evaluation_signal j) as [sj|e] eqn:Hfield; simpl;
    try (eexists; eexists; split; [reflexivity|]; simpl; repeat split; discriminate).
  destruct (signal_of_dict sj) as [sig|e] eqn:Hsig; simpl;
    try (eexists; eexists; split; [reflexivity|]; simpl; repeat split; discriminate).
  exists (Some sig), st. split; [reflexivity|]. split; [reflexivity|].
  split; [reflexivity|]. split; [reflexivity|]. split; [discriminate|].
  intros signal [= <-]. split; [reflexivity|]. exists j, sj. auto.
Qed.

(** An evaluation that returned is in the cache: evaluating the same
    model id for the same accelerator again returns the same signal from
    the file, whatever model and evaluator are passed, and the target is
    not asked (the outside world is as it was).  [MetricResult] is assumed
    to read back the dictionary it wrote. *)
Theorem evaluation_is_cached (eng : Engine) (evaluations evaluations1 : gmap string dirent)
    (model : option model_value) (model_id : string)
    (evaluator_config : option OliveEvaluatorConfig) (accel : AcceleratorSpec)
    (st st1 : engine_state) (signal : MetricResult) :
  _evaluate_model_cached signal_dict signal_of_dict evaluate_model eng evaluations model
    model_id evaluator_config accel st = (Ok (signal, evaluations1), st1) ->
  evaluations !! get_evaluation_json_path (model_id_with_accelerator model_id accel)
    <> Some EDir ->
  signal_of_dict (signal_dict signal) = Ok signal ->
  forall model2 evaluator_config2 st2,
    _evaluate_model_cached signal_dict signal_of_dict evaluate_model eng evaluations1 model2
      model_id evaluator_config2 accel st2
    = (Ok (signal, evaluations1),
       with_footprints
         (footprints st2 ++
            [(accel, mkFootprintRecord model_id None None None None (Some signal))]) st2).
Proof.
  intros Hfirst Hdir Hround model2 ec2 st2.
  set (key := model_id_with_accelerator model_id accel) in *.
  assert (Hfile : exists evaluation_json signal_json,
            evaluations1 !! get_evaluation_json_path key
              = Some (EFile (JsonText evaluation_json)) /\
            evaluation_signal evaluation_json = Ok signal_json /\
            signal_of_dict signal_json = Ok signal).
  { unfold _evaluate_model_cached in Hfirst. fold key in Hfirst. cbv zeta in Hfirst.
    destruct (load_evaluation_inv evaluations key st) as (r & sa & Hload & Hsome).
    erewrite bind_ok in Hfirst by exact Hload.
    destruct r as [sig|].
    - destruct (Hsome sig eq_refl) as (-> & Hex).
      unfold bind, footprint_record, modify, ret in Hfirst. simpl in Hfirst.
      injection Hfirst as <- <- _. exact Hex.
    - apply bind_inv_ok in Hfirst as (m' & sb & _ & Hfirst).
      apply bind_inv_ok in Hfirst as (sig & sc & _ & Hfirst).
      apply bind_inv_ok in Hfirst as (evs & sd & Hcache & Hfirst).
      unfold bind, footprint_record, modify, ret in Hfirst. simpl in Hfirst.
      injection Hfirst as <- <- _.
      unfold _cache_evaluation, try_except, write_json in Hcache.
      destruct (evaluations !! get_evaluation_json_path key) as [[f|]|] eqn:Hentry;
        try contradiction; simpl in Hcache; injection Hcache as <- _;
        (eexists; eexists; split; [apply lookup_insert_eq|]; split; [reflexivity|exact Hround]). }
  destruct Hfile as (ej & sj & Hfile & Hfield & Hsig).
  unfold _evaluate_model_cached. fold key. cbv zeta.
  erewrite bind_ok by (eapply load_evaluation_hit; eassumption).
  reflexivity.
Qed.

(** [_cache_evaluation] never raises; when the file's path is a directory
    it logs an error and leaves [evaluations/] as it was. *)
Lemma cache_evaluation_is_contained (evaluations : gmap string dirent) (model_id : string)
    (signal : MetricResult) (st : engine_state) :
  exists evaluations' st',
    _cache_evaluation signal_dict evaluations model_id signal st = (Ok evaluations', st') /\
    world st' = world st /\
    (forall name, name <> get_evaluation_json_path model_id ->
                  evaluations' !! name = evaluations !! name) /\
    (evaluations !! get_evaluation_json_path model_id = Some EDir ->
     evaluations' = evaluations /\
     trace st' = (trace st ++ [EvLogError "Failed to cache evaluation"])%list) /\
    (evaluations !! get_evaluation_json_path model_id <> Some EDir ->
     st' = st /\
     evaluations' !! get_evaluation_json_path model_id =
       Some (EFile (JsonText (JObj [("model_id", JStr model_id);
                                    ("signal", signal_dict signal)])))).
Proof.
  unfold _cache_evaluation, try_except, write_json.
  destruct (evaluations !! get_evaluation_json_path model_id) as [[f|]|] eqn:Hentry; simpl.
  - eexists. eexists. split; [reflexivity|]. split; [reflexivity|]. split; [|split].
    + intros name Hne. apply lookup_insert_ne. congruence.
    + discriminate.
    + intros _. split; [reflexivity|]. apply lookup_insert_eq.
  - eexists. eexists. split; [reflexivity|]. split; [reflexivity|]. split; [auto|]. split.
    + intros _. split; reflexivity.
    + intros Hne. contradiction.
  - eexists. eexists. split; [reflexivity|]. split; [reflexivity|]. split; [|split].
    + intros name Hne. apply lookup_insert_ne. congruence.
    + discriminate.
    + intros _. split; [reflexivity|]. apply lookup_insert_eq.
Qed.

End EvaluationTheorems.

(** ** [run_search] without an evaluator *)

Section SearchMore.
Context `{OliveEnv}.
Variable search_loop :
  Engine -> OliveModel -> string -> AcceleratorSpec -> option string ->
  list (string * Objective) -> M (list string).

Lemma last_key_value {V : Type} (d : list (string * V)) (v : V) :
  NoDup (PyDict.keys d) -> last (PyDict.values d) = Some v ->
  exists k, last (PyDict.keys d) = Some k /\ PyDict.get k d = Some v.
Proof.
  induction d as [|[k0 v0] d IH]; intros Hnd Hlast; [discriminate|].
  simpl in Hnd. apply NoDup_cons in Hnd as [Hk0 Hnd].
  destruct d as [|[k1 v1] d].
  - simpl in Hlast. injection Hlast as <-. exists k0. split; [reflexivity|].
    simpl. destruct (decide (k0 = k0)); [reflexivity|contradiction].
  - destruct (IH Hnd Hlast) as (k & Hk & Hget). exists k. split; [exact Hk|].
    simpl. destruct (decide (k0 = k)) as [->|Hne].
    + exfalso. apply Hk0. apply last_Some in Hk as [l' Hl']. rewrite Hl'.
      apply elem_of_app. right. left.
    + exact Hget.
Qed.

(** With search enabled, [run] raises [ValueError] at the first
    accelerator when neither the last registered pass nor the engine has
    an evaluator: no pass has run and nothing was evaluated.  (With
    [evaluation_only] the missing evaluator is an assertion error, which
    [run] catches.) *)
Theorem search_needs_an_evaluator (eng : Engine) (input_model : OliveModel)
    (packaging : bool) (output_name : option string) (accel : AcceleratorSpec)
    (rest : list AcceleratorSpec) (last_config : PassDescriptor) (st : engine_state) :
  initialized st = true ->
  no_search eng = false ->
  accelerator_specs eng = accel :: rest ->
  evaluator_config eng = None ->
  last (PyDict.values (pass_config eng)) = Some last_config ->
  pd_evaluator last_config = None ->
  exists st',
    run (run_search search_loop) eng input_model packaging output_name false st
      = (Raise ValueError, st') /\
    host_calls st' = host_calls st /\ evaluations st' = evaluations st /\
    world st' = world st.
Proof.
  intros Hinit Hsearch Hspecs Hnone Hlast Hev.
  destruct (run_accelerator_prefix_total eng input_model accel st)
    as (id & st1 & Hprefix & Hvals & Hnd).
  { intros Hns. congruence. }
  pose proof (preserved _ _ _ _ _ (run_accelerator_prefix_calls eng input_model accel) Hprefix)
    as Hq.
  unfold same_on in Hq. injection Hq as Hh He _ Hw.
  destruct (last_key_value (passes st1) (item_of accel last_config) Hnd)
    as (last_pass & Hkey & Hitem).
  { rewrite Hvals. change (map (item_of accel) (PyDict.values (pass_config eng)))
      with (item_of accel <$> PyDict.values (pass_config eng)).
    rewrite fmap_last, Hlast. reflexivity. }
  assert (Hbody : run_accelerator_body (run_search search_loop) eng input_model id
                    output_name false accel [] st1 = (Raise ValueError, st1)).
  { unfold run_accelerator_body. rewrite Hsearch.
    erewrite bind_raise; [reflexivity|].
    unfold run_search. erewrite bind_raise; [reflexivity|].
    unfold run_search_objectives. erewrite bind_ok by reflexivity. rewrite Hkey.
    erewrite bind_ok by (apply evaluator_for_pass_ok; exact Hitem).
    simpl. rewrite Hev, Hnone. reflexivity. }
  exists st1. split; [|auto].
  apply run_propagates; [exact Hinit|]. rewrite Hspecs. simpl.
  erewrite bind_raise; [reflexivity|].
  rewrite run_accelerator_unfold. erewrite bind_ok by exact Hprefix.
  unfold try_except. rewrite Hbody. reflexivity.
Qed.

End SearchMore.

(* ================================================================== *)
(** * Part III. The properties on the small environment                *)
(* ================================================================== *)

Import Ex.

(** [setup_passes] registers the pass of [conv_engine] under its class
    name: [conv_state] is the state it leaves. *)
Example conv_state_is_set_up :
  setup_passes (conv_engine true good_host) cpu_spec empty_state = (Ok tt, conv_state).
Proof. vm_compute. reflexivity. Qed.

(** ** The cache of runs *)

(** [run_pass_is_cached] on the one-pass engine: the second execution
    starts from the state the first one left. *)
Lemma run_pass_is_cached_witness :
  let eng := conv_engine true good_host in
  let id := "0_ConvPass-m0id-h0-cpu-CPUExecutionProvider" in
  let st1' := snd (_run_pass eng "ConvPass" (JObj []) (Some (Model "m0")) "m0id" cpu_spec
                     conv_state) in
  _run_pass eng "ConvPass" (JObj []) (Some (Model "m0")) "m0id" cpu_spec conv_state
    = (Ok (Model "out:ConvPass", id), st1') /\
  exists output_model2 st2',
    _run_pass eng "ConvPass" (JObj []) (Some (Model "m0")) "m0id" cpu_spec st1'
      = (Ok (output_model2, id), st2') /\
    host_calls st2' = host_calls st1' /\ world st2' = world st1'.
Proof.
  intros eng id st1'.
  assert (Hrun : _run_pass eng "ConvPass" (JObj []) (Some (Model "m0")) "m0id" cpu_spec conv_state
                 = (Ok (Model "out:ConvPass", id), st1')) by (vm_compute; reflexivity).
  split; [exact Hrun|].
  refine (proj1 (run_pass_is_cached eng cpu_spec "m0id" "ConvPass" conv_item (JObj [])
                   (Some (Model "m0")) conv_state st1' (Model "out:ConvPass") id
                   "ConvPass" conv_item (JObj []) (Some (Model "m0")) st1'
                   _ Hrun _ _ _ _ _ _ _) _).
  - reflexivity.
  - vm_compute. discriminate.
  - intros m _. eexists. reflexivity.
  - reflexivity.
  - reflexivity.
  - reflexivity.
  - reflexivity.
  - reflexivity.
  - reflexivity.
Defined.

(** The second execution, evaluated: one host call in all. *)
Example second_execution_is_a_hit :
  let eng := conv_engine true good_host in
  let r1 := _run_pass eng "ConvPass" (JObj []) (Some (Model "m0")) "m0id" cpu_spec conv_state in
  let r2 := _run_pass eng "ConvPass" (JObj []) (Some (Model "m0")) "m0id" cpu_spec (snd r1) in
  fst r2 = fst r1 /\ host_calls (snd r1) = 1%nat /\ host_calls (snd r2) = 1%nat.
Proof. vm_compute. repeat split; reflexivity. Qed.

(** With the model sidecar removed between the two executions the pass
    runs again, under a new number. *)
Example missing_sidecar_reruns :
  let eng := conv_engine true good_host in
  let r1 := _run_pass eng "ConvPass" (JObj []) (Some (Model "m0")) "m0id" cpu_spec conv_state in
  let st2 := with_models_dir
               (delete "0_ConvPass-m0id-h0-cpu-CPUExecutionProvider.json" (models_dir (snd r1)))
               (snd r1) in
  let r2 := _run_pass eng "ConvPass" (JObj []) (Some (Model "m0")) "m0id" cpu_spec st2 in
  fst r2 = Ok (Model "out:ConvPass", "1_ConvPass-m0id-h0-cpu-CPUExecutionProvider") /\
  host_calls (snd r2) = 2%nat.
Proof. vm_compute. split; reflexivity. Qed.

(** ** Host failures without search *)



(** ** Goals *)

(** C3.  On a metric whose only goal is a threshold of 0.9,
    [resolve_goals] evaluates nothing and returns the empty mapping: the
    metric's key is not mapped to the goal's value. *)
Lemma resolve_goals_drops_thresholds :
  let goal := mkMetricGoal threshold 0.9%float in
  let metrics := [accuracy_metric goal] in
  let r := resolve_goals (evaluating_engine metrics) "m0" "m0id" metrics cpu_spec empty_state in
  r = (Ok [], empty_state) /\
  evaluations (snd r) = 0%nat /\
  (forall resolved, fst r = Ok resolved ->
     PyDict.get (joint_metric_key "accuracy" "accuracy_score") resolved = None) /\
  ~ (forall resolved, fst r = Ok resolved ->
       PyDict.get (joint_metric_key "accuracy" "accuracy_score") resolved
         = Some (Some (goal_value goal))).
Proof.
  intros goal metrics r.
  assert (Hr : r = (Ok [], empty_state)) by (vm_compute; reflexivity).
  split; [exact Hr|]. rewrite Hr. split; [reflexivity|]. split.
  - intros resolved [= <-]. reflexivity.
  - intros Hall. specialize (Hall [] eq_refl). discriminate.
Qed.

(** Next to a goal that needs the baseline, the same threshold goal
    resolves to its value. *)
Example threshold_beside_baseline_goal :
  let metrics := [accuracy_metric (mkMetricGoal threshold 0.9%float);
                  latency_metric (mkMetricGoal percent_max_degradation 10%float)] in
  fst (resolve_goals (evaluating_engine metrics) "m0" "m0id" metrics cpu_spec empty_state)
  = Ok [("accuracy-accuracy_score", Some 0.9%float); ("latency-avg", Some 22%float)].
Proof. vm_compute. reflexivity. Qed.


(** ** Accelerators *)

(** [accelerator_specs_resolved] on a target with a GPU and a CPU, and on
    a CPU target whose only requested provider is not available. *)
Lemma accelerator_specs_resolved_witness :
  let eps := Some ["CUDAExecutionProvider"; "CPUExecutionProvider"; "TensorrtExecutionProvider"] in
  let specs := [mkAcceleratorSpec "gpu" "CUDAExecutionProvider"; cpu_spec] in
  (init_accelerator_specs (target_of ["GPU"; "CPU"]) eps = Ok specs /\
   specs <> [] /\
   (forall s1 s2, s1 ∈ specs -> s2 ∈ specs ->
                  execution_provider s1 = execution_provider s2 -> s1 = s2) /\
   (forall s, s ∈ specs -> execution_provider s = "CPUExecutionProvider" ->
              accelerator_type s = "cpu")) /\
  init_accelerator_specs (target_of ["CPU"]) (Some ["CUDAExecutionProvider"])
    = Raise AssertionError.
Proof.
  intros eps specs. split.
  - assert (Hinit : init_accelerator_specs (target_of ["GPU"; "CPU"]) eps = Ok specs)
      by (vm_compute; reflexivity).
    split; [exact Hinit|].
    destruct (proj1 (accelerator_specs_resolved (target_of ["GPU"; "CPU"]) eps) specs Hinit)
      as (Hne & Huniq & Hcpu & _).
    split; [exact Hne|]. split; [exact Huniq|].
    apply Hcpu. vm_compute. set_solver.
  - refine (proj2 (accelerator_specs_resolved (target_of ["CPU"])
                     (Some ["CUDAExecutionProvider"]))
              ["CUDAExecutionProvider"]
              (mkResolver {["CUDAExecutionProvider"]} {["CUDAExecutionProvider"]} []) _ _ _).
    + vm_compute. reflexivity.
    + vm_compute. reflexivity.
    + reflexivity.
Defined.

(** A provider listed twice by the user is paired twice with the device:
    the two specs are equal. *)
Example repeated_provider_repeated_spec :
  init_accelerator_specs (target_of ["CPU"])
    (Some ["CPUExecutionProvider"; "CPUExecutionProvider"]) = Ok [cpu_spec; cpu_spec].
Proof. vm_compute. reflexivity. Qed.

(** ** The allocator *)

(** [allocator_never_reuses] on a directory with leftovers. *)
Lemma allocator_never_reuses_witness :
  let eng := conv_engine true good_host in
  let st1 := snd (initialize eng leftover_state) in
  (initialize eng leftover_state = (Ok tt, st1) /\ counter_mono st1 st1) /\
  exists n,
    _get_new_model_number st1 = (Ok n, with_new_model_number (n + 1) st1) /\
    (forall rest, models_dir st1 !! (PyStr.str_of_int n +:+ "_" +:+ rest) = None) /\
    (forall stp np stp',
        _get_new_model_number stp = (Ok np, stp') -> counter_mono stp' st1 -> np < n) /\
    (forall m rest,
        is_Some ((if cfg_clean_cache eng then ∅ else models_dir leftover_state)
                   !! (PyStr.str_of_int m +:+ "_" +:+ rest)) ->
        m < n).
Proof.
  intros eng st1.
  assert (Hinit : initialize eng leftover_state = (Ok tt, st1)) by (vm_compute; reflexivity).
  assert (Hmono : counter_mono st1 st1) by (unfold counter_mono; lia).
  split; [split; assumption|].
  exact (allocator_never_reuses eng leftover_state st1 st1 Hinit Hmono).
Defined.

(** The leftover directory "3_Quant-1-h0" has no sidecar: the first number
    is 4. *)
Example allocator_skips_leftovers :
  fst (_get_new_model_number (snd (initialize (conv_engine true good_host) leftover_state)))
  = Ok 4.
Proof. vm_compute. reflexivity. Qed.

(** ** The pruned sentinel *)

(** [pruned_round_trip] on an empty cache directory. *)
Lemma pruned_round_trip_witness :
  let id := "0_ConvPass-m0id-h0" in
  (models_dir empty_state !! get_model_json_path id <> Some EDir /\
   exists st',
     _cache_model PRUNED_CONFIG id true empty_state = (Ok tt, st') /\
     models_dir st' !! get_model_json_path id = Some (EFile (JsonText (JObj []))) /\
     _load_model id st' = (Ok (Some PRUNED_CONFIG), st')) /\
  ((forall j, models_dir empty_state !! get_model_json_path id <> Some (EFile (JsonText j))) /\
   exists st', _load_model id empty_state = (Ok None, st') /\
               models_dir st' = models_dir empty_state /\ runs_dir st' = runs_dir empty_state).
Proof.
  intros id.
  assert (Hdir : models_dir empty_state !! get_model_json_path id <> Some EDir)
    by (vm_compute; discriminate).
  assert (Hnone : forall j, models_dir empty_state !! get_model_json_path id
                            <> Some (EFile (JsonText j)))
    by (intros j; vm_compute; discriminate).
  split.
  - split; [exact Hdir|].
    exact (proj1 (pruned_round_trip id empty_state) true Hdir).
  - split; [exact Hnone|].
    exact (proj2 (proj2 (pruned_round_trip id empty_state)) Hnone).
Defined.

(** ** [run] *)

(** [no_search_rejects_search_space] on an engine whose pass has a search
    space. *)
Lemma no_search_rejects_search_space_witness :
  exists st',
    run_accelerators no_run_search (searching_engine true) "m0" None false [cpu_spec] []
      empty_state = (Raise ValueError, st') /\
    trace st' = trace empty_state /\ world st' = world empty_state /\
    models_dir st' = models_dir empty_state /\ runs_dir st' = runs_dir empty_state.
Proof.
  refine (no_search_rejects_search_space no_run_search (searching_engine true) "m0" None false
            cpu_spec [] [] empty_state _ _).
  - reflexivity.
  - exists (descriptor "ConvPass" [("opt", JArr [JStr "x"; JStr "y"])] None).
    split; [left|vm_compute; discriminate].
Defined.

(** The same with search enabled: the pass is registered. *)
Example search_space_registers_with_search :
  fst (setup_passes (searching_engine false) cpu_spec empty_state) = Ok tt.
Proof. vm_compute. reflexivity. Qed.


(** [run] on that engine returns, the failed accelerator missing from the
    outputs; a [ValueError] of the host leaves [run]. *)
Example run_skips_failed_accelerator :
  let r := run no_run_search (conv_engine true (failing_host (OtherException "RuntimeError")))
             "m0" false None false empty_state in
  fst r = Ok [] /\ last (trace (snd r)) = Some (EvLogWarning "Failed to run Olive").
Proof. vm_compute. split; reflexivity. Qed.

Example run_raises_value_error :
  fst (run no_run_search (conv_engine true (failing_host ValueError)) "m0" false None false
         empty_state) = Raise ValueError.
Proof. vm_compute. reflexivity. Qed.

(** ** The output of a run without search *)

(** [no_search_terminal_output] on the one-pass engine, no output name
    given anywhere. *)
Lemma no_search_terminal_output_witness :
  let eng := conv_engine true good_host in
  let id := "0_ConvPass-m0id-h0-cpu-CPUExecutionProvider" in
  let st1 := snd (run_no_search_step eng "m0" "m0id" cpu_spec conv_state) in
  run_no_search_step eng "m0" "m0id" cpu_spec conv_state
    = (Ok ([("ConvPass", JObj [])], false, None, [id]), st1) /\
  exists j st2 last_pass terminal last_id,
    run_no_search eng "m0" "m0id" cpu_spec None conv_state
      = (Ok (Some (OutModel j None)), st2) /\
    last (map fst [("ConvPass", JObj [])]) = Some last_pass /\
    PyDict.get last_pass (passes st1) = Some terminal /\
    last [id] = Some last_id /\
    let name := final_output_name cpu_spec None
                  (pass_output_name cpu_spec (pi_output_name terminal)) in
    (exists events,
        trace st2 = (trace st1 ++ events)%list /\
        last (List.filter is_save_model events) = Some (EvSaveModel last_id (name +:+ "_model"))) /\
    (str_truthy None = false -> str_truthy (pi_output_name terminal) = false ->
     name = accel_str cpu_spec).
Proof.
  intros eng id st1.
  assert (Hstep : run_no_search_step eng "m0" "m0id" cpu_spec conv_state
                  = (Ok ([("ConvPass", JObj [])], false, None, [id]), st1))
    by (vm_compute; reflexivity).
  split; [exact Hstep|].
  refine (no_search_terminal_output eng "m0" "m0id" cpu_spec None conv_state st1
            [("ConvPass", JObj [])] None [id] Hstep _ _).
  - vm_compute. discriminate.
  - intros dir mid name w. eexists. eexists. split; reflexivity.
Defined.

(** The run, evaluated: the artifact is named after the accelerator. *)
Example no_search_default_name :
  fst (run_no_search (conv_engine true good_host) "m0" "m0id" cpu_spec None conv_state)
  = Ok (Some (OutModel (JObj [("saved", JStr "cpu-CPUExecutionProvider_model")]) None)).
Proof. vm_compute. reflexivity. Qed.

(** ** More of the accelerator specs *)

Lemma accelerator_specs_sound_witness :
  let target := target_of ["GPU"; "CPU"] in
  let eps := ["CUDAExecutionProvider"; "CPUExecutionProvider"; "TensorrtExecutionProvider"] in
  let specs := [mkAcceleratorSpec "gpu" "CUDAExecutionProvider"; cpu_spec] in
  init_accelerator_specs target (Some eps) = Ok specs /\
  forall s, s ∈ specs ->
    execution_provider s ∈ eps /\
    accelerator_type s ∈ map PyStr.lower ["GPU"; "CPU"] /\
    execution_provider s ∈ get_execution_providers_for_device (accelerator_type s).
Proof.
  intros target eps specs.
  assert (Hinit : init_accelerator_specs target (Some eps) = Ok specs)
    by (vm_compute; reflexivity).
  split; [exact Hinit|].
  exact (accelerator_specs_sound target (Some eps) eps specs eq_refl Hinit).
Defined.

Lemma first_device_takes_the_providers_witness :
  let target := target_of ["GPU"; "CPU"] in
  let eps := Some ["CUDAExecutionProvider"; "CPUExecutionProvider"] in
  let specs := [mkAcceleratorSpec "gpu" "CUDAExecutionProvider"; cpu_spec] in
  init_accelerator_specs target eps = Ok specs /\
  forall s, s ∈ specs ->
    accelerator_type s = PyStr.lower "GPU" \/
    (execution_provider s = "CPUExecutionProvider" /\ accelerator_type s = "cpu").
Proof.
  intros target eps specs.
  assert (Hinit : init_accelerator_specs target eps = Ok specs) by (vm_compute; reflexivity).
  split; [exact Hinit|].
  exact (first_device_takes_the_providers target eps "GPU" ["CPU"] specs eq_refl Hinit).
Defined.

(** With the cpu listed first, the provider of the gpu is rejected for
    the cpu and never offered to the gpu. *)
Example later_device_misses_its_provider :
  init_accelerator_specs (target_of ["CPU"; "GPU"])
    (Some ["CPUExecutionProvider"; "CUDAExecutionProvider"]) = Ok [cpu_spec].
Proof. vm_compute. reflexivity. Qed.

Example unknown_device_example :
  init_accelerator_specs (target_of ["CPU"; "TPU"]) (Some ["CPUExecutionProvider"])
  = Raise ValueError.
Proof. vm_compute. reflexivity. Qed.

(** ** Registering *)

(** Three registrations of one class, the first under a name of the
    user's: the generated names do not see it. *)
Example register_names :
  let reg name pc := fst (register (a_pass_type "ConvPass" []) None false name None None false
                            None pc ready_state) in
  match reg (Some "ConvPass_1") [] with
  | Ok pc1 =>
      match reg None pc1 with
      | Ok pc2 =>
          match reg None pc2 with
          | Ok pc3 => PyDict.keys pc3 = ["ConvPass_1"; "ConvPass"; "ConvPass_2"]
          | Raise _ => False
          end
      | Raise _ => False
      end
  | Raise _ => False
  end.
Proof. vm_compute. reflexivity. Qed.

Lemma register_named_replaces_witness :
  let pass_config := [("conv", descriptor "ConvPass" [] None)] in
  exists pass_config',
    register (a_pass_type "Quant" []) (Some (JObj [("bits", JInt 8)])) true (Some "conv") None
      None false None pass_config ready_state = (Ok pass_config', ready_state) /\
    PyDict.keys pass_config' = ["conv"] /\
    PyDict.get "conv" pass_config' =
      Some (mkPassDescriptor (a_pass_type "Quant" []) (JObj [("bits", JInt 8)]) true None None
              false None) /\
    forall other, other <> "conv" ->
      PyDict.get other pass_config' = PyDict.get other pass_config.
Proof.
  intros pass_config.
  exact (register_named_replaces (a_pass_type "Quant" []) (Some (JObj [("bits", JInt 8)])) true
           "conv" None None false None pass_config (descriptor "ConvPass" [] None) ready_state
           eq_refl eq_refl).
Defined.

Lemma setup_passes_registers_in_order_witness :
  exists st',
    setup_passes twin_engine cpu_spec ready_state = (Ok tt, st') /\
    PyDict.values (passes st') = map (item_of cpu_spec) (PyDict.values (pass_config twin_engine)) /\
    NoDup (PyDict.keys (passes st')) /\
    Forall2 (fun name config =>
               exists k, 0 <= k /\
                 name = auto_name (pass_class_name (instance_of cpu_spec config)) k)
            (PyDict.keys (passes st')) (PyDict.values (pass_config twin_engine)) /\
    pass_search_spaces st' =
      map (fun kv => (fst kv, search_space (pi_pass (snd kv)))) (passes st').
Proof.
  apply (setup_passes_registers_in_order twin_engine cpu_spec ready_state).
  intros Hns. vm_compute in Hns. discriminate.
Defined.

(** The names [setup_passes] gives the two passes of [twin_engine]. *)
Example setup_passes_names :
  PyDict.keys (passes (snd (setup_passes twin_engine cpu_spec ready_state)))
  = ["ConvPass"; "ConvPass_1"].
Proof. vm_compute. reflexivity. Qed.

(** ** [initialize] on directories that are not empty *)



(** A number that is taken is skipped, a free one below it is not. *)
Example allocator_skips_only_taken_numbers :
  let st := with_models_dir {[ "1_ConvPass-h1-h0.json" := EFile (JsonText (JObj [])) ]}
              ready_state in
  let r1 := _get_new_model_number st in
  let r2 := _get_new_model_number (snd r1) in
  fst r1 = Ok 0 /\ fst r2 = Ok 2.
Proof. vm_compute. split; reflexivity. Qed.

(** ** The cache of models *)

Lemma cache_then_load_model_witness :
  exists st',
    _cache_model (Model "m0") "h1" true ready_state = (Ok tt, st') /\
    _load_model "h1" st' = (Ok (Some (Model "m0")), st').
Proof.
  refine (cache_then_load_model "m0" "h1" true ready_state _).
  vm_compute. discriminate.
Defined.

Lemma init_input_model_idempotent_witness :
  exists st1,
    _init_input_model "m0" ready_state = (Ok "h1", st1) /\
    models_dir st1 !! get_model_json_path "h1"
      = Some (EFile (JsonText (model_to_json false "m0"))) /\
    new_model_number st1 = new_model_number ready_state /\
    _init_input_model "m0" st1 = (Ok "h1", st1).
Proof.
  refine (init_input_model_idempotent "m0" ready_state _).
  vm_compute. discriminate.
Defined.

Lemma rejected_sidecar_is_fatal_witness :
  _run_pass (conv_engine false good_host) "ConvPass" (JObj []) (Some (Model "m0")) "m0id"
    cpu_spec refused_state = (Raise ValueError, refused_state).
Proof.
  refine (rejected_sidecar_is_fatal (conv_engine false good_host) "ConvPass" conv_item (JObj [])
            (Some (Model "m0")) "m0id" cpu_spec refused_state
            (JObj [("output_model_id", JStr (conv_output_id 7))]) (conv_output_id 7)
            (JObj [("format", JStr "?")]) ValueError eq_refl _ eq_refl _ eq_refl eq_refl).
  - vm_compute. reflexivity.
  - vm_compute. reflexivity.
Defined.

(** ** Executions of a pass *)

Lemma invalid_search_point_is_pruned_witness :
  let eng := engine false good_host [] in
  let run_path := "Picky-m0id-h0-cpu-CPUExecutionProvider.json" in
  exists n st',
    let output_model_id := new_output_model_id picky_pass n "m0id" (JObj []) cpu_spec in
    _run_pass eng "Picky" (JObj []) (Some (Model "m0")) "m0id" cpu_spec picky_state
      = (Ok (PRUNED_CONFIG, output_model_id), st') /\
    host_calls st' = host_calls picky_state /\ world st' = world picky_state /\
    models_dir st' !! output_model_id = Some EDir /\
    models_dir st' !! get_model_json_path output_model_id = Some (EFile (JsonText (JObj []))) /\
    run_cached st' run_path output_model_id.
Proof.
  intros eng run_path.
  refine (invalid_search_point_is_pruned eng "Picky" picky_item (JObj []) (Some (Model "m0"))
            "m0id" cpu_spec picky_state eq_refl eq_refl eq_refl _).
  vm_compute. reflexivity.
Defined.

Lemma run_pass_miss_runs_the_host_witness :
  let eng := conv_engine true good_host in
  let p := pi_pass conv_item in
  exists n st',
    let output_model_id := new_output_model_id p n "m0id" (JObj []) cpu_spec in
    new_model_number conv_state <= n /\ new_model_number st' = n + 1 /\
    _run_pass eng "ConvPass" (JObj []) (Some (Model "m0")) "m0id" cpu_spec conv_state
      = (Ok (Model "out:ConvPass", output_model_id), st') /\
    trace st' = (trace conv_state ++
                   [EvRunPass "ConvPass" ("models/" +:+ output_model_id +:+ "/output_model")])%list /\
    models_dir st' =
      <[get_model_json_path output_model_id :=
          EFile (JsonText (model_to_json true "out:ConvPass"))]>
        (<[output_model_id := EDir]> (models_dir conv_state)) /\
    exists run_json,
      runs_dir st' = <[conv_run_path := EFile (JsonText run_json)]> (runs_dir conv_state) /\
      run_output_model_id run_json = Ok (Some output_model_id).
Proof.
  intros eng p.
  refine (run_pass_miss_runs_the_host eng "ConvPass" conv_item (JObj []) (Some (Model "m0"))
            "m0id" cpu_spec conv_state "out:ConvPass" eq_refl (or_intror eq_refl) _ _ _).
  - vm_compute. reflexivity.
  - right. exists "m0". split; reflexivity.
  - intros path. eexists. reflexivity.
Defined.

Lemma failed_pass_leaves_a_directory_witness :
  let eng := conv_engine true (failing_host ValueError) in
  let p := pi_pass conv_item in
  exists n st',
    let output_model_id := new_output_model_id p n "m0id" (JObj []) cpu_spec in
    new_model_number conv_state <= n /\ new_model_number st' = n + 1 /\
    _run_pass eng "ConvPass" (JObj []) (Some (Model "m0")) "m0id" cpu_spec conv_state
      = (Raise ValueError, st') /\
    models_dir st' = <[output_model_id := EDir]> (models_dir conv_state) /\
    models_dir st' !! get_model_json_path output_model_id = None /\
    runs_dir st' = runs_dir conv_state.
Proof.
  intros eng p.
  refine (failed_pass_leaves_a_directory eng "ConvPass" conv_item (JObj []) (Some (Model "m0"))
            "m0id" cpu_spec conv_state ValueError eq_refl (or_intror eq_refl) _ _ _ _ eq_refl).
  - vm_compute. reflexivity.
  - right. exists "m0". split; reflexivity.
  - intros path. eexists. reflexivity.
  - discriminate.
Defined.

(** The pass that failed is tried again under the next number. *)
Example failed_pass_is_retried_under_a_new_number :
  let r1 := _run_pass (conv_engine true (failing_host ValueError)) "ConvPass" (JObj [])
              (Some (Model "m0")) "m0id" cpu_spec conv_state in
  let r2 := _run_pass (conv_engine true good_host) "ConvPass" (JObj [])
              (Some (Model "m0")) "m0id" cpu_spec (snd r1) in
  fst r1 = Raise ValueError /\
  fst r2 = Ok (Model "out:ConvPass", conv_output_id 1).
Proof. vm_compute. split; reflexivity. Qed.


Example output_model_id_example :
  new_output_model_id (pi_pass conv_item) 12 "3_Quant-h1-h0" (JObj []) cpu_spec
  = "12_ConvPass-3-h0-cpu-CPUExecutionProvider".
Proof. vm_compute. reflexivity. Qed.

(** ** Steps *)

Lemma pruned_step_stops_witness :
  let eng := conv_engine true (failing_host OlivePassException) in
  let step := [("ConvPass", JObj [])] in
  let st' := snd (_run_passes eng step (Some (Model "m0")) "m0id" cpu_spec conv_state) in
  _run_passes eng step (Some (Model "m0")) "m0id" cpu_spec conv_state
    = (Ok (true, None, []), st') /\
  (None : option MetricResult) = None /\
  (length ([] : list string) < length step)%nat /\
  evaluations st' = evaluations conv_state /\
  forall rest,
    _run_passes eng (step ++ rest) (Some (Model "m0")) "m0id" cpu_spec conv_state
      = (Ok (true, None, []), st').
Proof.
  intros eng step st'.
  assert (Hrun : _run_passes eng step (Some (Model "m0")) "m0id" cpu_spec conv_state
                 = (Ok (true, None, []), st')) by (vm_compute; reflexivity).
  split; [exact Hrun|].
  exact (pruned_step_stops eng step (Some (Model "m0")) "m0id" cpu_spec conv_state st' None []
           Hrun).
Defined.


(** Without search and without an evaluator the same step is not
    evaluated. *)
Example no_search_step_is_not_evaluated :
  let r := _run_passes (conv_engine true good_host) [("ConvPass", JObj [])]
             (Some (Model "m0")) "m0id" cpu_spec conv_state in
  fst r = Ok (false, None, [conv_output_id 0]) /\ evaluations (snd r) = 0%nat.
Proof. vm_compute. split; reflexivity. Qed.

(** ** [run] *)


Lemma no_search_without_passes_witness :
  let eng := engine true good_host [] in
  exists st',
    run no_run_search eng "m0" false None false ready_state = (Ok [], st') /\
    host_calls st' = host_calls ready_state /\ evaluations st' = evaluations ready_state /\
    world st' = world ready_state /\
    run_warnings st' = (run_warnings ready_state + length (accelerator_specs eng))%nat.
Proof.
  intros eng.
  exact (no_search_without_passes no_run_search eng "m0" false None ready_state
           eq_refl eq_refl eq_refl).
Defined.

Lemma evaluation_only_runs_no_pass_witness :
  let eng := evaluating_engine [accuracy_metric (mkMetricGoal threshold 0.9%float)] in
  let r := run no_run_search eng "m0" true (Some "best") true leftover_state in
  fst r = Ok [(cpu_spec, OutMetrics baseline)] /\
  host_calls (snd r) = host_calls leftover_state.
Proof.
  intros eng r. split; [vm_compute; reflexivity|].
  apply (evaluation_only_runs_no_pass no_run_search eng "m0" true (Some "best") leftover_state
           (snd r) (fst r)).
  unfold r. destruct (run _ _ _ _ _ _ _). reflexivity.
Defined.


Lemma search_needs_an_evaluator_witness :
  let eng := conv_engine false good_host in
  exists st',
    run (run_search no_search_loop) eng "m0" false None false ready_state
      = (Raise ValueError, st') /\
    host_calls st' = host_calls ready_state /\ evaluations st' = evaluations ready_state /\
    world st' = world ready_state.
Proof.
  intros eng.
  exact (search_needs_an_evaluator no_search_loop eng "m0" false None cpu_spec []
           (descriptor "ConvPass" [] None) ready_state eq_refl eq_refl eq_refl eq_refl eq_refl
           eq_refl).
Defined.

(** ** The output of a pruned run without search *)

Lemma pruned_step_gives_no_output_witness :
  let eng := conv_engine true (failing_host OlivePassException) in
  let st1 := snd (run_no_search_step eng "m0" "m0id" cpu_spec conv_state) in
  run_no_search_step eng "m0" "m0id" cpu_spec conv_state
    = (Ok ([("ConvPass", JObj [])], true, None, []), st1) /\
  run_no_search eng "m0" "m0id" cpu_spec (Some "best") conv_state = (Ok None, st1).
Proof.
  intros eng st1.
  assert (Hstep : run_no_search_step eng "m0" "m0id" cpu_spec conv_state
                  = (Ok ([("ConvPass", JObj [])], true, None, []), st1))
    by (vm_compute; reflexivity).
  split; [exact Hstep|].
  refine (pruned_step_gives_no_output eng "m0" "m0id" cpu_spec (Some "best") conv_state st1
            [("ConvPass", JObj [])] None [] Hstep _).
  intros pass_id Hin. apply list_elem_of_singleton in Hin. subst pass_id.
  exists conv_item. split; vm_compute; reflexivity.
Defined.

(** ** Objectives *)

Lemma objectives_are_ranked_witness :
  let metrics := [latency_metric (mkMetricGoal percent_max_degradation 10%float);
                  accuracy_metric (mkMetricGoal threshold 0.9%float)] in
  let eng := evaluating_engine metrics in
  let r := resolve_goals eng "m0" "m0id" metrics cpu_spec ready_state in
  r = (Ok [("latency-avg", Some 22%float); ("accuracy-accuracy_score", Some 0.9%float)], snd r) /\
  exists objectives,
    resolve_objectives eng "m0" "m0id" metrics cpu_spec ready_state = (Ok objectives, snd r) /\
    StronglySorted ranked_before objectives /\
    NoDup (PyDict.keys objectives).
Proof.
  intros metrics eng r.
  assert (Hgoals : r = (Ok [("latency-avg", Some 22%float);
                            ("accuracy-accuracy_score", Some 0.9%float)], snd r))
    by (vm_compute; reflexivity).
  split; [exact Hgoals|].
  destruct (objectives_are_ranked eng "m0" "m0id" metrics cpu_spec ready_state (snd r) _ Hgoals)
    as (objectives & Hobj & Hsorted & Hnd & _).
  exists objectives. auto.
Defined.

(** The metrics are declared latency first; the objectives come out
    accuracy first, its priority being 1. *)
Example objectives_order :
  let metrics := [latency_metric (mkMetricGoal percent_max_degradation 10%float);
                  accuracy_metric (mkMetricGoal threshold 0.9%float)] in
  option_map PyDict.keys
    (match fst (resolve_objectives (evaluating_engine metrics) "m0" "m0id" metrics cpu_spec
                  ready_state) with
     | Ok objectives => Some objectives
     | Raise _ => None
     end)
  = Some ["accuracy-accuracy_score"; "latency-avg"].
Proof. vm_compute. reflexivity. Qed.

(** ** The evaluation cache *)

Lemma evaluation_is_cached_witness :
  let eng := conv_engine true good_host in
  let r := _evaluate_model_cached signal_dict signal_of_dict evaluate_model eng ∅
             (Some (Model "m0")) "m0id" None cpu_spec ready_state in
  let evaluations1 := snd (match fst r with Ok x => x | Raise _ => ([], ∅) end) in
  r = (Ok (baseline, evaluations1), snd r) /\
  world (snd r) = ["evaluate"] /\
  forall model2 evaluator_config2 st2,
    _evaluate_model_cached signal_dict signal_of_dict evaluate_model eng evaluations1 model2
      "m0id" evaluator_config2 cpu_spec st2
    = (Ok (baseline, evaluations1),
       with_footprints
         (footprints st2 ++
            [(cpu_spec, mkFootprintRecord "m0id" None None None None (Some baseline))]) st2).
Proof.
  intros eng r evaluations1.
  assert (Hfirst : r = (Ok (baseline, evaluations1), snd r)) by (vm_compute; reflexivity).
  split; [exact Hfirst|]. split; [vm_compute; reflexivity|].
  refine (evaluation_is_cached signal_dict signal_of_dict evaluate_model eng ∅ evaluations1
            (Some (Model "m0")) "m0id" None cpu_spec ready_state (snd r) baseline Hfirst _ _).
  - vm_compute. discriminate.
  - vm_compute. reflexivity.
Defined.

(** A model id that already carries the accelerator is its own key. *)
Example evaluation_key_example :
  model_id_with_accelerator "0_ConvPass-h1-h0" cpu_spec
    = "0_ConvPass-h1-h0-cpu-CPUExecutionProvider" /\
  model_id_with_accelerator "0_ConvPass-h1-h0-cpu-CPUExecutionProvider" cpu_spec
    = "0_ConvPass-h1-h0-cpu-CPUExecutionProvider".
Proof. vm_compute. split; reflexivity. Qed.
